(** * Task_Automation: the TaskManager of [tasks.py]

    A shallow embedding of the [TaskManager] class of [src/tasks.py] and
    the properties its specification states about it.

    Python objects are modelled as follows.
    - JSON scalars (the values a task record holds) are the type [value].
    - A Python [dict] is an association list in insertion order
      ([dict]); [dict_set] overwrites in place or appends, as
      [d[k] = v] does.
    - Code that reads the clock, the files or [self] runs in the monad
      [M]: a function from the [World] to a [result] and the new world.
      An exception keeps the effects performed before it, as in Python.
    - Library calls whose behaviour is not part of this repository
      ([json], [pathlib]'s glob, [mkdir] and [shutil.copytree], [int],
      the [schedule] module) are the fields of the class [PyLib]; every
      theorem holds for every implementation of them.  [RefLib] is a
      small executable one, used for the concrete runs.
    - A string is a sequence of characters with codes below 256; the
      content of a file is the sequence of its bytes. *)

From Stdlib Require Import List String Ascii ZArith Bool Lia Arith.
From Stdlib Require Import DecimalString.
Import ListNotations.

Local Open Scope list_scope.
Local Open Scope string_scope.

(** ** Values *)

(** The scalars of a task record: [None], [bool], [int], [str]. *)
Inductive value : Type :=
| VNone
| VBool (b : bool)
| VInt (n : Z)
| VStr (s : string).

(** Python truth value: [bool(v)]. *)
Definition truthy (v : value) : bool :=
  match v with
  | VNone => false
  | VBool b => b
  | VInt n => negb (Z.eqb n 0)
  | VStr s => negb (String.eqb s "")
  end.

(** [not v]. *)
Definition py_not (v : value) : value := VBool (negb (truthy v)).

(** [v == "literal"] for a string literal: only a [str] is equal to it. *)
Definition eq_str (v : value) (lit : string) : bool :=
  match v with
  | VStr s => String.eqb s lit
  | _ => false
  end.

Definition str_of_Z (n : Z) : string := NilZero.string_of_int (Z.to_int n).
Definition str_of_nat (n : nat) : string := NilZero.string_of_uint (Nat.to_uint n).

(** [str(v)], the text an f-string inserts for [{v}]. *)
Definition py_str (v : value) : string :=
  match v with
  | VNone => "None"
  | VBool true => "True"
  | VBool false => "False"
  | VInt n => str_of_Z n
  | VStr s => s
  end.

(** [type(v).__name__], used in the text of a [TypeError]. *)
Definition type_name (v : value) : string :=
  match v with
  | VNone => "NoneType"
  | VBool _ => "bool"
  | VInt _ => "int"
  | VStr _ => "str"
  end.

(** ** Dictionaries *)

Definition dict (V : Type) : Type := list (string * V).

Fixpoint dict_get {V : Type} (k : string) (d : dict V) : option V :=
  match d with
  | [] => None
  | (k', v) :: r => if String.eqb k k' then Some v else dict_get k r
  end.

(** [d[k] = v]: an existing key keeps its position, a new one goes last. *)
Fixpoint dict_set {V : Type} (k : string) (v : V) (d : dict V) : dict V :=
  match d with
  | [] => [(k, v)]
  | (k', v') :: r =>
      if String.eqb k k' then (k, v) :: r else (k', v') :: dict_set k v r
  end.

(** [del d[k]]. *)
Fixpoint dict_del {V : Type} (k : string) (d : dict V) : dict V :=
  match d with
  | [] => []
  | (k', v') :: r => if String.eqb k k' then r else (k', v') :: dict_del k r
  end.

(** [k in d]. *)
Definition dict_has {V : Type} (k : string) (d : dict V) : bool :=
  match dict_get k d with Some _ => true | None => false end.

(** [d.get(k, default)]. *)
Definition dict_get_default {V : Type} (k : string) (default : V) (d : dict V) : V :=
  match dict_get k d with Some v => v | None => default end.

(** [{**d, **extra}]: the keys of [extra] are assigned in order. *)
Definition dict_update {V : Type} (d extra : dict V) : dict V :=
  fold_left (fun acc kv => dict_set (fst kv) (snd kv) acc) extra d.

Definition keys {V : Type} (d : dict V) : list string := map fst d.

(** A task record and the task mapping [self.tasks]. *)
Abbreviation task := (dict value).
Abbreviation store := (dict (dict value)).

(** ** Exceptions *)

(** The exceptions the modelled code can meet; all derive from
    [Exception], so [except Exception] catches each of them. *)
Inductive exn : Type :=
| KeyError (key : string)
| TypeError (msg : string)
| ValueError (msg : string)
| AttributeError (msg : string)
| OSError (msg : string)
| JSONDecodeError (msg : string)
| NotImplementedError (msg : string)
| ScheduleValueError (msg : string)
| UnicodeDecodeError (msg : string)
| OverflowError (msg : string)
| IndexError (msg : string)
| NoReturn.

Definition quoted (s : string) : string := "'" ++ s ++ "'".

(** [str(e)].  A [KeyError] prints the [repr] of its key; the keys read
    here are plain identifiers, whose [repr] is the key in quotes.
    [NoReturn] is no exception: it marks a call into the [schedule]
    module that never comes back.  It stands among the exceptions because
    it ends the run of the calling thread as they do; this program makes
    such calls in the scheduler thread only, outside every [try], so no
    handler ever meets it and it has no text. *)
Definition exn_str (e : exn) : string :=
  match e with
  | KeyError k => quoted k
  | TypeError m | ValueError m | AttributeError m | OSError m
  | JSONDecodeError m | NotImplementedError m | ScheduleValueError m
  | UnicodeDecodeError m | OverflowError m | IndexError m => m
  | NoReturn => ""
  end.

Inductive result (A : Type) : Type :=
| Ok (a : A)
| Raise (e : exn).
Arguments Ok {A} a.
Arguments Raise {A} e.

(** ** Clock *)

(** [datetime.now()]: a broken-down local time, of a year of four
    digits. *)
Record datetime : Type := mkDatetime {
  year : nat; month : nat; day : nat;
  hour : nat; minute : nat; second : nat; microsecond : nat
}.

Fixpoint zeros (n : nat) : string :=
  match n with O => "" | S n' => "0" ++ zeros n' end.

(** [n] in decimal, padded with zeros on the left to [width] digits. *)
Definition pad (width n : nat) : string :=
  let s := str_of_nat n in zeros (width - String.length s) ++ s.

(** [strftime("%Y-%m-%d")] and [strftime("%H:%M:%S")]. *)
Definition fmt_date (sep : string) (d : datetime) : string :=
  pad 4 (year d) ++ sep ++ pad 2 (month d) ++ sep ++ pad 2 (day d).
Definition fmt_time (sep : string) (d : datetime) : string :=
  pad 2 (hour d) ++ sep ++ pad 2 (minute d) ++ sep ++ pad 2 (second d).

(** [d.isoformat()]: the fraction is printed only when it is not zero. *)
Definition isoformat (d : datetime) : string :=
  fmt_date "-" d ++ "T" ++ fmt_time ":" d ++
  match microsecond d with
  | O => ""
  | us => "." ++ pad 6 us
  end.

(** [d.strftime("%Y%m%d_%H%M%S")]. *)
Definition strftime_compact (d : datetime) : string :=
  fmt_date "" d ++ "_" ++ fmt_time "" d.

(** [d.strftime("%Y-%m-%d %H:%M:%S")]. *)
Definition strftime_log (d : datetime) : string :=
  fmt_date "-" d ++ " " ++ fmt_time ":" d.

(** ** Floats *)

(** [time.time()] and [st_mtime] are floats, numbers of seconds.  The
    model holds the readings that are whole numbers, as integers, and
    computes on them as the interpreter does on doubles: an integer is
    rounded to the nearest double, ties to even, and a result beyond the
    largest double is an infinity, for which [float_inf] and its opposite
    stand. *)
Definition float_inf : Z := 2 ^ 1024.

Definition round_float (z : Z) : Z :=
  let a := Z.abs z in
  let drop := (Z.log2 a - 52)%Z in
  if (drop <=? 0)%Z then z
  else
    let ulp := (2 ^ drop)%Z in
    let q := (a / ulp)%Z in
    let r := (a mod ulp)%Z in
    let q' := if (2 * r <? ulp)%Z then q
              else if (ulp <? 2 * r)%Z then (q + 1)%Z
              else if Z.even q then q else (q + 1)%Z in
    (Z.sgn z * (q' * ulp))%Z.

(** The float a number operand of a float operation is converted to. *)
Definition float_of_int (n : Z) : result Z :=
  let x := round_float n in
  if (float_inf <=? Z.abs x)%Z
  then Raise (OverflowError "int too large to convert to float")
  else Ok x.

(** [a - b] on floats. *)
Definition float_sub (a b : Z) : Z :=
  Z.max (- float_inf) (Z.min float_inf (round_float (a - b))).

(** ** Files *)

(** What [stat] and [unlink] see of one directory entry: whether it is a
    regular file, its modification time, the error [unlink] fails with,
    if it does, and the error [stat] fails with, if it does (a directory
    that may be listed but not searched). *)
Record entry : Type := mkEntry {
  is_file : bool;
  st_mtime : Z;
  unlink_error : option exn;
  stat_error : option exn
}.

(** What is found at a path: a directory open to listing, with its
    entries, some other file, or a path [stat] cannot examine, with the
    error it fails with. *)
Inductive node : Type :=
| Dir (entries : dict entry)
| RegularFile
| Denied (e : exn).

(** ** Scheduler registry *)

Inductive time_unit : Type := Minutes | Hours | Days.

(** A job of the [schedule] library: [every(interval).unit.at(at_time)],
    running [execute_task] on the task registered under [job_name]. *)
Record job : Type := mkJob {
  job_name : string;
  job_interval : Z;
  job_unit : time_unit;
  job_at : option string
}.

(** ** The world *)

(** The state the manager works in.  The two files it writes itself,
    [web_tasks.json] and [web_alerts.log], live in the working directory
    of the application and are held apart from [disk], whose directories
    are those the tasks are pointed at: the model does not follow a task
    pointed at the working directory itself. *)
Record World : Type := mkWorld {
  tasks : store;                 (* self.tasks *)
  running : bool;                (* self.running *)
  jobs : list job;               (* the registry of the schedule module *)
  time_time : Z;                 (* time.time() *)
  now : datetime;                (* datetime.now() *)
  config_doc : option string;    (* the text of web_tasks.json, if it exists *)
  alerts_log : option string;    (* the text of web_alerts.log, if it exists *)
  faults : dict exn;             (* paths that cannot be written, with the error *)
  disk : dict node               (* what is found at the paths tasks work on *)
}.

Definition config_file : string := "web_tasks.json".
Definition alerts_file : string := "web_alerts.log".

Definition set_tasks (s : store) (w : World) : World :=
  mkWorld s (running w) (jobs w) (time_time w) (now w) (config_doc w)
          (alerts_log w) (faults w) (disk w).
Definition set_running (b : bool) (w : World) : World :=
  mkWorld (tasks w) b (jobs w) (time_time w) (now w) (config_doc w)
          (alerts_log w) (faults w) (disk w).
Definition set_jobs (j : list job) (w : World) : World :=
  mkWorld (tasks w) (running w) j (time_time w) (now w) (config_doc w)
          (alerts_log w) (faults w) (disk w).
Definition set_config_doc (c : option string) (w : World) : World :=
  mkWorld (tasks w) (running w) (jobs w) (time_time w) (now w) c
          (alerts_log w) (faults w) (disk w).
Definition set_alerts_log (c : option string) (w : World) : World :=
  mkWorld (tasks w) (running w) (jobs w) (time_time w) (now w) (config_doc w)
          c (faults w) (disk w).
Definition set_disk (d : dict node) (w : World) : World :=
  mkWorld (tasks w) (running w) (jobs w) (time_time w) (now w) (config_doc w)
          (alerts_log w) (faults w) d.

(** ** The monad of effects and exceptions *)

Definition M (A : Type) : Type := World -> result A * World.

Definition ret {A : Type} (a : A) : M A := fun w => (Ok a, w).
Definition raise {A : Type} (e : exn) : M A := fun w => (Raise e, w).
Definition bind {A B : Type} (m : M A) (k : A -> M B) : M B :=
  fun w =>
    match m w with
    | (Ok a, w') => k a w'
    | (Raise e, w') => (Raise e, w')
    end.

(** [try: m except Exception as e: h e]. *)
Definition try_except {A : Type} (m : M A) (h : exn -> M A) : M A :=
  fun w =>
    match m w with
    | (Ok a, w') => (Ok a, w')
    | (Raise e, w') => h e w'
    end.

Definition gets {A : Type} (f : World -> A) : M A := fun w => (Ok (f w), w).
Definition modify (f : World -> World) : M unit := fun w => (Ok tt, f w).

Declare Scope py_scope.
Delimit Scope py_scope with py.
Notation "x <- m ;; k" := (bind m (fun x => k))
  (at level 100, m at next level, right associativity) : py_scope.
Notation "m ;; k" := (bind m (fun _ => k))
  (at level 100, right associativity) : py_scope.
Local Open Scope py_scope.

(** [d[k]]: a missing key raises [KeyError]. *)
Definition getitem {V : Type} (d : dict V) (k : string) : M V :=
  match dict_get k d with
  | Some v => ret v
  | None => raise (KeyError k)
  end.

(** [open(path, "w")] or [open(path, "a")]: fails when the path cannot be
    written. *)
Definition open_write (path : string) : M unit :=
  fs <- gets faults ;;
  match dict_get path fs with
  | Some e => raise e
  | None => ret tt
  end.

Definition lift {A : Type} (r : result A) : M A := fun w => (r, w).

(** A thread started by the caller: the model runs its first steps at
    once; an exception ends the thread and never reaches the caller, and
    neither does a call that never returns. *)
Definition spawn (m : M unit) : M unit := fun w => (Ok tt, snd (m w)).

(** [time.sleep(secs)]: a wait, with no effect on the modelled state (the
    clock fields are the readings of the current call). *)
Definition time_sleep (secs : Z) : M unit := ret tt.

(** ** String helpers of the scheduler *)

Definition startswith (s p : string) : bool := String.prefix p s.

Definition rev_string (s : string) : string :=
  string_of_list_ascii (rev (list_ascii_of_string s)).

Definition endswith (s p : string) : bool :=
  String.prefix (rev_string p) (rev_string s).

Fixpoint drop_while (c : ascii) (l : list ascii) : list ascii :=
  match l with
  | [] => []
  | x :: r => if Ascii.eqb x c then drop_while c r else l
  end.

(** [s.rstrip(c)] for a one-character [c]. *)
Definition rstrip (c : ascii) (s : string) : string :=
  string_of_list_ascii (rev (drop_while c (rev (list_ascii_of_string s)))).

(** White space, for [str.split()]: among the characters below 256 these
    are 9 to 13, 28 to 32, 133 and 160. *)
Definition is_space (c : ascii) : bool :=
  let n := nat_of_ascii c in
  (Nat.leb 9 n && Nat.leb n 13) || (Nat.leb 28 n && Nat.leb n 32)
  || Nat.eqb n 133 || Nat.eqb n 160.

Fixpoint split_chars (l cur : list ascii) : list string :=
  match l with
  | [] =>
      match cur with
      | [] => []
      | _ => [string_of_list_ascii (rev cur)]
      end
  | c :: r =>
      if is_space c then
        match cur with
        | [] => split_chars r []
        | _ => string_of_list_ascii (rev cur) :: split_chars r []
        end
      else split_chars r (c :: cur)
  end.

(** [s.split()]: the words between runs of white space. *)
Definition split (s : string) : list string :=
  split_chars (list_ascii_of_string s) [].

(** [c in s] for a one-character [c]. *)
Definition contains (c : ascii) (s : string) : bool :=
  existsb (Ascii.eqb c) (list_ascii_of_string s).

Definition newline : string := String (ascii_of_nat 10) "".

(** ** Paths *)

(** The pieces of a string between the occurrences of a character. *)
Fixpoint pieces (c : ascii) (l cur : list ascii) : list string :=
  match l with
  | [] => [string_of_list_ascii (rev cur)]
  | x :: r =>
      if Ascii.eqb x c then string_of_list_ascii (rev cur) :: pieces c r []
      else pieces c r (x :: cur)
  end.

(** The root of a POSIX path: two leading slashes are kept, one or more
    than two are one. *)
Definition path_root (s : string) : string :=
  match list_ascii_of_string s with
  | "/"%char :: "/"%char :: "/"%char :: _ => "/"
  | "/"%char :: "/"%char :: _ => "//"
  | "/"%char :: _ => "/"
  | _ => ""
  end.

(** Its components: empty ones and single dots are dropped. *)
Definition path_parts (s : string) : list string :=
  filter (fun part => negb (String.eqb part "" || String.eqb part "."))
         (pieces "/" (list_ascii_of_string s) []).

(** [str(Path(parent) / name)] for a [name] of one component: the path
    is printed in normal form. *)
Definition path_join (parent name : string) : string :=
  path_root parent ++ concat "/" (path_parts parent ++ [name])%list.

(** A glob pattern of one component, other than [**]: it selects among
    the entries of the directory itself. *)
Definition one_component (pattern : string) : bool :=
  negb (contains "/" pattern) && negb (String.eqb pattern "**").

(** ** Library calls *)

Class PyLib : Type := {
  (** the text [json.dump(obj, f, indent=2)] writes *)
  json_dumps : store -> string;
  (** [json.load(f)] on a file with that content, for a document that
      is a mapping of task records, or the exception it raises *)
  json_loads : string -> result store;
  (** does the name of a directory entry match a pattern of one
      component *)
  fnmatch : string -> string -> bool;
  (** the exception [Path.glob(pattern)] raises for a pattern it refuses *)
  glob_check : value -> option exn;
  (** what [Path(dir).glob(pattern)] yields for a pattern that is not of
      one component, which leads into other directories: the entries of
      directories among its matches, each as the directory that holds it
      and its name there *)
  glob_beyond : string -> string -> dict node -> list (string * string);
  (** [Path(p).mkdir(parents=True, exist_ok=True)]: how it ends and the
      disk it leaves *)
  mkdir_parents : string -> dict node -> result unit * dict node;
  (** [shutil.copytree(src, dst)]: how it ends and the disk it leaves *)
  shutil_copytree : string -> string -> dict node -> result unit * dict node;
  (** [int(s)] *)
  py_int : string -> result Z;
  (** what keeps [every(n).minutes.do(job)], or [.hours], from coming
      back with the job registered: the exception it raises, or
      [NoReturn] *)
  every_check : Z -> time_unit -> option exn;
  (** the exception [Job.at(s)] raises for a time it refuses *)
  at_check : string -> option exn
}.

Section TaskManager.
Context {L : PyLib}.

(** ** Persistence *)

(** [TaskManager.load_tasks] *)
Definition load_tasks : M store :=
  doc <- gets config_doc ;;
  match doc with
  | Some text =>
      try_except (lift (json_loads text))
        (fun e =>
           match e with
           | JSONDecodeError _ => ret []
           | _ => raise e
           end)
  | None => ret []
  end.

(** [TaskManager.save_tasks] *)
Definition save_tasks : M unit :=
  open_write config_file ;;
  ts <- gets tasks ;;
  modify (set_config_doc (Some (json_dumps ts))).

(** ** Scheduler *)

Definition add_job (j : job) : M unit :=
  modify (fun w => set_jobs (jobs w ++ [j])%list w).

(** [schedule.every(n).<unit>.do(job)] *)
Definition every (n : Z) (u : time_unit) (name : string) : M unit :=
  match every_check n u with
  | Some e => raise e
  | None => add_job (mkJob name n u None)
  end.

(** The body of the loop of [schedule_tasks] after the [enabled] test:
    the job registered for one schedule string. *)
Definition register (name : string) (schedule_time : value) : M unit :=
  match schedule_time with
  | VStr st =>
      if startswith st "every" then
        let parts := split st in
        if Nat.leb 2 (List.length parts) then
          let interval := nth 1 parts "" in
          if endswith interval "m" then
            n <- lift (py_int (rstrip "m" interval)) ;;
            every n Minutes name
          else if endswith interval "h" then
            n <- lift (py_int (rstrip "h" interval)) ;;
            every n Hours name
          else if String.eqb interval "day" then
            add_job (mkJob name 1 Days None)
          else ret tt
        else ret tt
      else if contains ":" st then
        match at_check st with
        | Some e => raise e
        | None => add_job (mkJob name 1 Days (Some st))
        end
      else ret tt
  | v =>
      raise (AttributeError
               (quoted (type_name v) ++ " object has no attribute 'startswith'"))
  end.

Fixpoint schedule_each (items : list (string * task)) : M unit :=
  match items with
  | [] => ret tt
  | (name, t) :: rest =>
      en <- getitem t "enabled" ;;
      (if negb (truthy en) then ret tt
       else st <- getitem t "schedule" ;; register name st) ;;
      schedule_each rest
  end.

(** [TaskManager.schedule_tasks] *)
Definition schedule_tasks : M unit :=
  modify (set_jobs []) ;;
  items <- gets tasks ;;
  schedule_each items.

(** [TaskManager.run_scheduler] up to its loop; the loop itself, which
    fires the due jobs every second, runs beside the callers and is not
    part of this model. *)
Definition run_scheduler : M unit :=
  schedule_tasks ;;
  modify (set_running true).

(** [TaskManager.start_scheduler] *)
Definition start_scheduler : M unit :=
  r <- gets running ;;
  if negb r then spawn run_scheduler else ret tt.

(** [TaskManager.stop_scheduler] *)
Definition stop_scheduler : M unit := modify (set_running false).

(** [TaskManager.restart_scheduler] *)
Definition restart_scheduler : M unit :=
  stop_scheduler ;;
  time_sleep 1 ;;
  start_scheduler.

(** [TaskManager.__init__] *)
Definition init : M unit :=
  ts <- load_tasks ;;
  modify (set_tasks ts) ;;
  modify (set_running false).

(** ** Task set *)

(** [TaskManager.add_task] *)
Definition add_task (name : string) (task_type schedule_time : value)
    (kwargs : dict value) : M bool :=
  d <- gets now ;;
  let t := dict_update
             [("type", task_type);
              ("schedule", schedule_time);
              ("created", VStr (isoformat d));
              ("enabled", VBool true);
              ("last_run", VNone)]
             kwargs in
  modify (fun w => set_tasks (dict_set name t (tasks w)) w) ;;
  save_tasks ;;
  restart_scheduler ;;
  ret true.

(** [TaskManager.remove_task] *)
Definition remove_task (name : string) : M bool :=
  ts <- gets tasks ;;
  if dict_has name ts then
    modify (set_tasks (dict_del name ts)) ;;
    save_tasks ;;
    restart_scheduler ;;
    ret true
  else ret false.

(** [self.tasks[name][key] = v] *)
Definition set_field (name key : string) (v : value) : M unit :=
  ts <- gets tasks ;;
  t <- getitem ts name ;;
  modify (set_tasks (dict_set name (dict_set key v t) ts)).

(** [TaskManager.toggle_task] *)
Definition toggle_task (name : string) : M bool :=
  ts <- gets tasks ;;
  if dict_has name ts then
    t <- getitem ts name ;;
    en <- getitem t "enabled" ;;
    set_field name "enabled" (py_not en) ;;
    save_tasks ;;
    restart_scheduler ;;
    ret true
  else ret false.

(** ** Task bodies *)

(** [Path(v)]: only a string is a path. *)
Definition Path (v : value) : M string :=
  match v with
  | VStr s => ret s
  | _ =>
      raise (TypeError
               ("expected str, bytes or os.PathLike object, not " ++ type_name v))
  end.

(** [path.exists()]: an error of [stat] other than the path not being
    there is raised. *)
Definition path_exists (path : string) : M bool :=
  d <- gets disk ;;
  match dict_get path d with
  | Some (Denied e) => raise e
  | Some _ => ret true
  | None => ret false
  end.

(** [time.time() - (days_old * 24 * 60 * 60)].  The product of integers
    is exact and is converted to a float for the subtraction.  A [bool]
    counts as 0 or 1; [None] cannot be multiplied; a string is repeated
    by [*] and then cannot be subtracted from a number. *)
Definition cutoff (days_old : value) : M Z :=
  t <- gets time_time ;;
  match days_old with
  | VInt n =>
      s <- lift (float_of_int (n * 24 * 60 * 60)) ;; ret (float_sub t s)
  | VBool b =>
      s <- lift (float_of_int ((if b then 1 else 0) * 24 * 60 * 60)) ;;
      ret (float_sub t s)
  | VNone =>
      raise (TypeError "unsupported operand type(s) for *: 'NoneType' and 'int'")
  | VStr _ =>
      raise (TypeError "unsupported operand type(s) for -: 'float' and 'str'")
  end.

(** The entries of a directory; a path that is no directory has none. *)
Definition listdir (path : string) (w : World) : dict entry :=
  match dict_get path (disk w) with
  | Some (Dir es) => es
  | _ => []
  end.

(** [path.glob(pattern)]: each match as the directory that holds it and
    its name there.  A pattern of one component selects the entries of
    [path] whose name matches, in directory order; where any other
    pattern leads is left to the library. *)
Definition glob (path : string) (pattern : value) : M (list (string * string)) :=
  match glob_check pattern with
  | Some e => raise e
  | None =>
      match pattern with
      | VStr p =>
          if one_component p then
            es <- gets (listdir path) ;;
            ret (map (pair path) (filter (fnmatch p) (keys es)))
          else
            d <- gets disk ;; ret (glob_beyond path p d)
      | v =>
          raise (TypeError
                   ("expected str, bytes or os.PathLike object, not " ++ type_name v))
      end
  end.

(** [file_path.unlink()] for the entry [name] of [path]. *)
Definition unlink (path name : string) : M unit :=
  es <- gets (listdir path) ;;
  match dict_get name es with
  | None =>
      raise (OSError ("[Errno 2] No such file or directory: " ++ quoted name))
  | Some e =>
      match unlink_error e with
      | Some x => raise x
      | None =>
          modify (fun w => set_disk (dict_set path (Dir (dict_del name es)) (disk w)) w)
      end
  end.

(** The [for] loop of [execute_file_cleanup] over the matches.  A match
    whose entry is gone is not a file ([is_file()] is false); one that
    [stat] cannot examine ends the loop with the error. *)
Fixpoint cleanup_loop (cutoff_time : Z) (matches : list (string * string))
    (deleted_count : nat) : M nat :=
  match matches with
  | [] => ret deleted_count
  | (path, name) :: rest =>
      es <- gets (listdir path) ;;
      match dict_get name es with
      | Some e =>
          match stat_error e with
          | Some x => raise x
          | None =>
              if is_file e && Z.ltb (st_mtime e) cutoff_time then
                c <- try_except (unlink path name ;; ret (S deleted_count))
                                (fun _ => ret deleted_count) ;;
                cleanup_loop cutoff_time rest c
              else cleanup_loop cutoff_time rest deleted_count
          end
      | None => cleanup_loop cutoff_time rest deleted_count
      end
  end.

(** The [try] block of [execute_file_cleanup]. *)
Definition cleanup_body (source_dir days_old file_pattern : value) : M string :=
  source_path <- Path source_dir ;;
  ex <- path_exists source_path ;;
  if negb ex then
    ret ("Directory " ++ py_str source_dir ++ " does not exist")
  else
    cutoff_time <- cutoff days_old ;;
    matches <- glob source_path file_pattern ;;
    deleted_count <- cleanup_loop cutoff_time matches 0 ;;
    ret ("Deleted " ++ str_of_nat deleted_count ++ " files from "
         ++ py_str source_dir).

(** [TaskManager.execute_file_cleanup] *)
Definition execute_file_cleanup (source_dir days_old file_pattern : value)
    : M string :=
  try_except (cleanup_body source_dir days_old file_pattern)
    (fun e => ret ("Error: " ++ exn_str e)).

(** A library call that works on the disk. *)
Definition on_disk (f : dict node -> result unit * dict node) : M unit :=
  fun w => (fst (f (disk w)), set_disk (snd (f (disk w))) w).

(** [path.mkdir(parents=True, exist_ok=True)] *)
Definition mkdir (path : string) : M unit := on_disk (mkdir_parents path).

(** [shutil.copytree(src, dst)] *)
Definition copytree (src dst : string) : M unit :=
  on_disk (shutil_copytree src dst).

(** The [try] block of [execute_file_backup]. *)
Definition backup_body (source_dir backup_dir : value) : M string :=
  source_path <- Path source_dir ;;
  backup_path <- Path backup_dir ;;
  ex <- path_exists source_path ;;
  if negb ex then
    ret ("Source directory " ++ py_str source_dir ++ " does not exist")
  else
    mkdir backup_path ;;
    d <- gets now ;;
    let timestamp := strftime_compact d in
    let backup_subdir := path_join backup_path ("backup_" ++ timestamp) in
    copytree source_path backup_subdir ;;
    ret ("Backup completed: " ++ py_str source_dir ++ " -> " ++ backup_subdir).

(** [TaskManager.execute_file_backup] *)
Definition execute_file_backup (source_dir backup_dir : value) : M string :=
  try_except (backup_body source_dir backup_dir)
    (fun e => ret ("Error: " ++ exn_str e)).

(** [TaskManager.execute_alert] *)
Definition execute_alert (message : value) : M string :=
  d <- gets now ;;
  let timestamp := strftime_log d in
  let alert_msg := "[" ++ timestamp ++ "] ALERT: " ++ py_str message in
  open_write alerts_file ;;
  modify (fun w =>
            set_alerts_log
              (Some (match alerts_log w with Some old => old | None => "" end
                     ++ alert_msg ++ newline)) w) ;;
  ret ("Alert logged: " ++ py_str message).

(** ** Execution *)

(** The dispatch on the task type inside the [try] of [execute_task]:
    [result] stays empty for a type that is none of the three. *)
Definition task_body (t : task) : M string :=
  task_type <- getitem t "type" ;;
  if eq_str task_type "file_cleanup" then
    source_dir <- getitem t "source_dir" ;;
    execute_file_cleanup source_dir
      (dict_get_default "days_old" (VInt 7) t)
      (dict_get_default "file_pattern" (VStr "*") t)
  else if eq_str task_type "file_backup" then
    source_dir <- getitem t "source_dir" ;;
    backup_dir <- getitem t "backup_dir" ;;
    execute_file_backup source_dir backup_dir
  else if eq_str task_type "alert" then
    message <- getitem t "message" ;;
    execute_alert message
  else ret "".

(** [TaskManager.execute_task].  Its callers pass the object stored under
    [name]; [t] is what that object holds when the call is made, and the
    assignments go through [self.tasks[name]]. *)
Definition execute_task (name : string) (t : task) : M bool :=
  en <- getitem t "enabled" ;;
  if negb (truthy en) then ret false
  else
    try_except
      (result <- task_body t ;;
       d <- gets now ;;
       set_field name "last_run" (VStr (isoformat d)) ;;
       set_field name "last_result" (VStr result) ;;
       save_tasks ;;
       ret true)
      (fun e =>
         set_field name "last_result" (VStr ("Error: " ++ exn_str e)) ;;
         save_tasks ;;
         ret false).

(** The route [/execute/<name>]: the task handed to [execute_task] is the
    one stored under the name. *)
Definition route_execute (name : string) : M unit :=
  ts <- gets tasks ;;
  match dict_get name ts with
  | Some t => execute_task name t ;; ret tt
  | None => ret tt
  end.

(** The parameters the route [/add_task] collects from the submitted
    form, whose fields are strings; a required field that is missing is a
    [KeyError]. *)
Definition form_kwargs (task_type : string) (form : dict string)
    : M (dict value) :=
  kw1 <- (if String.eqb task_type "file_cleanup"
             || String.eqb task_type "file_backup"
          then v <- getitem form "source_dir" ;;
               ret (dict_set "source_dir" (VStr v) [])
          else ret []) ;;
  kw2 <- (if String.eqb task_type "file_backup"
          then v <- getitem form "backup_dir" ;;
               ret (dict_set "backup_dir" (VStr v) kw1)
          else ret kw1) ;;
  kw3 <- (if String.eqb task_type "file_cleanup"
          then n <- match dict_get "days_old" form with
                    | Some v => lift (py_int v)
                    | None => ret 7%Z
                    end ;;
               ret (dict_set "file_pattern"
                      (VStr (dict_get_default "file_pattern" "*" form))
                      (dict_set "days_old" (VInt n) kw2))
          else ret kw2) ;;
  if String.eqb task_type "alert"
  then v <- getitem form "message" ;; ret (dict_set "message" (VStr v) kw3)
  else ret kw3.

(** The route [/add_task], the one caller of [add_task]. *)
Definition route_add_task (form : dict string) : M unit :=
  name <- getitem form "name" ;;
  task_type <- getitem form "type" ;;
  schedule_time <- getitem form "schedule" ;;
  kwargs <- form_kwargs task_type form ;;
  add_task name (VStr task_type) (VStr schedule_time) kwargs ;;
  ret tt.

End TaskManager.

(** ** A reference implementation of the library calls

    Executable stand-ins for the library (Python 3.11, [schedule] 1.2),
    for text in ASCII and task records of scalars: the JSON text
    [json.dump(..., indent=2)] writes and a reader of such documents,
    from a file read as UTF-8; glob patterns made of literal characters,
    [*] and [?]; [mkdir] and [copytree] on a disk that lists every
    directory under its path in normal form, for a target outside the
    source; [int] literals; and the intervals and times of day the
    [schedule] module accepts.  The messages of [JSONDecodeError] are
    not those of the library, which no caller reads. *)
Module Ref.

Definition dq : ascii := ascii_of_nat 34.
Definition backslash : ascii := ascii_of_nat 92.

Definition hex_digit (n : nat) : ascii :=
  ascii_of_nat (if Nat.ltb n 10 then 48 + n else 87 + n).

(** One character of a JSON string. *)
Definition escape_char (c : ascii) : string :=
  let n := nat_of_ascii c in
  if Nat.eqb n 34 then String backslash (String dq "")
  else if Nat.eqb n 92 then String backslash (String backslash "")
  else if Nat.eqb n 10 then String backslash "n"
  else if Nat.eqb n 13 then String backslash "r"
  else if Nat.eqb n 9 then String backslash "t"
  else if Nat.eqb n 8 then String backslash "b"
  else if Nat.eqb n 12 then String backslash "f"
  else if Nat.ltb n 32 then
    String backslash
      ("u00" ++ String (hex_digit (n / 16)) (String (hex_digit (n mod 16)) ""))
  else String c "".

Definition dump_string (s : string) : string :=
  String dq (concat "" (map escape_char (list_ascii_of_string s)))
  ++ String dq "".

Definition dump_value (v : value) : string :=
  match v with
  | VNone => "null"
  | VBool true => "true"
  | VBool false => "false"
  | VInt n => str_of_Z n
  | VStr s => dump_string s
  end.

(** An object at indentation [indent]; the empty one is [{}]. *)
Definition dump_object {V : Type} (dump : V -> string) (indent : string)
    (d : dict V) : string :=
  match d with
  | [] => "{}"
  | _ =>
      "{" ++ newline
      ++ concat ("," ++ newline)
           (map (fun kv => indent ++ "  " ++ dump_string (fst kv) ++ ": "
                           ++ dump (snd kv)) d)
      ++ newline ++ indent ++ "}"
  end.

Definition dumps (s : store) : string :=
  dump_object (dump_object dump_value "  ") "" s.

(** Reading: a parser consumes a prefix of the characters. *)
Definition parser (A : Type) : Type := list ascii -> option (A * list ascii).

(** The white space of JSON: space, tab, line feed, carriage return. *)
Definition is_json_space (c : ascii) : bool :=
  let n := nat_of_ascii c in
  Nat.eqb n 32 || Nat.eqb n 9 || Nat.eqb n 10 || Nat.eqb n 13.

Fixpoint skip_ws (l : list ascii) : list ascii :=
  match l with
  | c :: r => if is_json_space c then skip_ws r else l
  | [] => []
  end.

Definition expect (c : ascii) (l : list ascii) : option (list ascii) :=
  match skip_ws l with
  | x :: r => if Ascii.eqb x c then Some r else None
  | [] => None
  end.

Definition hex_value (c : ascii) : option nat :=
  let n := nat_of_ascii c in
  if Nat.leb 48 n && Nat.leb n 57 then Some (n - 48)
  else if Nat.leb 97 n && Nat.leb n 102 then Some (n - 87)
  else if Nat.leb 65 n && Nat.leb n 70 then Some (n - 55)
  else None.

Definition unescape (c : ascii) : option ascii :=
  let n := nat_of_ascii c in
  if Nat.eqb n 34 || Nat.eqb n 92 || Nat.eqb n 47 then Some c
  else if Ascii.eqb c "n" then Some (ascii_of_nat 10)
  else if Ascii.eqb c "r" then Some (ascii_of_nat 13)
  else if Ascii.eqb c "t" then Some (ascii_of_nat 9)
  else if Ascii.eqb c "b" then Some (ascii_of_nat 8)
  else if Ascii.eqb c "f" then Some (ascii_of_nat 12)
  else None.

(** The characters of a string after its opening quote. *)
Fixpoint parse_chars (l acc : list ascii) : option (string * list ascii) :=
  match l with
  | [] => None
  | c :: r =>
      if Ascii.eqb c dq then Some (string_of_list_ascii (rev acc), r)
      else if Ascii.eqb c backslash then
        match r with
        | "u"%char :: "0"%char :: "0"%char :: a :: b :: r' =>
            match hex_value a, hex_value b with
            | Some x, Some y => parse_chars r' (ascii_of_nat (16 * x + y) :: acc)
            | _, _ => None
            end
        | e :: r' =>
            match unescape e with
            | Some x => parse_chars r' (x :: acc)
            | None => None
            end
        | [] => None
        end
      else if Nat.ltb (nat_of_ascii c) 32 then None
      else parse_chars r (c :: acc)
  end.

Definition parse_string : parser string :=
  fun l =>
    match skip_ws l with
    | c :: r => if Ascii.eqb c dq then parse_chars r [] else None
    | [] => None
    end.

Definition is_digit (c : ascii) : bool :=
  let n := nat_of_ascii c in Nat.leb 48 n && Nat.leb n 57.

Fixpoint take_digits (l : list ascii) : list ascii * list ascii :=
  match l with
  | c :: r =>
      if is_digit c then let (ds, rest) := take_digits r in (c :: ds, rest)
      else ([], l)
  | [] => ([], [])
  end.

Definition digits_value (ds : list ascii) : Z :=
  fold_left (fun acc c => (10 * acc + Z.of_nat (nat_of_ascii c - 48))%Z) ds 0%Z.

(** A JSON integer: no leading zero, no fraction, no exponent. *)
Definition parse_number (l : list ascii) : option (Z * list ascii) :=
  let (ds, rest) := take_digits l in
  match ds with
  | [] => None
  | d :: more =>
      if Ascii.eqb d "0" && negb (Nat.eqb (List.length more) 0) then None
      else
        match rest with
        | c :: _ =>
            if Ascii.eqb c "." || Ascii.eqb c "e" || Ascii.eqb c "E" then None
            else Some (digits_value ds, rest)
        | [] => Some (digits_value ds, rest)
        end
  end.

Definition parse_value : parser value :=
  fun l =>
    match skip_ws l with
    | "n"%char :: "u"%char :: "l"%char :: "l"%char :: r => Some (VNone, r)
    | "t"%char :: "r"%char :: "u"%char :: "e"%char :: r => Some (VBool true, r)
    | "f"%char :: "a"%char :: "l"%char :: "s"%char :: "e"%char :: r =>
        Some (VBool false, r)
    | "-"%char :: r =>
        match parse_number r with
        | Some (n, r') => Some (VInt (- n), r')
        | None => None
        end
    | c :: r =>
        if Ascii.eqb c dq then
          match parse_chars r [] with
          | Some (s, r') => Some (VStr s, r')
          | None => None
          end
        else
          match parse_number (c :: r) with
          | Some (n, r') => Some (VInt n, r')
          | None => None
          end
    | [] => None
    end.

(** The members of an object after the first key's position; as in
    Python, a repeated key keeps its place and takes the last value. *)
Fixpoint parse_members {V : Type} (pv : parser V) (fuel : nat)
    (l : list ascii) (acc : dict V) : option (dict V * list ascii) :=
  match fuel with
  | O => None
  | S fuel' =>
      match parse_string l with
      | None => None
      | Some (k, l1) =>
          match expect ":" l1 with
          | None => None
          | Some l2 =>
              match pv l2 with
              | None => None
              | Some (v, l3) =>
                  match skip_ws l3 with
                  | c :: r =>
                      if Ascii.eqb c "," then
                        parse_members pv fuel' r (dict_set k v acc)
                      else if Ascii.eqb c "}" then Some (dict_set k v acc, r)
                      else None
                  | [] => None
                  end
              end
          end
      end
  end.

Definition parse_object {V : Type} (pv : parser V) : parser (dict V) :=
  fun l =>
    match expect "{" l with
    | None => None
    | Some l1 =>
        match skip_ws l1 with
        | c :: r =>
            if Ascii.eqb c "}" then Some ([], r)
            else parse_members pv (List.length l1) l1 []
        | [] => None
        end
    end.

(** Decoding the bytes of the file as UTF-8.  A start byte announces
    how many continuation bytes follow and the range of the first. *)
Definition utf8_start (n : nat) : option (nat * (nat * nat)) :=
  if Nat.ltb n 128 then Some (0, (0, 0))
  else if Nat.ltb n 194 then None
  else if Nat.ltb n 224 then Some (1, (128, 191))
  else if Nat.eqb n 224 then Some (2, (160, 191))
  else if Nat.eqb n 237 then Some (2, (128, 159))
  else if Nat.ltb n 240 then Some (2, (128, 191))
  else if Nat.eqb n 240 then Some (3, (144, 191))
  else if Nat.ltb n 244 then Some (3, (128, 191))
  else if Nat.eqb n 244 then Some (3, (128, 143))
  else None.

Inductive continuation : Type :=
| Complete (rest : list ascii)
| Truncated (got : nat)
| Broken (got : nat).

(** Reads [k] continuation bytes, the first within [lo..hi]; [got]
    counts those read. *)
Fixpoint continuations (k lo hi : nat) (l : list ascii) (got : nat)
    : continuation :=
  match k with
  | O => Complete l
  | S k' =>
      match l with
      | [] => Truncated got
      | c :: r =>
          if Nat.leb lo (nat_of_ascii c) && Nat.leb (nat_of_ascii c) hi
          then continuations k' 128 191 r (S got)
          else Broken got
      end
  end.

Definition decode_error (c : ascii) (pos got : nat) (why : string) : exn :=
  UnicodeDecodeError
    ("'utf-8' codec can't decode "
     ++ match got with
        | O =>
            "byte 0x" ++ String (hex_digit (nat_of_ascii c / 16))
                           (String (hex_digit (nat_of_ascii c mod 16)) "")
            ++ " in position " ++ str_of_nat pos
        | _ => "bytes in position " ++ str_of_nat pos ++ "-"
               ++ str_of_nat (pos + got)
        end
     ++ ": " ++ why).

(** The first error of decoding, if there is one. *)
Fixpoint utf8_error (fuel pos : nat) (l : list ascii) : option exn :=
  match fuel, l with
  | S fuel', c :: r =>
      match utf8_start (nat_of_ascii c) with
      | None => Some (decode_error c pos 0 "invalid start byte")
      | Some (k, (lo, hi)) =>
          match continuations k lo hi r 0 with
          | Complete rest => utf8_error fuel' (S pos + k) rest
          | Truncated got => Some (decode_error c pos got "unexpected end of data")
          | Broken got => Some (decode_error c pos got "invalid continuation byte")
          end
      end
  | _, _ => None
  end.

(** [json.load] on a file with the bytes [content]. *)
Definition loads (content : string) : result store :=
  let bytes := list_ascii_of_string content in
  match utf8_error (List.length bytes) 0 bytes with
  | Some e => Raise e
  | None =>
      match parse_object (parse_object parse_value) bytes with
      | Some (s, rest) =>
          match skip_ws rest with
          | [] => Ok s
          | _ => Raise (JSONDecodeError "Extra data")
          end
      | None => Raise (JSONDecodeError "Expecting value")
      end
  end.

(** Glob matching of one name: [*] is any run of characters, [?] any one
    character, every other character itself. *)
Fixpoint wildcard (p s : list ascii) : bool :=
  match p with
  | [] => match s with [] => true | _ => false end
  | c :: p' =>
      if Ascii.eqb c "*" then
        (fix star (s : list ascii) : bool :=
           wildcard p' s || match s with [] => false | _ :: s' => star s' end) s
      else
        match s with
        | [] => false
        | x :: s' => (Ascii.eqb c "?" || Ascii.eqb c x) && wildcard p' s'
        end
  end.

Definition matches (pattern name : string) : bool :=
  wildcard (list_ascii_of_string pattern) (list_ascii_of_string name).

(** Does [s] hold two stars in a row. *)
Fixpoint two_stars (l : list ascii) : bool :=
  match l with
  | a :: (b :: _) as r => (Ascii.eqb a "*" && Ascii.eqb b "*") || two_stars r
  | _ => false
  end.

(** The patterns [Path.glob] refuses: a false value, a value that is no
    string, an absolute pattern, one without a component, and one with
    [**] inside a component. *)
Definition check_pattern (v : value) : option exn :=
  if negb (truthy v) then
    Some (ValueError ("Unacceptable pattern: "
                      ++ match v with VStr _ => "''" | _ => py_str v end))
  else
    match v with
    | VStr p =>
        if startswith p "/" then
          Some (NotImplementedError "Non-relative patterns are unsupported")
        else if match path_parts p with [] => negb (endswith p "/") | _ => false end
        then Some (IndexError "tuple index out of range")
        else if existsb (fun part => two_stars (list_ascii_of_string part)
                                     && negb (String.eqb part "**"))
                        (path_parts p)
        then Some (ValueError
                     "Invalid pattern: '**' can only be an entire path component")
        else None
    | _ => Some (TypeError (quoted (type_name v) ++ " object is not subscriptable"))
    end.

(** The components of a path in lexical normal form: [..] takes the
    component before it away. *)
Definition resolved_parts (s : string) : list string :=
  let up (acc : list string) (part : string) : list string :=
    if String.eqb part ".." then
      match acc with
      | last :: before => if String.eqb last ".." then part :: acc else before
      | [] => if String.eqb (path_root s) "" then [part] else []
      end
    else part :: acc in
  rev (fold_left up (path_parts s) []).

Definition resolve (s : string) : string :=
  path_root s ++ concat "/" (resolved_parts s).

(** The directory of the disk found at a path, under the key that lists
    it. *)
Definition find_dir (d : dict node) (path : string)
    : option (string * dict entry) :=
  match find (fun kv => String.eqb (resolve (fst kv)) (resolve path)) d with
  | Some (key, Dir es) => Some (key, es)
  | _ => None
  end.

Fixpoint starts_with (a b : list string) : bool :=
  match a, b with
  | [], _ => true
  | x :: a', y :: b' => String.eqb x y && starts_with a' b'
  | _ :: _, [] => false
  end.

(** Is [path] the directory [above] or one below it. *)
Definition below (above path : string) : bool :=
  String.eqb (path_root above) (path_root path)
  && starts_with (resolved_parts above) (resolved_parts path).

(** The directories one component of a pattern leads to from [cur]. *)
Definition descend (d : dict node) (part cur : string) : list string :=
  if String.eqb part "**" then
    filter (fun key => match find_dir d key with
                       | Some _ => below cur key
                       | None => false
                       end) (keys d)
  else if String.eqb part ".." then
    match find_dir d (cur ++ "/..") with
    | Some (key, _) => [key]
    | None => []
    end
  else
    match find_dir d cur with
    | Some (_, es) =>
        flat_map (fun kv =>
                    if matches part (fst kv) && negb (is_file (snd kv)) then
                      match find_dir d (cur ++ "/" ++ fst kv) with
                      | Some (key, _) => [key]
                      | None => []
                      end
                    else []) es
    | None => []
    end.

(** What a pattern of several components yields: the entries its last
    component matches in the directories the others lead to.  A last
    component [**] or [..], or a pattern ending in a slash, yields
    directories only, none of which a cleanup touches. *)
Definition glob_far (path pattern : string) (d : dict node)
    : list (string * string) :=
  match rev (path_parts pattern) with
  | [] => []
  | last :: before =>
      if endswith pattern "/" || String.eqb last "**" || String.eqb last ".."
      then []
      else
        flat_map (fun cur =>
                    match find_dir d cur with
                    | Some (key, es) =>
                        map (pair key) (filter (matches last) (keys es))
                    | None => []
                    end)
                 (fold_left (fun curs part => flat_map (descend d part) curs)
                            (rev before) [path])
  end.

(** [mkdir(parents=True, exist_ok=True)] *)
Definition mkdir (path : string) (d : dict node) : result unit * dict node :=
  match dict_get path d with
  | Some (Dir _) => (Ok tt, d)
  | Some RegularFile =>
      (Raise (OSError ("[Errno 17] File exists: " ++ quoted path)), d)
  | Some (Denied e) => (Raise e, d)
  | None => (Ok tt, dict_set path (Dir []) d)
  end.

(** [shutil.copytree(src, dst)]: [dst] must not exist.  With a [dst]
    inside [src] the copy descends into what it has just written, until a
    name is too long; it fails then with the list of the paths it could
    not copy, which is not spelt out here, and leaves a part of the copy
    behind, which this disk does not show. *)
Definition copytree (src dst : string) (d : dict node)
    : result unit * dict node :=
  match dict_get src d with
  | Some (Dir es) =>
      if dict_has dst d || String.eqb (resolve src) (resolve dst) then
        (Raise (OSError ("[Errno 17] File exists: " ++ quoted dst)), d)
      else if below src dst then
        (Raise (OSError "[Errno 36] File name too long"), d)
      else (Ok tt, dict_set dst (Dir es) d)
  | Some RegularFile =>
      (Raise (OSError ("[Errno 20] Not a directory: " ++ quoted src)), d)
  | Some (Denied e) => (Raise e, d)
  | None =>
      (Raise (OSError ("[Errno 2] No such file or directory: " ++ quoted src)), d)
  end.

(** The digits of an [int] literal: groups of digits with single
    underscores between them. *)
Fixpoint grouped_digits (l : list ascii) (after_digit : bool)
    : option (list ascii) :=
  match l with
  | [] => if after_digit then Some [] else None
  | c :: r =>
      if is_digit c then option_map (cons c) (grouped_digits r true)
      else if Ascii.eqb c "_" && after_digit then grouped_digits r false
      else None
  end.

(** [int(s)]: white space around, an optional sign, digits, at most 4300
    of them.  In a string of ASCII the white space is that of C, 9 to 13
    and 32; in any other string it is that of [str.split()]. *)
Definition int_of_string (s : string) : result Z :=
  let bad := Raise (ValueError ("invalid literal for int() with base 10: "
                                ++ quoted s)) in
  let chars := list_ascii_of_string s in
  let space (c : ascii) : bool :=
    if forallb (fun x => Nat.ltb (nat_of_ascii x) 128) chars
    then is_space c && Nat.ltb (nat_of_ascii c) 28 || Ascii.eqb c " "
    else is_space c in
  let fix strip (l : list ascii) : list ascii :=
    match l with
    | c :: r => if space c then strip r else l
    | [] => []
    end in
  let number (sign : Z) (l : list ascii) : result Z :=
    match grouped_digits l false with
    | Some ds =>
        if Nat.ltb 4300 (List.length ds) then
          Raise (ValueError
                   ("Exceeds the limit (4300 digits) for integer string "
                    ++ "conversion: value has " ++ str_of_nat (List.length ds)
                    ++ " digits; use sys.set_int_max_str_digits() "
                    ++ "to increase the limit"))
        else Ok (sign * digits_value ds)%Z
    | None => bad
    end in
  match rev (strip (rev (strip chars))) with
  | "-"%char :: r => number (-1)%Z r
  | "+"%char :: r => number 1%Z r
  | l => number 1%Z l
  end.

(** [every(n).<unit>.do(job)] with [schedule] 1.2, which looks for the
    first run after now by adding the interval until it gets there: with
    an interval of zero it never does, and with a negative one it moves
    away, for as long as the calendar reaches back.  An interval of more
    than 999999999 days is no [timedelta].  (That the first run must fall
    before the year 10000 depends on the clock and is left out.) *)
Definition check_every (n : Z) (u : time_unit) : option exn :=
  let per_day := match u with Minutes => 1440 | Hours => 24 | Days => 1 end%Z in
  if (n <=? 0)%Z then Some NoReturn
  else if (1000000000 * per_day <=? n)%Z then
    Some (OverflowError
            (if (n / per_day <? 2 ^ 31)%Z
             then "days=" ++ str_of_Z (n / per_day)
                  ++ "; must have magnitude <= 999999999"
             else "Python int too large to convert to C int"))
  else None.

(** [Job.at] of a daily job: [HH:MM] or [HH:MM:SS], which a line feed
    may follow, the hour at most 23.  The text about the hours is the
    one [schedule] 1.2 raises, its placeholder left as it is. *)
Definition check_at (s : string) : option exn :=
  let bad := Some (ScheduleValueError
                     "Invalid time format for a daily job (valid format is HH:MM(:SS)?)") in
  let in_range (lo hi : nat) (c : ascii) : bool :=
    Nat.leb lo (nat_of_ascii c) && Nat.leb (nat_of_ascii c) hi in
  let minutes (a b : ascii) : bool := in_range 48 53 a && is_digit b in
  let hours (a b : ascii) : option exn :=
    if in_range 48 50 a && is_digit b then
      if Nat.leb ((nat_of_ascii a - 48) * 10 + (nat_of_ascii b - 48)) 23 then None
      else Some (ScheduleValueError
                   "Invalid number of hours ({} is not between 0 and 23)")
    else bad in
  let time (l : list ascii) : option exn :=
    match l with
    | [h1; h2; c1; m1; m2] =>
        if Ascii.eqb c1 ":" && minutes m1 m2 then hours h1 h2 else bad
    | [h1; h2; c1; m1; m2; c2; s1; s2] =>
        if Ascii.eqb c1 ":" && minutes m1 m2 && Ascii.eqb c2 ":" && minutes s1 s2
        then hours h1 h2 else bad
    | _ => bad
    end in
  match rev (list_ascii_of_string s) with
  | c :: r => if Nat.eqb (nat_of_ascii c) 10 then time (rev r)
              else time (list_ascii_of_string s)
  | [] => bad
  end.

End Ref.

#[global] Instance RefLib : PyLib := {
  json_dumps := Ref.dumps;
  json_loads := Ref.loads;
  fnmatch := Ref.matches;
  glob_check := Ref.check_pattern;
  glob_beyond := Ref.glob_far;
  mkdir_parents := Ref.mkdir;
  shutil_copytree := Ref.copytree;
  py_int := Ref.int_of_string;
  every_check := Ref.check_every;
  at_check := Ref.check_at
}.

(** ** Mutations of the task set *)

(** The three operations that change which tasks exist or are enabled. *)
Inductive mutation : Type :=
| Add (name : string) (task_type schedule_time : value) (kwargs : dict value)
| Remove (name : string)
| Toggle (name : string).

Definition apply_mutation {L : PyLib} (m : mutation) : M bool :=
  match m with
  | Add name task_type schedule_time kwargs =>
      add_task name task_type schedule_time kwargs
  | Remove name => remove_task name
  | Toggle name => toggle_task name
  end.

(** The persisted document holds the in-memory mapping. *)
Definition persisted {L : PyLib} (w : World) : Prop :=
  config_doc w = Some (json_dumps (tasks w)).

(** The fields [add_task] sets itself, after the type and the schedule. *)
Definition fixed_fields : list string := ["created"; "enabled"; "last_run"].

(** The five fields [add_task] writes before the extra parameters. *)
Definition base_fields : list string :=
  ["type"; "schedule"; "created"; "enabled"; "last_run"].

(** The entries a cleanup run removes: regular files matching the pattern,
    modified before the cutoff, whose [unlink] succeeds. *)
Definition doomed {L : PyLib} (pattern : string) (cutoff_time : Z)
    (kv : string * entry) : bool :=
  fnmatch pattern (fst kv) && is_file (snd kv)
  && Z.ltb (st_mtime (snd kv)) cutoff_time
  && match unlink_error (snd kv) with None => true | Some _ => false end.

Definition kept {L : PyLib} (pattern : string) (cutoff_time : Z)
    (kv : string * entry) : bool :=
  negb (doomed pattern cutoff_time kv).

(** The truth value of a task's [enabled] field, if it has one. *)
Definition enabled_of (t : task) : option bool :=
  option_map truthy (dict_get "enabled" t).

(** What [schedule_tasks] reads of an entry of the mapping: its name,
    the truth value of [enabled] and the schedule string. *)
Definition same_schedule (a b : string * task) : Prop :=
  fst a = fst b
  /\ enabled_of (snd a) = enabled_of (snd b)
  /\ dict_get "schedule" (snd a) = dict_get "schedule" (snd b).

(** The recurrence set: the jobs a rebuild registers for a mapping. *)
Definition registry {L : PyLib} (ts : store) : list job :=
  jobs (snd (schedule_each ts
               (mkWorld ts false [] 0 (mkDatetime 0 0 0 0 0 0 0) None None [] []))).

(** The [last_run] and [last_result] of the task stored under a name. *)
Definition last_run_of (name : string) (w : World) : option value :=
  match dict_get name (tasks w) with
  | Some t => dict_get "last_run" t
  | None => None
  end.

Definition last_result_of (name : string) (w : World) : option value :=
  match dict_get name (tasks w) with
  | Some t => dict_get "last_result" t
  | None => None
  end.

(** ** Footprints

    A computation is [confined] to a relation between worlds when every
    run, returning or raising, leaves the world related to the one it
    started in.  Two relations are used: [files_only] (nothing but the
    disk and the alert log changes) and [scheduler_only] (nothing but
    the job registry and the running flag changes). *)
Definition confined (P : World -> World -> Prop) {A : Type} (m : M A) : Prop :=
  forall w, P w (snd (m w)).

Definition files_only (w w' : World) : Prop :=
  exists d a, w' = set_alerts_log a (set_disk d w).

Definition scheduler_only (w w' : World) : Prop :=
  exists js r, w' = set_running r (set_jobs js w).

Abbreviation touches_files := (confined files_only).
Abbreviation touches_scheduler := (confined scheduler_only).

(** ** Concrete worlds *)

Definition permission_denied : exn :=
  OSError "[Errno 13] Permission denied: 'web_alerts.log'".

Definition noon : datetime := mkDatetime 2024 3 5 12 0 0 0.

Definition ping : task :=
  [("type", VStr "alert"); ("schedule", VStr "every 5m");
   ("created", VStr "2024-03-01T08:00:00"); ("enabled", VBool true);
   ("last_run", VNone); ("message", VStr "disk check")].

Definition sweep : task :=
  [("type", VStr "file_cleanup"); ("schedule", VStr "09:30");
   ("created", VStr "2024-03-01T08:00:00"); ("enabled", VBool false);
   ("last_run", VNone); ("source_dir", VStr "/var/tmp/reports");
   ("days_old", VInt 0); ("file_pattern", VStr "*.log")].

Definition mystery : task :=
  [("type", VStr "email"); ("schedule", VStr "every day");
   ("created", VStr "2024-03-01T08:00:00"); ("enabled", VBool true);
   ("last_run", VNone)].

Definition reports : dict entry :=
  [("old.log", mkEntry true 1709000000 None None);
   ("notes.txt", mkEntry true 1709000000 None None);
   ("busy.log", mkEntry true 1709000000
                  (Some (OSError "[Errno 13] Permission denied: 'busy.log'")) None);
   ("archive", mkEntry false 1709000000 None None);
   ("fresh.log", mkEntry true 1709650000 None None)].

(** A manager holding three tasks, consistent with its document; the
    clock reads 1709640000, so [fresh.log] carries a later time stamp. *)
Definition world0 : World :=
  mkWorld [("ping", ping); ("sweep", sweep); ("mystery", mystery)]
          false [] 1709640000 noon
          (Some (Ref.dumps [("ping", ping); ("sweep", sweep); ("mystery", mystery)]))
          None []
          [("/var/tmp/reports", Dir reports)].

(** The same manager when the alert log cannot be opened. *)
Definition world_locked : World :=
  mkWorld (tasks world0) false [] 1709640000 noon (config_doc world0) None
          [(alerts_file, permission_denied)]
          (disk world0).

(** A manager with no document yet. *)
Definition world_fresh : World :=
  mkWorld [] false [] 1709640000 noon None None [] [].

(** A manager started over a document that is not JSON. *)
Definition world_corrupt : World :=
  mkWorld [] false [] 1709640000 noon (Some "{ ping: oops") None [] [].

(** A manager started over a document whose first byte, 255, is no
    text in UTF-8. *)
Definition world_undecodable : World :=
  mkWorld [] false [] 1709640000 noon
          (Some (String (ascii_of_nat 255) "{}")) None [] [].

(** * Properties *)

(** ** Dictionaries *)

Lemma dict_get_set_eq {V : Type} (k : string) (v : V) (d : dict V) :
  dict_get k (dict_set k v d) = Some v.
Proof.
  induction d as [|[k' v'] r IH]; simpl.
  - now rewrite String.eqb_refl.
  - destruct (String.eqb k k') eqn:E; simpl.
    + now rewrite String.eqb_refl.
    + now rewrite E.
Qed.

Lemma dict_get_set_neq {V : Type} (k k' : string) (v : V) (d : dict V) :
  k <> k' -> dict_get k' (dict_set k v d) = dict_get k' d.
Proof.
  intros Hne. induction d as [|[k0 v0] r IH]; simpl.
  - destruct (String.eqb_spec k' k); congruence.
  - destruct (String.eqb_spec k k0) as [->|Hk]; simpl.
    + destruct (String.eqb_spec k' k0); congruence.
    + destruct (String.eqb_spec k' k0); auto.
Qed.

Lemma keys_dict_set_present {V : Type} (k : string) (v v0 : V) (d : dict V) :
  dict_get k d = Some v0 -> keys (dict_set k v d) = keys d.
Proof.
  induction d as [|[k' v'] r IH]; simpl; [discriminate|].
  destruct (String.eqb_spec k k') as [->|Hk]; simpl; intros H.
  - reflexivity.
  - now rewrite IH.
Qed.

Lemma dict_set_same {V : Type} (k : string) (v : V) (d : dict V) :
  dict_get k d = Some v -> dict_set k v d = d.
Proof.
  induction d as [|[k' v'] r IH]; simpl; [discriminate|].
  destruct (String.eqb_spec k k') as [->|Hk]; intros H.
  - now inversion H.
  - now rewrite IH.
Qed.

Lemma dict_set_set {V : Type} (k : string) (v v' : V) (d : dict V) :
  dict_set k v (dict_set k v' d) = dict_set k v d.
Proof.
  induction d as [|[k0 v0] r IH]; simpl.
  - now rewrite String.eqb_refl.
  - destruct (String.eqb k k0) eqn:E; simpl.
    + now rewrite String.eqb_refl.
    + now rewrite E, IH.
Qed.

Lemma dict_get_not_In {V : Type} (k : string) (d : dict V) :
  ~ In k (keys d) -> dict_get k d = None.
Proof.
  induction d as [|[k' v'] r IH]; simpl; auto.
  intros H. destruct (String.eqb_spec k k') as [->|Hk]; [tauto|auto].
Qed.

Lemma dict_get_app_skip {V : Type} (k : string) (d d' : dict V) :
  ~ In k (keys d) -> dict_get k (d ++ d')%list = dict_get k d'.
Proof.
  induction d as [|[k' v'] r IH]; simpl; auto.
  intros H. destruct (String.eqb_spec k k') as [->|Hk]; [tauto|auto].
Qed.

Lemma dict_del_app_skip {V : Type} (k : string) (v : V) (d d' : dict V) :
  ~ In k (keys d) -> dict_del k (d ++ (k, v) :: d')%list = (d ++ d')%list.
Proof.
  induction d as [|[k' v'] r IH]; simpl.
  - now rewrite String.eqb_refl.
  - intros H. destruct (String.eqb_spec k k') as [->|Hk]; [tauto|].
    now rewrite IH by tauto.
Qed.

Lemma dict_update_get_other {V : Type} (k : string) (extra d : dict V) :
  ~ In k (keys extra) -> dict_get k (dict_update d extra) = dict_get k d.
Proof.
  unfold dict_update. revert d.
  induction extra as [|[k' v'] r IH]; simpl; intros d H; auto.
  rewrite IH by tauto. apply dict_get_set_neq. intros ->. tauto.
Qed.

Lemma dict_get_none_keys {V : Type} (k : string) (d : dict V) :
  dict_get k d = None -> ~ In k (keys d).
Proof.
  induction d as [|[k' v'] r IH]; simpl; [tauto|].
  destruct (String.eqb_spec k k') as [->|Hk]; [discriminate|].
  intros H [E|Hin]; [congruence|]. now apply IH.
Qed.

(** After [{**d, **extra}] a key of [extra] holds the value [extra]
    gives it. *)
Lemma dict_update_get_in {V : Type} (k : string) (v : V) (extra d : dict V) :
  NoDup (keys extra) -> dict_get k extra = Some v ->
  dict_get k (dict_update d extra) = Some v.
Proof.
  unfold dict_update. revert d.
  induction extra as [|[k' v'] r IH]; simpl; intros d Hnd Hg; [discriminate|].
  inversion Hnd; subst.
  destruct (String.eqb_spec k k') as [->|Hk].
  - inversion Hg; subst.
    change (dict_get k' (dict_update (dict_set k' v d) r) = Some v).
    rewrite dict_update_get_other by assumption. apply dict_get_set_eq.
  - now apply IH.
Qed.

Lemma keys_dict_set {V : Type} (k k' : string) (v : V) (d : dict V) :
  In k (keys (dict_set k' v d)) -> k = k' \/ In k (keys d).
Proof.
  induction d as [|[k0 v0] r IH]; simpl.
  - intros [<-|[]]. now left.
  - destruct (String.eqb_spec k' k0) as [->|Hk]; simpl.
    + intros [<-|H]; auto.
    + intros [<-|H]; auto. destruct (IH H); auto.
Qed.

(** [{**d, **extra}] has no key that neither [d] nor [extra] has. *)
Lemma dict_update_keys {V : Type} (k : string) (extra d : dict V) :
  In k (keys (dict_update d extra)) -> In k (keys d) \/ In k (keys extra).
Proof.
  unfold dict_update. revert d.
  induction extra as [|[k' v'] r IH]; simpl; intros d H; [now left|].
  destruct (IH _ H) as [H1|H1]; [|now right; right].
  destruct (keys_dict_set _ _ _ _ H1) as [->|H2]; [right; now left|now left].
Qed.

(** A key of [{**d, **extra}] holds what [extra] gives it, or else what
    [d] does. *)
Lemma dict_update_get {V : Type} (k : string) (v : V) (extra d : dict V) :
  NoDup (keys extra) -> dict_get k d = Some v ->
  dict_get k (dict_update d extra) = Some (dict_get_default k v extra).
Proof.
  intros Hnd Hd. unfold dict_get_default.
  destruct (dict_get k extra) as [x|] eqn:E.
  - now apply dict_update_get_in.
  - rewrite dict_update_get_other; [exact Hd|]. now apply dict_get_none_keys.
Qed.

(** ** The world's setters *)

Lemma set_disk_same (w : World) : set_disk (disk w) w = w.
Proof. now destruct w. Qed.

(** ** Running a computation *)

Lemma bind_ok {A B : Type} (m : M A) (k : A -> M B) (w w' : World) (a : A) :
  m w = (Ok a, w') -> bind m k w = k a w'.
Proof. unfold bind. now intros ->. Qed.

Lemma bind_raise {A B : Type} (m : M A) (k : A -> M B) (w w' : World) (e : exn) :
  m w = (Raise e, w') -> bind m k w = (Raise e, w').
Proof. unfold bind. now intros ->. Qed.

Lemma try_ok {A : Type} (m : M A) (h : exn -> M A) (w w' : World) (a : A) :
  m w = (Ok a, w') -> try_except m h w = (Ok a, w').
Proof. unfold try_except. now intros ->. Qed.

Lemma try_raise {A : Type} (m : M A) (h : exn -> M A) (w w' : World) (e : exn) :
  m w = (Raise e, w') -> try_except m h w = h e w'.
Proof. unfold try_except. now intros ->. Qed.

Lemma getitem_some {V : Type} (d : dict V) (k : string) (v : V) (w : World) :
  dict_get k d = Some v -> getitem d k w = (Ok v, w).
Proof. unfold getitem. now intros ->. Qed.

Lemma open_write_ok (path : string) (w : World) :
  dict_get path (faults w) = None -> open_write path w = (Ok tt, w).
Proof. unfold open_write, bind, gets. now intros ->. Qed.

(** ** Footprints

    The rules of [confined], for a relation that is reflexive and
    transitive. *)
Section Footprint.
Variable P : World -> World -> Prop.
Hypothesis P_refl : forall w, P w w.
Hypothesis P_trans : forall w1 w2 w3, P w1 w2 -> P w2 w3 -> P w1 w3.

Lemma confined_ret {A : Type} (a : A) : confined P (ret a).
Proof. intros w. apply P_refl. Qed.

Lemma confined_raise {A : Type} (e : exn) : confined P (@raise A e).
Proof. intros w. apply P_refl. Qed.

Lemma confined_gets {A : Type} (f : World -> A) : confined P (gets f).
Proof. intros w. apply P_refl. Qed.

Lemma confined_lift {A : Type} (r : result A) : confined P (lift r).
Proof. intros w. apply P_refl. Qed.

Lemma confined_getitem {V : Type} (d : dict V) (k : string) :
  confined P (getitem d k).
Proof.
  unfold getitem. destruct (dict_get k d); [apply confined_ret|apply confined_raise].
Qed.

Lemma confined_bind {A B : Type} (m : M A) (k : A -> M B) :
  confined P m -> (forall a, confined P (k a)) -> confined P (bind m k).
Proof.
  intros Hm Hk w. unfold bind. specialize (Hm w).
  destruct (m w) as [[x|e] w1]; simpl in Hm.
  - eapply P_trans; [exact Hm|apply Hk].
  - exact Hm.
Qed.

Lemma confined_try {A : Type} (m : M A) (h : exn -> M A) :
  confined P m -> (forall e, confined P (h e)) -> confined P (try_except m h).
Proof.
  intros Hm Hh w. unfold try_except. specialize (Hm w).
  destruct (m w) as [[x|e] w1]; simpl in Hm.
  - exact Hm.
  - eapply P_trans; [exact Hm|apply Hh].
Qed.

End Footprint.

Lemma files_only_refl (w : World) : files_only w w.
Proof. exists (disk w), (alerts_log w). now destruct w. Qed.

Lemma files_only_trans (w1 w2 w3 : World) :
  files_only w1 w2 -> files_only w2 w3 -> files_only w1 w3.
Proof. intros (d & a & ->) (d' & a' & ->). now exists d', a'. Qed.

Lemma scheduler_only_refl (w : World) : scheduler_only w w.
Proof. exists (jobs w), (running w). now destruct w. Qed.

Lemma scheduler_only_trans (w1 w2 w3 : World) :
  scheduler_only w1 w2 -> scheduler_only w2 w3 -> scheduler_only w1 w3.
Proof. intros (j & r & ->) (j' & r' & ->). now exists j', r'. Qed.

Lemma files_set_disk (f : World -> dict node) :
  touches_files (modify (fun w => set_disk (f w) w)).
Proof. intros w. now exists (f w), (alerts_log w); destruct w. Qed.

Lemma files_set_log (f : World -> option string) :
  touches_files (modify (fun w => set_alerts_log (f w) w)).
Proof. intros w. now exists (disk w), (f w); destruct w. Qed.

Lemma scheduler_set_jobs (f : World -> list job) :
  touches_scheduler (modify (fun w => set_jobs (f w) w)).
Proof. intros w. now exists (f w), (running w); destruct w. Qed.

Lemma scheduler_set_running (b : bool) :
  touches_scheduler (modify (set_running b)).
Proof. intros w. now exists (jobs w), b; destruct w. Qed.

Create HintDb footprint.
#[local] Hint Resolve files_only_refl files_only_trans scheduler_only_refl
  scheduler_only_trans files_set_disk files_set_log scheduler_set_jobs
  scheduler_set_running : footprint.
#[local] Hint Resolve confined_ret confined_raise confined_gets confined_lift
  confined_getitem : footprint.

(** Splits a goal [confined P m] along the structure of [m]. *)
Ltac footprint :=
  repeat first
    [ solve [eauto 3 with footprint]
    | apply confined_bind; [solve [eauto with footprint] | | intros ?]
    | apply confined_try; [solve [eauto with footprint] | | intros ?]
    | match goal with
      | |- confined _ (match ?x with _ => _ end) => destruct x
      | |- confined _ (if ?b then _ else _) => destruct b
      end ].

Lemma confined_open_write (P : World -> World -> Prop) (path : string) :
  (forall w, P w w) -> (forall w1 w2 w3, P w1 w2 -> P w2 w3 -> P w1 w3) ->
  confined P (open_write path).
Proof. intros Hr Ht. unfold open_write. footprint. Qed.
#[local] Hint Resolve confined_open_write : footprint.

Section Properties.
Context {L : PyLib}.

Lemma files_unlink (path name : string) : touches_files (unlink path name).
Proof. unfold unlink. footprint. Qed.
#[local] Hint Resolve files_unlink : footprint.

Lemma files_cleanup_loop (c : Z) (matches : list (string * string)) (n : nat) :
  touches_files (cleanup_loop c matches n).
Proof.
  revert n. induction matches as [|[path name] rest IH]; intros n; simpl.
  - footprint.
  - footprint; apply IH.
Qed.
#[local] Hint Resolve files_cleanup_loop : footprint.

Lemma files_on_disk (f : dict node -> result unit * dict node) :
  touches_files (on_disk f).
Proof. intros w. now exists (snd (f (disk w))), (alerts_log w); destruct w. Qed.
#[local] Hint Resolve files_on_disk : footprint.

Lemma files_cleanup (sd d p : value) : touches_files (execute_file_cleanup sd d p).
Proof.
  unfold execute_file_cleanup, cleanup_body, Path, path_exists, cutoff, glob.
  footprint.
Qed.

Lemma files_backup (sd bd : value) : touches_files (execute_file_backup sd bd).
Proof.
  unfold execute_file_backup, backup_body, Path, path_exists, mkdir, copytree.
  footprint.
Qed.

Lemma files_alert (m : value) : touches_files (execute_alert m).
Proof. unfold execute_alert. footprint. Qed.
#[local] Hint Resolve files_cleanup files_backup files_alert : footprint.

(** The body of a task changes nothing of the manager itself. *)
Lemma files_task_body (t : task) : touches_files (task_body t).
Proof. unfold task_body. footprint. Qed.


(** *** The scheduler's footprint *)

Lemma scheduler_register (name : string) (st : value) :
  touches_scheduler (register name st).
Proof. unfold register, every, add_job. footprint. Qed.
#[local] Hint Resolve scheduler_register : footprint.

Lemma scheduler_schedule_each (items : list (string * task)) :
  touches_scheduler (schedule_each items).
Proof.
  induction items as [|[name t] rest IH]; simpl; footprint.
Qed.
#[local] Hint Resolve scheduler_schedule_each : footprint.

Lemma scheduler_run : touches_scheduler run_scheduler.
Proof. unfold run_scheduler, schedule_tasks. footprint. Qed.

(** Restarting the scheduler always returns, never raises, and changes
    the registry and the running flag only. *)
Lemma restart_scheduler_spec (w : World) :
  exists js r, restart_scheduler w = (Ok tt, set_running r (set_jobs js w)).
Proof.
  unfold restart_scheduler, stop_scheduler, time_sleep, start_scheduler,
    bind, modify, ret, gets, spawn; simpl.
  destruct (scheduler_run (set_running false w)) as (js & r & E).
  exists js, r. now rewrite E.
Qed.

(** *** Saving *)

Lemma save_tasks_ok (w : World) :
  dict_get config_file (faults w) = None ->
  save_tasks w = (Ok tt, set_config_doc (Some (json_dumps (tasks w))) w).
Proof.
  intros H. unfold save_tasks.
  rewrite (bind_ok _ _ _ _ _ (open_write_ok _ _ H)). reflexivity.
Qed.

(** When [save_tasks] returns, the document holds the mapping. *)
Lemma save_tasks_persisted (w w' : World) :
  save_tasks w = (Ok tt, w') -> persisted w' /\ tasks w' = tasks w.
Proof.
  unfold save_tasks, open_write, bind, gets, modify, persisted.
  destruct (dict_get config_file (faults w)); simpl; [discriminate|].
  intros E. inversion E. now simpl.
Qed.


Lemma persisted_scheduler (w : World) (js : list job) (r : bool) :
  persisted w -> persisted (set_running r (set_jobs js w)).
Proof. unfold persisted. now simpl. Qed.

(** The common tail of the three mutations, when it returns. *)
Lemma save_restart_returns (w w' : World) (b : bool) :
  (save_tasks ;; restart_scheduler ;; ret true) w = (Ok b, w') ->
  persisted w' /\ tasks w' = tasks w.
Proof.
  unfold bind at 1. destruct (save_tasks w) as [[[]|e] w1] eqn:Es; [|discriminate].
  apply save_tasks_persisted in Es. destruct Es as [Hp Ht].
  unfold bind. destruct (restart_scheduler_spec w1) as (js & r & ->).
  unfold ret. intros E. inversion E; subst. split.
  - now apply persisted_scheduler.
  - exact Ht.
Qed.

(** The same tail when the document can be written: it returns [True]. *)
Lemma save_restart_ok (w : World) :
  dict_get config_file (faults w) = None ->
  exists js r,
    (save_tasks ;; restart_scheduler ;; ret true) w
    = (Ok true,
       set_running r (set_jobs js (set_config_doc (Some (json_dumps (tasks w))) w))).
Proof.
  intros H. rewrite (bind_ok _ _ _ _ _ (save_tasks_ok _ H)).
  destruct (restart_scheduler_spec
              (set_config_doc (Some (json_dumps (tasks w))) w)) as (js & r & E).
  exists js, r. now rewrite (bind_ok _ _ _ _ _ E).
Qed.

(** ** Loading *)

(** C4 (amended). [load_tasks] returns the empty mapping, without raising
    and without touching anything, when the persisted document is absent
    and when it is present and [json.load] rejects its content with a
    [JSONDecodeError]: a manager initialised in such a world starts with
    no tasks, whatever the document held.  [JSONDecodeError] is the one
    class it catches: when reading the document raises anything else,
    [load_tasks] raises it, and so does the initialisation of the
    manager. *)
Theorem load_tasks_degenerate (w : World) :
  (config_doc w = None
   \/ (exists content msg,
         config_doc w = Some content
         /\ json_loads content = Raise (JSONDecodeError msg)) ->
   load_tasks w = (Ok [], w)
   /\ init w = (Ok tt, set_running false (set_tasks [] w)))
  /\ (forall content e,
        config_doc w = Some content ->
        json_loads content = Raise e ->
        (forall msg, e <> JSONDecodeError msg) ->
        load_tasks w = (Raise e, w) /\ init w = (Raise e, w)).
Proof.
  split.
  - intros H.
    assert (E : load_tasks w = (Ok [], w)).
    { unfold load_tasks, bind, gets.
      destruct H as [->|(content & msg & -> & Hj)]; [reflexivity|].
      unfold try_except, lift. now rewrite Hj. }
    split; [exact E|].
    unfold init. now rewrite (bind_ok _ _ _ _ _ E).
  - intros content e Hc Hj Hother.
    assert (E : load_tasks w = (Raise e, w)).
    { unfold load_tasks, bind, gets. rewrite Hc.
      unfold try_except, lift. rewrite Hj.
      destruct e; try reflexivity. now destruct (Hother msg). }
    split; [exact E|].
    unfold init. now rewrite (bind_raise _ _ _ _ _ E).
Qed.

(** ** Disabled tasks *)

(** C5. For a task whose [enabled] field is false, [execute_task] returns
    [False] and the world after the call is the world before it: no field
    of any task, and not the persisted document, has changed. *)
Theorem execute_task_disabled (name : string) (t : task) (v : value) (w : World) :
  dict_get "enabled" t = Some v ->
  truthy v = false ->
  execute_task name t w = (Ok false, w).
Proof.
  intros He Hv. unfold execute_task.
  rewrite (bind_ok _ _ _ _ _ (getitem_some _ _ _ w He)).
  now rewrite Hv.
Qed.

(** ** Write-through *)

(** C6. Whenever [add_task], [remove_task] or [toggle_task] returns
    [True], the persisted document holds the dump of the mapping that is
    in memory at that point: the change was written before success was
    signalled. *)
Theorem mutation_writes_through (m : mutation) (w w' : World) :
  apply_mutation m w = (Ok true, w') ->
  persisted w'.
Proof.
  destruct m as [name ty st kw|name|name]; simpl.
  - unfold add_task, bind at 1 2, gets, modify. simpl.
    intros E. now apply save_restart_returns in E.
  - unfold remove_task, bind at 1, gets.
    destruct (dict_has name (tasks w)); [|discriminate].
    unfold bind at 1, modify. intros E. now apply save_restart_returns in E.
  - unfold toggle_task, bind at 1, gets.
    destruct (dict_has name (tasks w)); [|discriminate].
    unfold bind at 1. destruct (getitem (tasks w) name w) as [[t|e] w1] eqn:E1;
      [|discriminate].
    unfold bind at 1. destruct (getitem t "enabled" w1) as [[en|e] w2] eqn:E2;
      [|discriminate].
    unfold bind at 1.
    destruct (set_field name "enabled" (py_not en) w2) as [[[]|e] w3] eqn:E3;
      [|discriminate].
    intros E. now apply save_restart_returns in E.
Qed.

(** With a writable document each mutation of an existing, well-formed
    task does return [True]. *)
Lemma add_task_returns (name : string) (ty st : value) (kw : dict value) (w : World) :
  dict_get config_file (faults w) = None ->
  exists w', add_task name ty st kw w = (Ok true, w').
Proof.
  intros H. unfold add_task, bind at 1 2, gets, modify.
  edestruct save_restart_ok as (js & r & E); [|rewrite E; eauto]. exact H.
Qed.

(** ** Adding over an existing name *)

(** The record [add_task] builds. *)
Lemma new_task_fields (ty st : value) (d : datetime) (kw : dict value) :
  (forall k, In k fixed_fields -> ~ In k (keys kw)) ->
  let t := dict_update
             [("type", ty); ("schedule", st); ("created", VStr (isoformat d));
              ("enabled", VBool true); ("last_run", VNone)] kw in
  dict_get "enabled" t = Some (VBool true)
  /\ dict_get "created" t = Some (VStr (isoformat d))
  /\ dict_get "last_run" t = Some VNone.
Proof.
  intros H t. unfold t.
  repeat split; rewrite dict_update_get_other;
    try reflexivity; apply H; simpl; tauto.
Qed.

(** The parameters the route collects are type-specific ones, none named
    after a field [add_task] sets itself. *)
Lemma form_kwargs_keys (task_type : string) (form : dict string)
    (kw : dict value) (w w' : World) :
  form_kwargs task_type form w = (Ok kw, w') ->
  forall k, In k (keys kw) ->
    In k ["source_dir"; "backup_dir"; "days_old"; "file_pattern"; "message"].
Proof.
  intros E k Hk. unfold form_kwargs, bind, getitem, ret, raise, lift in E.
  repeat match type of E with
         | context [if ?b then _ else _] => destruct b
         | context [match dict_get ?a ?b with _ => _ end] => destruct (dict_get a b)
         | context [match py_int ?x with _ => _ end] => destruct (py_int x)
         end;
    simpl in E; try discriminate; inversion E; subst; simpl in Hk; simpl; tauto.
Qed.

Lemma form_kwargs_spare_fixed_fields (task_type : string) (form : dict string)
    (kw : dict value) (w w' : World) :
  form_kwargs task_type form w = (Ok kw, w') ->
  forall k, In k fixed_fields -> ~ In k (keys kw).
Proof.
  intros E k Hk Hin. apply (form_kwargs_keys _ _ _ _ _ E) in Hin.
  simpl in Hk, Hin.
  destruct Hk as [<-|[<-|[<-|[]]]];
    repeat (destruct Hin as [Hin|Hin]; [discriminate Hin|]); exact Hin.
Qed.

(** C7. When the name is already present, [add_task] returns [True] and
    overwrites its entry in place: the names of the mapping, in order,
    are what they were (so its size is unchanged and no name is repeated
    if none was) and every other entry is untouched.  The entry of the
    name is the new record and owes nothing to the one it replaces: it
    holds the type and the schedule of the call (or the extra parameter
    of that name, if one is passed), [enabled = True], [created] the time
    of the call, [last_run = None] and every extra parameter under its
    name, and it has no other field.  The extra parameters, distinct as
    keyword arguments are, are assumed not to be named after a field
    [add_task] sets itself (those the route passes never are), and the
    document to be writable. *)
Theorem add_task_overwrites (name : string) (ty st : value) (kw : dict value)
    (w : World) (t0 : task) :
  dict_get name (tasks w) = Some t0 ->
  NoDup (keys kw) ->
  (forall k, In k fixed_fields -> ~ In k (keys kw)) ->
  dict_get config_file (faults w) = None ->
  exists w' t,
    add_task name ty st kw w = (Ok true, w')
    /\ keys (tasks w') = keys (tasks w)
    /\ List.length (tasks w') = List.length (tasks w)
    /\ (NoDup (keys (tasks w)) -> NoDup (keys (tasks w')))
    /\ (forall other, other <> name ->
          dict_get other (tasks w') = dict_get other (tasks w))
    /\ dict_get name (tasks w') = Some t
    /\ dict_get "type" t = Some (dict_get_default "type" ty kw)
    /\ dict_get "schedule" t = Some (dict_get_default "schedule" st kw)
    /\ dict_get "enabled" t = Some (VBool true)
    /\ dict_get "created" t = Some (VStr (isoformat (now w)))
    /\ dict_get "last_run" t = Some VNone
    /\ (forall k v, dict_get k kw = Some v -> dict_get k t = Some v)
    /\ (forall k, In k (keys t) -> In k base_fields \/ In k (keys kw))
    /\ persisted w'.
Proof.
  intros Hin Hnd Hkw Hf.
  pose proof (new_task_fields ty st (now w) kw Hkw) as Hfields.
  cbv zeta in Hfields.
  set (t := dict_update _ kw) in Hfields.
  unfold add_task, bind at 1 2, gets, modify. fold t.
  edestruct (save_restart_ok (set_tasks (dict_set name t (tasks w)) w))
    as (js & r & E); [exact Hf|].
  rewrite E. eexists _, t. split; [reflexivity|]. simpl.
  assert (Hk : keys (dict_set name t (tasks w)) = keys (tasks w))
    by (eapply keys_dict_set_present; eauto).
  destruct Hfields as (He & Hc & Hl).
  split; [exact Hk|]. split.
  { etransitivity; [symmetry; apply (length_map fst)|].
    etransitivity; [|apply (length_map fst)].
    exact (f_equal (@List.length string) Hk). }
  split; [now rewrite Hk|]. split.
  { intros other Hne. apply dict_get_set_neq. congruence. }
  split; [apply dict_get_set_eq|].
  split; [unfold t; now apply dict_update_get|].
  split; [unfold t; now apply dict_update_get|].
  split; [exact He|]. split; [exact Hc|]. split; [exact Hl|].
  split; [intros k v Hg; unfold t; now apply dict_update_get_in|].
  split; [|reflexivity].
  intros k Hk'. unfold t in Hk'. apply dict_update_keys in Hk'. exact Hk'.
Qed.


(** ** Toggling *)

(** Registering a job reads nothing of the world but the registry. *)
Lemma register_jobs (name : string) (st : value) (w w' : World) :
  jobs w = jobs w' ->
  fst (register name st w) = fst (register name st w')
  /\ jobs (snd (register name st w)) = jobs (snd (register name st w')).
Proof.
  intros E. unfold register, every, add_job, bind, lift, modify, ret, raise.
  destruct st as [| | |s]; simpl; auto.
  repeat match goal with
         | |- context [if ?b then _ else _] => destruct b
         | |- context [match ?x with _ => _ end] => destruct x
         end; simpl; rewrite ?E; auto.
Qed.

(** One turn of the loop of [schedule_tasks], spelled out. *)
Lemma schedule_each_cons (n : string) (t : task) (rest : list (string * task))
    (w : World) :
  schedule_each ((n, t) :: rest) w
  = match dict_get "enabled" t with
    | None => (Raise (KeyError "enabled"), w)
    | Some en =>
        if truthy en then
          match dict_get "schedule" t with
          | None => (Raise (KeyError "schedule"), w)
          | Some st =>
              match register n st w with
              | (Ok _, w1) => schedule_each rest w1
              | (Raise e, w1) => (Raise e, w1)
              end
          end
        else schedule_each rest w
    end.
Proof.
  simpl. unfold bind, getitem, ret, raise.
  destruct (dict_get "enabled" t) as [en|]; [|reflexivity].
  destruct (truthy en); simpl; [|reflexivity].
  destruct (dict_get "schedule" t) as [st|]; [|reflexivity].
  now destruct (register n st w) as [[[]|e] w1].
Qed.

Lemma schedule_each_jobs (items items' : list (string * task)) :
  Forall2 same_schedule items items' ->
  forall w w', jobs w = jobs w' ->
  fst (schedule_each items w) = fst (schedule_each items' w')
  /\ jobs (snd (schedule_each items w)) = jobs (snd (schedule_each items' w')).
Proof.
  induction 1 as [|[n t] [n' t'] rest rest' (Hn & He & Hs) Hrest IH];
    intros w w' E; [simpl; auto|]. simpl in Hn, He, Hs. subst n'.
  rewrite !schedule_each_cons. unfold enabled_of in He. rewrite <- Hs.
  destruct (dict_get "enabled" t) as [v|], (dict_get "enabled" t') as [v'|];
    simpl in He; try discriminate; [|now simpl].
  assert (Hv : truthy v = truthy v') by congruence. rewrite <- Hv.
  destruct (truthy v); [|now apply IH].
  destruct (dict_get "schedule" t) as [st|]; simpl; [|now rewrite E].
  destruct (register_jobs n st w w' E) as [Hr Hj].
  destruct (register n st w) as [[[]|e] w1], (register n st w') as [[[]|e'] w1'];
    simpl in *; try discriminate; auto.
Qed.

Lemma same_schedule_refl (items : list (string * task)) :
  Forall2 same_schedule items items.
Proof. induction items; constructor; auto. unfold same_schedule. auto. Qed.

Lemma run_scheduler_jobs (w : World) :
  jobs (snd (run_scheduler w)) = registry (tasks w).
Proof.
  transitivity (jobs (snd (schedule_each (tasks w) (set_jobs [] w)))).
  - unfold run_scheduler, schedule_tasks, bind, modify, gets. simpl.
    now destruct (schedule_each (tasks w) (set_jobs [] w)) as [[[]|e] w2].
  - unfold registry.
    now apply schedule_each_jobs; [apply same_schedule_refl|].
Qed.

Lemma restart_scheduler_registry (w : World) :
  exists r,
    restart_scheduler w = (Ok tt, set_running r (set_jobs (registry (tasks w)) w)).
Proof.
  destruct (restart_scheduler_spec w) as (js & r & E).
  exists r. rewrite E. do 3 f_equal.
  assert (Hj : jobs (snd (restart_scheduler w)) = js) by now rewrite E.
  rewrite <- Hj. apply (run_scheduler_jobs (set_running false w)).
Qed.

Lemma registry_same_schedule (ts ts' : store) :
  Forall2 same_schedule ts ts' -> registry ts = registry ts'.
Proof.
  intros H. unfold registry. now apply schedule_each_jobs.
Qed.

Lemma same_schedule_set (name : string) (t t' : task) (ts : store) :
  dict_get name ts = Some t ->
  enabled_of t' = enabled_of t ->
  dict_get "schedule" t' = dict_get "schedule" t ->
  Forall2 same_schedule (dict_set name t' ts) ts.
Proof.
  intros Hg He Hs. induction ts as [|[k x] r IH]; simpl in *; [discriminate|].
  destruct (String.eqb_spec name k) as [->|Hk].
  - inversion Hg; subst x. constructor.
    + unfold same_schedule; simpl; auto.
    + clear. induction r; constructor; auto. unfold same_schedule. auto.
  - constructor; [unfold same_schedule; auto|auto].
Qed.

Lemma set_field_ok (name key : string) (v : value) (t : task) (w : World) :
  dict_get name (tasks w) = Some t ->
  set_field name key v w
  = (Ok tt, set_tasks (dict_set name (dict_set key v t) (tasks w)) w).
Proof.
  intros H. unfold set_field, bind at 1, gets.
  now rewrite (bind_ok _ _ _ _ _ (getitem_some _ _ _ w H)).
Qed.

(** One toggle of a present task. *)
Lemma toggle_task_present (name : string) (t : task) (v : value) (w : World) :
  dict_get name (tasks w) = Some t ->
  dict_get "enabled" t = Some v ->
  dict_get config_file (faults w) = None ->
  let ts := dict_set name (dict_set "enabled" (py_not v) t) (tasks w) in
  exists r,
    toggle_task name w
    = (Ok true,
       set_running r
         (set_jobs (registry ts)
            (set_config_doc (Some (json_dumps ts)) (set_tasks ts w)))).
Proof.
  intros Hn He Hf ts. unfold toggle_task, bind at 1, gets, dict_has.
  rewrite Hn.
  rewrite (bind_ok _ _ _ _ _ (getitem_some _ _ _ w Hn)).
  rewrite (bind_ok _ _ _ _ _ (getitem_some _ _ _ w He)).
  rewrite (bind_ok _ _ _ _ _ (set_field_ok name "enabled" (py_not v) t w Hn)).
  fold ts.
  assert (Hf' : dict_get config_file (faults (set_tasks ts w)) = None) by exact Hf.
  rewrite (bind_ok _ _ _ _ _ (save_tasks_ok _ Hf')).
  destruct (restart_scheduler_registry
              (set_config_doc (Some (json_dumps (tasks (set_tasks ts w))))
                 (set_tasks ts w))) as (r & E).
  exists r. now rewrite (bind_ok _ _ _ _ _ E).
Qed.

(** C8. Toggling a present task twice returns [True] both times and
    restores the truth value of its [enabled] field (the first toggle
    having negated it); when the field held a boolean the whole mapping
    is again what it was.  The recurrence set registered by the rebuild
    after the second toggle is the one a rebuild registers for the
    original mapping.  On a name that is absent [toggle_task] returns
    [False] and changes nothing. *)
Theorem toggle_task_twice (name : string) (t : task) (v : value) (w : World) :
  dict_get name (tasks w) = Some t ->
  dict_get "enabled" t = Some v ->
  dict_get config_file (faults w) = None ->
  (exists w1 w2 t1 t2,
     toggle_task name w = (Ok true, w1)
     /\ toggle_task name w1 = (Ok true, w2)
     /\ dict_get name (tasks w1) = Some t1
     /\ enabled_of t1 = Some (negb (truthy v))
     /\ dict_get name (tasks w2) = Some t2
     /\ enabled_of t2 = Some (truthy v)
     /\ (forall b, v = VBool b -> tasks w2 = tasks w)
     /\ jobs w2 = registry (tasks w)
     /\ registry (tasks w2) = registry (tasks w))
  /\ (forall absent w0,
        dict_get absent (tasks w0) = None ->
        toggle_task absent w0 = (Ok false, w0)).
Proof.
  intros Hn He Hf. split.
  - destruct (toggle_task_present name t v w Hn He Hf) as (r1 & E1).
    cbv zeta in E1.
    set (t1 := dict_set "enabled" (py_not v) t) in *.
    set (ts1 := dict_set name t1 (tasks w)) in *.
    set (w1 := set_running r1 _) in E1.
    assert (Hn1 : dict_get name (tasks w1) = Some t1) by apply dict_get_set_eq.
    assert (He1 : dict_get "enabled" t1 = Some (py_not v)) by apply dict_get_set_eq.
    destruct (toggle_task_present name t1 (py_not v) w1 Hn1 He1 Hf) as (r2 & E2).
    cbv zeta in E2.
    set (t2 := dict_set "enabled" (py_not (py_not v)) t1) in *.
    assert (Ht2 : t2 = dict_set "enabled" (VBool (truthy v)) t).
    { unfold t2, t1, py_not. simpl. rewrite negb_involutive. apply dict_set_set. }
    assert (Hts : dict_set name t2 (tasks w1) = dict_set name t2 (tasks w))
      by apply dict_set_set.
    rewrite Hts in E2.
    assert (Hen2 : enabled_of t2 = Some (truthy v)).
    { unfold enabled_of. rewrite Ht2, dict_get_set_eq. reflexivity. }
    assert (Hsame : Forall2 same_schedule (dict_set name t2 (tasks w)) (tasks w)).
    { apply same_schedule_set with (t := t); auto.
      - rewrite Hen2. unfold enabled_of. now rewrite He.
      - rewrite Ht2. apply dict_get_set_neq. discriminate. }
    eexists _, _, t1, t2. split; [exact E1|]. split; [exact E2|].
    split; [exact Hn1|]. split.
    { unfold enabled_of. rewrite He1. reflexivity. }
    split; [apply dict_get_set_eq|]. split; [exact Hen2|]. split.
    { intros b ->. simpl. rewrite Ht2. simpl.
      rewrite (dict_set_same "enabled" (VBool b) t He).
      now apply dict_set_same. }
    split; simpl; now apply registry_same_schedule.
  - intros absent w0 H. unfold toggle_task, bind, gets, dict_has. now rewrite H.
Qed.


(** ** Executing a task *)

(** What the body of a task leaves alone. *)
Lemma task_body_frame (t : task) (w w1 : World) (r : result string) :
  task_body t w = (r, w1) ->
  tasks w1 = tasks w /\ faults w1 = faults w /\ now w1 = now w
  /\ config_doc w1 = config_doc w.
Proof.
  intros E. destruct (files_task_body t w) as (d & a & H).
  rewrite E in H. simpl in H. now subst w1.
Qed.

(** The two assignments and the save that follow a body that returned. *)
Lemma record_result (name : string) (t : task) (last_run last_result : value)
    (w : World) :
  dict_get name (tasks w) = Some t ->
  dict_get config_file (faults w) = None ->
  let ts := dict_set name
              (dict_set "last_result" last_result (dict_set "last_run" last_run t))
              (tasks w) in
  (set_field name "last_run" last_run ;;
   set_field name "last_result" last_result ;;
   save_tasks ;;
   ret true) w
  = (Ok true, set_config_doc (Some (json_dumps ts)) (set_tasks ts w)).
Proof.
  intros Hn Hf ts.
  rewrite (bind_ok _ _ _ _ _ (set_field_ok name "last_run" last_run t w Hn)).
  set (w1 := set_tasks _ w).
  assert (Hn1 : dict_get name (tasks w1) = Some (dict_set "last_run" last_run t))
    by apply dict_get_set_eq.
  rewrite (bind_ok _ _ _ _ _ (set_field_ok name "last_result" last_result _ w1 Hn1)).
  simpl. rewrite dict_set_set. fold ts.
  assert (Hf' : dict_get config_file (faults (set_tasks ts w1)) = None) by exact Hf.
  rewrite (bind_ok _ _ _ _ _ (save_tasks_ok _ Hf')). reflexivity.
Qed.

(** The assignment and the save of the [except] branch. *)
Lemma record_error (name : string) (t : task) (last_result : value) (w : World) :
  dict_get name (tasks w) = Some t ->
  dict_get config_file (faults w) = None ->
  let ts := dict_set name (dict_set "last_result" last_result t) (tasks w) in
  (set_field name "last_result" last_result ;;
   save_tasks ;;
   ret false) w
  = (Ok false, set_config_doc (Some (json_dumps ts)) (set_tasks ts w)).
Proof.
  intros Hn Hf ts.
  rewrite (bind_ok _ _ _ _ _ (set_field_ok name "last_result" last_result t w Hn)).
  fold ts.
  assert (Hf' : dict_get config_file (faults (set_tasks ts w)) = None) by exact Hf.
  rewrite (bind_ok _ _ _ _ _ (save_tasks_ok _ Hf')). reflexivity.
Qed.

(** [execute_task] on an enabled, stored task whose body returned. *)
Lemma execute_task_returned (name : string) (t : task) (v : value)
    (result : string) (w w1 : World) :
  dict_get name (tasks w) = Some t ->
  dict_get "enabled" t = Some v ->
  truthy v = true ->
  dict_get config_file (faults w) = None ->
  task_body t w = (Ok result, w1) ->
  let ts := dict_set name
              (dict_set "last_result" (VStr result)
                 (dict_set "last_run" (VStr (isoformat (now w))) t))
              (tasks w) in
  execute_task name t w
  = (Ok true, set_config_doc (Some (json_dumps ts)) (set_tasks ts w1)).
Proof.
  intros Hn He Hv Hf Hb ts. unfold execute_task.
  rewrite (bind_ok _ _ _ _ _ (getitem_some _ _ _ w He)). rewrite Hv. simpl.
  destruct (task_body_frame t w w1 _ Hb) as (Ht & Hfa & Hnow & _).
  apply try_ok. rewrite (bind_ok _ _ _ _ _ Hb).
  unfold bind at 1, gets. rewrite Hnow.
  rewrite <- Ht in Hn. rewrite <- Hfa in Hf.
  rewrite (record_result name t _ _ w1 Hn Hf). unfold ts. now rewrite Ht.
Qed.

(** [execute_task] on an enabled, stored task whose body raised. *)
Lemma execute_task_raised (name : string) (t : task) (v : value) (e : exn)
    (w w1 : World) :
  dict_get name (tasks w) = Some t ->
  dict_get "enabled" t = Some v ->
  truthy v = true ->
  dict_get config_file (faults w) = None ->
  task_body t w = (Raise e, w1) ->
  let ts := dict_set name
              (dict_set "last_result" (VStr ("Error: " ++ exn_str e)) t)
              (tasks w) in
  execute_task name t w
  = (Ok false, set_config_doc (Some (json_dumps ts)) (set_tasks ts w1)).
Proof.
  intros Hn He Hv Hf Hb ts. unfold execute_task.
  rewrite (bind_ok _ _ _ _ _ (getitem_some _ _ _ w He)). rewrite Hv. simpl.
  destruct (task_body_frame t w w1 _ Hb) as (Ht & Hfa & _).
  rewrite (try_raise _ _ w w1 e) by (now rewrite (bind_raise _ _ _ _ _ Hb)).
  rewrite <- Ht in Hn. rewrite <- Hfa in Hf.
  rewrite (record_error name t _ w1 Hn Hf). unfold ts. now rewrite Ht.
Qed.

(** C1 (amended). For an enabled task stored under its name whose body
    raises an exception, [execute_task] raises nothing: it returns
    [False], the task's [last_result] is the text [Error: ] followed by
    the text of the exception, and the mapping so changed is written to
    the document (which is assumed writable). *)
Theorem execute_task_body_raises (name : string) (t : task) (v : value)
    (e : exn) (w w1 : World) :
  dict_get name (tasks w) = Some t ->
  dict_get "enabled" t = Some v ->
  truthy v = true ->
  dict_get config_file (faults w) = None ->
  task_body t w = (Raise e, w1) ->
  exists w' t',
    execute_task name t w = (Ok false, w')
    /\ dict_get name (tasks w') = Some t'
    /\ dict_get "last_result" t' = Some (VStr ("Error: " ++ exn_str e))
    /\ persisted w'.
Proof.
  intros Hn He Hv Hf Hb.
  pose proof (execute_task_raised name t v e w w1 Hn He Hv Hf Hb) as E.
  cbv zeta in E. eexists _, _. split; [exact E|]. simpl.
  split; [apply dict_get_set_eq|]. split; [apply dict_get_set_eq|].
  reflexivity.
Qed.

(** C2 (amended). For an enabled task stored under its name whose body
    returns a text, be it the report of a success or the text a cleanup
    or backup returns for a failure it caught itself, [execute_task]
    returns [True], sets the task's [last_run] to the time of the attempt
    and its [last_result] to that text, and writes the mapping to the
    document (which is assumed writable). *)
Theorem execute_task_stamps_last_run (name : string) (t : task) (v : value)
    (result : string) (w w1 : World) :
  dict_get name (tasks w) = Some t ->
  dict_get "enabled" t = Some v ->
  truthy v = true ->
  dict_get config_file (faults w) = None ->
  task_body t w = (Ok result, w1) ->
  exists w' t',
    execute_task name t w = (Ok true, w')
    /\ dict_get name (tasks w') = Some t'
    /\ dict_get "last_run" t' = Some (VStr (isoformat (now w)))
    /\ dict_get "last_result" t' = Some (VStr result)
    /\ persisted w'.
Proof.
  intros Hn He Hv Hf Hb.
  pose proof (execute_task_returned name t v result w w1 Hn He Hv Hf Hb) as E.
  cbv zeta in E. eexists _, _. split; [exact E|]. simpl.
  split; [apply dict_get_set_eq|]. split.
  { rewrite dict_get_set_neq by discriminate. apply dict_get_set_eq. }
  split; [apply dict_get_set_eq|reflexivity].
Qed.

(** A failure the cleanup body catches itself is such a returned text:
    the attempt counts as run, and [last_run] is set. *)
Lemma caught_failure_is_stamped (name : string) (t : task) (v source_dir : value)
    (e : exn) (w w1 : World) :
  dict_get name (tasks w) = Some t ->
  dict_get "enabled" t = Some v ->
  truthy v = true ->
  dict_get config_file (faults w) = None ->
  dict_get "type" t = Some (VStr "file_cleanup") ->
  dict_get "source_dir" t = Some source_dir ->
  cleanup_body source_dir (dict_get_default "days_old" (VInt 7) t)
    (dict_get_default "file_pattern" (VStr "*") t) w = (Raise e, w1) ->
  fst (execute_task name t w) = Ok true
  /\ last_run_of name (snd (execute_task name t w))
     = Some (VStr (isoformat (now w)))
  /\ last_result_of name (snd (execute_task name t w))
     = Some (VStr ("Error: " ++ exn_str e)).
Proof.
  intros Hn He Hv Hf Hty Hsd Hb.
  assert (Hbody : task_body t w = (Ok ("Error: " ++ exn_str e), w1)).
  { unfold task_body.
    rewrite (bind_ok _ _ _ _ _ (getitem_some _ _ _ w Hty)). simpl.
    rewrite (bind_ok _ _ _ _ _ (getitem_some _ _ _ w Hsd)).
    unfold execute_file_cleanup. now rewrite (try_raise _ _ _ _ _ Hb). }
  rewrite (execute_task_returned name t v _ w w1 Hn He Hv Hf Hbody).
  unfold last_run_of, last_result_of. simpl.
  rewrite !dict_get_set_eq.
  rewrite dict_get_set_neq by discriminate. now rewrite dict_get_set_eq.
Qed.

(** The body of a task of no known type does nothing and returns the
    empty text. *)
Lemma task_body_unknown_type (t : task) (ty : value) (w : World) :
  dict_get "type" t = Some ty ->
  eq_str ty "file_cleanup" = false ->
  eq_str ty "file_backup" = false ->
  eq_str ty "alert" = false ->
  task_body t w = (Ok "", w).
Proof.
  intros Ht H1 H2 H3. unfold task_body.
  rewrite (bind_ok _ _ _ _ _ (getitem_some _ _ _ w Ht)).
  now rewrite H1, H2, H3.
Qed.

(** C10. For an enabled task stored under its name whose type is none of
    [file_cleanup], [file_backup] and [alert], [execute_task] returns
    [True], sets [last_run] to the time of the call and [last_result] to
    the empty string, changes nothing else of the world than this task
    and the document it is saved to, and raises nothing (the document is
    assumed writable). *)
Theorem execute_task_unknown_type (name : string) (t : task) (v ty : value)
    (w : World) :
  dict_get name (tasks w) = Some t ->
  dict_get "enabled" t = Some v ->
  truthy v = true ->
  dict_get "type" t = Some ty ->
  eq_str ty "file_cleanup" = false ->
  eq_str ty "file_backup" = false ->
  eq_str ty "alert" = false ->
  dict_get config_file (faults w) = None ->
  let ts := dict_set name
              (dict_set "last_result" (VStr "")
                 (dict_set "last_run" (VStr (isoformat (now w))) t))
              (tasks w) in
  execute_task name t w
  = (Ok true, set_config_doc (Some (json_dumps ts)) (set_tasks ts w))
  /\ (exists t',
        dict_get name ts = Some t'
        /\ dict_get "last_run" t' = Some (VStr (isoformat (now w)))
        /\ dict_get "last_result" t' = Some (VStr "")).
Proof.
  intros Hn He Hv Ht H1 H2 H3 Hf ts.
  pose proof (task_body_unknown_type t ty w Ht H1 H2 H3) as Hb.
  split.
  - exact (execute_task_returned name t v "" w w Hn He Hv Hf Hb).
  - eexists. split; [apply dict_get_set_eq|]. split.
    + rewrite dict_get_set_neq by discriminate. apply dict_get_set_eq.
    + apply dict_get_set_eq.
Qed.


(** ** Task bodies *)

(** [exists()] on a path where nothing is, and on a directory. *)
Lemma path_exists_absent (path : string) (w : World) :
  dict_has path (disk w) = false -> path_exists path w = (Ok false, w).
Proof.
  unfold path_exists, dict_has, bind, gets.
  now destruct (dict_get path (disk w)).
Qed.

Lemma path_exists_dir (path : string) (es : dict entry) (w : World) :
  dict_get path (disk w) = Some (Dir es) -> path_exists path w = (Ok true, w).
Proof. unfold path_exists, bind, gets. now intros ->. Qed.

(** A computation wrapped in [try ... except Exception] returns. *)
Lemma try_except_returns {A : Type} (m : M A) (f : exn -> A) (w : World) :
  exists a w', try_except m (fun e => ret (f e)) w = (Ok a, w').
Proof.
  unfold try_except, ret. destruct (m w) as [[a|e] w']; eauto.
Qed.

(** C3 (amended). The cleanup and the backup body never raise, whatever
    their parameters: an exception raised inside is returned as the text
    [Error: ] followed by the text of the exception (so for a source
    directory that is not a string), while a source directory that does
    not exist is reported, with nothing changed, by a text of its own
    that has no such prefix.  The alert body returns its confirmation
    when the alert log can be opened. *)
Theorem task_bodies_contract (source_dir days_old file_pattern backup_dir
    message : value) (w : World) :
  (exists s w',
     execute_file_cleanup source_dir days_old file_pattern w = (Ok s, w'))
  /\ (exists s w', execute_file_backup source_dir backup_dir w = (Ok s, w'))
  /\ (forall e w',
        cleanup_body source_dir days_old file_pattern w = (Raise e, w') ->
        execute_file_cleanup source_dir days_old file_pattern w
        = (Ok ("Error: " ++ exn_str e), w'))
  /\ (forall e w',
        backup_body source_dir backup_dir w = (Raise e, w') ->
        execute_file_backup source_dir backup_dir w
        = (Ok ("Error: " ++ exn_str e), w'))
  /\ ((forall path, source_dir <> VStr path) ->
      execute_file_cleanup source_dir days_old file_pattern w
      = (Ok ("Error: expected str, bytes or os.PathLike object, not "
             ++ type_name source_dir), w)
      /\ execute_file_backup source_dir backup_dir w
         = (Ok ("Error: expected str, bytes or os.PathLike object, not "
                ++ type_name source_dir), w))
  /\ (forall path,
        source_dir = VStr path -> dict_has path (disk w) = false ->
        execute_file_cleanup source_dir days_old file_pattern w
        = (Ok ("Directory " ++ path ++ " does not exist"), w))
  /\ (forall path target,
        source_dir = VStr path -> backup_dir = VStr target ->
        dict_has path (disk w) = false ->
        execute_file_backup source_dir backup_dir w
        = (Ok ("Source directory " ++ path ++ " does not exist"), w))
  /\ (dict_get alerts_file (faults w) = None ->
      exists w',
        execute_alert message w = (Ok ("Alert logged: " ++ py_str message), w')).
Proof.
  split; [apply try_except_returns with (f := fun e => "Error: " ++ exn_str e)|].
  split; [apply try_except_returns with (f := fun e => "Error: " ++ exn_str e)|].
  split; [intros e w' H; unfold execute_file_cleanup; now rewrite (try_raise _ _ _ _ _ H)|].
  split; [intros e w' H; unfold execute_file_backup; now rewrite (try_raise _ _ _ _ _ H)|].
  split.
  { intros Hns. unfold execute_file_cleanup, execute_file_backup, cleanup_body,
      backup_body, try_except, bind, Path, raise, ret.
    destruct source_dir as [| | |path]; try (now split).
    now destruct (Hns path). }
  split.
  { intros path -> Hd. unfold execute_file_cleanup, cleanup_body. apply try_ok.
    rewrite (bind_ok _ _ _ _ _ (eq_refl (Path (VStr path) w))).
    now rewrite (bind_ok _ _ _ _ _ (path_exists_absent _ _ Hd)). }
  split.
  { intros path target -> -> Hd. unfold execute_file_backup, backup_body.
    apply try_ok.
    rewrite (bind_ok _ _ _ _ _ (eq_refl (Path (VStr path) w))).
    rewrite (bind_ok _ _ _ _ _ (eq_refl (Path (VStr target) w))).
    now rewrite (bind_ok _ _ _ _ _ (path_exists_absent _ _ Hd)). }
  intros Hf. unfold execute_alert, bind at 1, gets.
  rewrite (bind_ok _ _ _ _ _ (open_write_ok _ _ Hf)).
  unfold bind, modify, ret. eauto.
Qed.

(** ** Cleanup *)

Lemma listdir_dir (path : string) (es : dict entry) (w : World) :
  dict_get path (disk w) = Some (Dir es) -> listdir path w = es.
Proof. unfold listdir. now intros ->. Qed.

Lemma set_disk_twice (path : string) (n n' : node) (w : World) :
  set_disk (dict_set path n (disk (set_disk (dict_set path n' (disk w)) w)))
    (set_disk (dict_set path n' (disk w)) w)
  = set_disk (dict_set path n (disk w)) w.
Proof. simpl. rewrite dict_set_set. reflexivity. Qed.

Lemma listdir_set_disk (path : string) (es : dict entry) (w : World) :
  listdir path (set_disk (dict_set path (Dir es) (disk w)) w) = es.
Proof. unfold listdir. simpl. now rewrite dict_get_set_eq. Qed.

(** *** The cutoff *)

(** Integers below 2^53 are floats, and their sums and differences within
    that range are exact. *)
Lemma round_float_exact (z : Z) :
  (Z.abs z < 2 ^ 53)%Z -> round_float z = z.
Proof.
  intros H. unfold round_float.
  assert (Hl : (Z.log2 (Z.abs z) < 53)%Z).
  { destruct (Z.eq_dec (Z.abs z) 0) as [->|Hz]; [reflexivity|].
    apply Z.log2_lt_pow2; lia. }
  assert (Hd : (Z.log2 (Z.abs z) - 52 <=? 0)%Z = true) by (apply Z.leb_le; lia).
  cbv zeta. now rewrite Hd.
Qed.

Lemma float_inf_far : (2 ^ 53 < float_inf)%Z.
Proof. unfold float_inf. apply Z.pow_lt_mono_r; lia. Qed.

Lemma float_of_int_exact (n : Z) :
  (Z.abs n < 2 ^ 53)%Z -> float_of_int n = Ok n.
Proof.
  intros H. unfold float_of_int. cbv zeta. rewrite (round_float_exact n H).
  pose proof float_inf_far.
  destruct (Z.leb_spec float_inf (Z.abs n)); [lia|reflexivity].
Qed.

Lemma float_sub_exact (a b : Z) :
  (Z.abs (a - b) < 2 ^ 53)%Z -> float_sub a b = (a - b)%Z.
Proof.
  intros H. unfold float_sub. rewrite (round_float_exact _ H).
  pose proof float_inf_far. lia.
Qed.

(** The cutoff of a run with an integer [days_old], where the clock, the
    age in seconds and their difference are below 2^53. *)
Lemma cutoff_exact (days : Z) (w : World) :
  (Z.abs (days * 86400) < 2 ^ 53)%Z ->
  (Z.abs (time_time w - days * 86400) < 2 ^ 53)%Z ->
  cutoff (VInt days) w = (Ok (time_time w - days * 86400)%Z, w).
Proof.
  intros Hd Ht. unfold cutoff.
  rewrite (bind_ok _ _ _ _ _ (eq_refl (gets time_time w))).
  replace (days * 24 * 60 * 60)%Z with (days * 86400)%Z by lia.
  unfold lift, bind at 1. rewrite (float_of_int_exact _ Hd).
  unfold ret. now rewrite (float_sub_exact _ _ Ht).
Qed.

(** *** The loop *)

(** One turn of the loop of [execute_file_cleanup], spelled out. *)
Lemma cleanup_loop_cons (path name : string) (cutoff_time : Z)
    (rest : list (string * string)) (count : nat) (w : World) :
  cleanup_loop cutoff_time ((path, name) :: rest) count w
  = match dict_get name (listdir path w) with
    | Some e =>
        match stat_error e with
        | Some x => (Raise x, w)
        | None =>
            if is_file e && Z.ltb (st_mtime e) cutoff_time then
              match unlink_error e with
              | Some _ => cleanup_loop cutoff_time rest count w
              | None =>
                  cleanup_loop cutoff_time rest (S count)
                    (set_disk
                       (dict_set path (Dir (dict_del name (listdir path w)))
                          (disk w)) w)
              end
            else cleanup_loop cutoff_time rest count w
        end
    | None => cleanup_loop cutoff_time rest count w
    end.
Proof.
  simpl. unfold bind at 1, gets.
  destruct (dict_get name (listdir path w)) as [e|] eqn:Eg; [|reflexivity].
  destruct (stat_error e); [reflexivity|].
  destruct (is_file e && Z.ltb (st_mtime e) cutoff_time); [|reflexivity].
  unfold bind at 1, try_except, unlink, bind, gets, modify, raise, ret.
  rewrite Eg. now destruct (unlink_error e).
Qed.

Lemma keys_app {V : Type} (d d' : dict V) :
  keys (d ++ d')%list = (keys d ++ keys d')%list.
Proof. apply map_app. Qed.

(** The loop over the names the pattern selects among the entries still
    to visit, [todo], each of which [stat] can examine; [seen] holds the
    entries visited and not removed.  It returns, having removed the
    doomed entries and counted them. *)
Lemma cleanup_loop_spec (path pattern : string) (cutoff_time : Z) :
  forall (todo seen : dict entry) (count : nat) (w : World),
    NoDup (keys (seen ++ todo)%list) ->
    dict_get path (disk w) = Some (Dir (seen ++ todo)%list) ->
    (forall k e, In (k, e) todo -> fnmatch pattern k = true ->
       stat_error e = None) ->
    cleanup_loop cutoff_time
      (map (pair path) (filter (fnmatch pattern) (keys todo))) count w
    = (Ok (count + List.length (filter (doomed pattern cutoff_time) todo)),
       set_disk
         (dict_set path
            (Dir (seen ++ filter (kept pattern cutoff_time) todo)%list) (disk w))
         w).
Proof.
  induction todo as [|[k e] todo IH]; intros seen count w Hnd Hdir Hstat.
  - simpl. unfold ret. rewrite Nat.add_0_r.
    rewrite (dict_set_same _ _ _ Hdir). now rewrite set_disk_same.
  - assert (Hk : ~ In k (keys seen)).
    { rewrite keys_app in Hnd. simpl in Hnd.
      apply NoDup_remove_2 in Hnd. intros Hin. apply Hnd.
      apply in_or_app. now left. }
    assert (Hnd' : NoDup (keys (seen ++ todo)%list)).
    { rewrite keys_app in *. simpl in Hnd. now apply NoDup_remove_1 in Hnd. }
    assert (Hstat' : forall k' e', In (k', e') todo ->
              fnmatch pattern k' = true -> stat_error e' = None).
    { intros k' e' Hin. apply Hstat. now right. }
    assert (Hshift : ((seen ++ [(k, e)]) ++ todo)%list = (seen ++ (k, e) :: todo)%list)
      by (now rewrite <- app_assoc).
    assert (Hskip :
              doomed pattern cutoff_time (k, e) = false ->
              forall c,
                cleanup_loop cutoff_time
                  (map (pair path) (filter (fnmatch pattern) (keys todo))) c w
                = (Ok (c + List.length
                             (filter (doomed pattern cutoff_time) ((k, e) :: todo))),
                   set_disk
                     (dict_set path
                        (Dir (seen ++ filter (kept pattern cutoff_time)
                                        ((k, e) :: todo))%list) (disk w)) w)).
    { intros Hd c. simpl. unfold kept at 1. rewrite Hd. simpl.
      rewrite (IH (seen ++ [(k, e)])%list c w).
      - now rewrite <- app_assoc.
      - now rewrite Hshift.
      - now rewrite Hshift.
      - exact Hstat'. }
    simpl keys. simpl filter at 1.
    destruct (fnmatch pattern k) eqn:Em.
    + simpl map. rewrite cleanup_loop_cons, (listdir_dir _ _ _ Hdir).
      rewrite (dict_get_app_skip k seen _ Hk). simpl dict_get.
      rewrite String.eqb_refl.
      rewrite (Hstat k e (or_introl eq_refl) Em).
      destruct (is_file e && Z.ltb (st_mtime e) cutoff_time) eqn:Ec.
      * destruct (unlink_error e) as [x|] eqn:Eu.
        -- apply Hskip. unfold doomed. simpl. rewrite Eu.
           now rewrite andb_false_r.
        -- rewrite (dict_del_app_skip k e seen todo Hk).
           rewrite (IH seen (S count) _ Hnd') by
             (try exact Hstat'; simpl; apply dict_get_set_eq).
           rewrite set_disk_twice. simpl filter.
           assert (Hd : doomed pattern cutoff_time (k, e) = true).
           { unfold doomed. simpl. rewrite Em, Eu.
             apply andb_prop in Ec. destruct Ec as [-> ->]. reflexivity. }
           unfold kept at 2. rewrite Hd. simpl.
           now rewrite Nat.add_succ_r.
      * apply Hskip. unfold doomed. simpl. rewrite Em. simpl.
        apply andb_false_iff in Ec. destruct Ec as [->| ->]; simpl; auto.
        now rewrite andb_false_r.
    + apply Hskip. unfold doomed. simpl. now rewrite Em.
Qed.

Lemma nothing_matches (pattern : string) (cutoff_time : Z) (es : dict entry) :
  filter (fnmatch pattern) (keys es) = [] ->
  filter (doomed pattern cutoff_time) es = []
  /\ filter (kept pattern cutoff_time) es = es.
Proof.
  induction es as [|[k e] es IH]; simpl; [auto|].
  destruct (fnmatch pattern k) eqn:Em; [discriminate|].
  assert (Hd : doomed pattern cutoff_time (k, e) = false)
    by (unfold doomed; simpl; now rewrite Em).
  unfold kept at 1. rewrite Hd. simpl.
  intros H. destruct (IH H) as [-> ->]. auto.
Qed.

Lemma NoDup_keys_unique {V : Type} (k : string) (v v' : V) (d : dict V) :
  NoDup (keys d) -> In (k, v) d -> In (k, v') d -> v = v'.
Proof.
  induction d as [|[k0 v0] d IH]; simpl; [tauto|].
  intros Hnd [H|H] [H'|H']; inversion Hnd; subst.
  - congruence.
  - inversion H; subst. exfalso. apply H2. apply (in_map fst _ _ H').
  - inversion H'; subst. exfalso. apply H2. apply (in_map fst _ _ H).
  - auto.
Qed.

(** A doomed entry is gone from the entries kept. *)
Lemma doomed_removed (pattern : string) (cutoff_time : Z) (es : dict entry)
    (k : string) (e : entry) :
  NoDup (keys es) -> In (k, e) es -> doomed pattern cutoff_time (k, e) = true ->
  dict_get k (filter (kept pattern cutoff_time) es) = None.
Proof.
  intros Hnd Hin Hd. apply dict_get_not_In. intros Hk.
  apply in_map_iff in Hk. destruct Hk as ([k' e'] & Hfst & Hin').
  simpl in Hfst. subst k'. apply filter_In in Hin'. destruct Hin' as [Hin' Hkept].
  rewrite (NoDup_keys_unique k e' e es Hnd Hin' Hin) in Hkept.
  unfold kept in Hkept. now rewrite Hd in Hkept.
Qed.

(** A cleanup run on a directory, with a pattern of one component that
    glob accepts and a cutoff that is computed: the text it returns and
    the world it leaves. *)
Lemma cleanup_run (path pattern : string) (days_old : value) (cutoff_time : Z)
    (es : dict entry) (w : World) :
  dict_get path (disk w) = Some (Dir es) ->
  NoDup (keys es) ->
  one_component pattern = true ->
  glob_check (VStr pattern) = None ->
  (forall k e, In (k, e) es -> fnmatch pattern k = true -> stat_error e = None) ->
  cutoff days_old w = (Ok cutoff_time, w) ->
  execute_file_cleanup (VStr path) days_old (VStr pattern) w
  = (Ok ("Deleted "
         ++ str_of_nat (List.length (filter (doomed pattern cutoff_time) es))
         ++ " files from " ++ path),
     set_disk
       (dict_set path (Dir (filter (kept pattern cutoff_time) es)) (disk w)) w).
Proof.
  intros Hdir Hnd Hone Hg Hstat Hc.
  assert (Hgl : glob path (VStr pattern) w
                = (Ok (map (pair path) (filter (fnmatch pattern) (keys es))), w)).
  { unfold glob. rewrite Hg, Hone. unfold bind, gets, ret.
    now rewrite (listdir_dir _ _ _ Hdir). }
  unfold execute_file_cleanup, cleanup_body. apply try_ok.
  rewrite (bind_ok _ _ _ _ _ (eq_refl (Path (VStr path) w))).
  rewrite (bind_ok _ _ _ _ _ (path_exists_dir _ _ _ Hdir)). cbn [negb].
  rewrite (bind_ok _ _ _ _ _ Hc), (bind_ok _ _ _ _ _ Hgl).
  rewrite (bind_ok _ _ _ _ _
             (cleanup_loop_spec path pattern cutoff_time es [] 0 w Hnd Hdir Hstat)).
  reflexivity.
Qed.

(** C9 (amended). On an existing directory, a cleanup run with
    [days_old = 0] and a pattern of one component that glob accepts
    returns, without raising, [Deleted n files from <source_dir>], where
    [n] counts the entries it removed: those whose name matches the
    pattern, that are regular files, whose modification time is strictly
    before the current time and whose deletion did not fail.  Exactly
    these entries are gone from the directory afterwards, the others are
    left as they were, and the tasks are untouched.  When no name
    matches, it removes nothing, leaves the world as it is and returns
    [Deleted 0 files from <source_dir>].  (The entries that match are
    assumed to be open to [stat], and the clock to read less than 2^53
    seconds.) *)
Theorem cleanup_days_old_zero (path pattern : string) (es : dict entry)
    (w : World) :
  dict_get path (disk w) = Some (Dir es) ->
  NoDup (keys es) ->
  one_component pattern = true ->
  glob_check (VStr pattern) = None ->
  (forall k e, In (k, e) es -> fnmatch pattern k = true -> stat_error e = None) ->
  (Z.abs (time_time w) < 2 ^ 53)%Z ->
  let remaining := filter (kept pattern (time_time w)) es in
  (exists w',
     execute_file_cleanup (VStr path) (VInt 0) (VStr pattern) w
     = (Ok ("Deleted "
            ++ str_of_nat (List.length (filter (doomed pattern (time_time w)) es))
            ++ " files from " ++ path), w')
     /\ listdir path w' = remaining
     /\ tasks w' = tasks w)
  /\ (forall k e,
        In (k, e) es -> doomed pattern (time_time w) (k, e) = true ->
        dict_get k remaining = None)
  /\ (forall k e,
        In (k, e) es -> doomed pattern (time_time w) (k, e) = false ->
        In (k, e) remaining)
  /\ (filter (fnmatch pattern) (keys es) = [] ->
      execute_file_cleanup (VStr path) (VInt 0) (VStr pattern) w
      = (Ok ("Deleted 0 files from " ++ path), w)).
Proof.
  intros Hdir Hnd Hone Hg Hstat Hclock remaining.
  assert (Hc : cutoff (VInt 0) w = (Ok (time_time w), w)).
  { rewrite (cutoff_exact 0 w).
    - do 2 f_equal. lia.
    - simpl. lia.
    - now rewrite Z.sub_0_r. }
  pose proof (cleanup_run path pattern (VInt 0) (time_time w) es w
                Hdir Hnd Hone Hg Hstat Hc) as E.
  split.
  { eexists. split; [exact E|]. split; [|reflexivity].
    apply listdir_set_disk. }
  split.
  { intros k e Hin Hd. now apply doomed_removed with (e := e). }
  split.
  { intros k e Hin Hd. apply filter_In. split; [exact Hin|].
    unfold kept. now rewrite Hd. }
  intros Hnone. rewrite E.
  destruct (nothing_matches pattern (time_time w) es Hnone) as [-> ->].
  rewrite (dict_set_same _ _ _ Hdir). now rewrite set_disk_same.
Qed.

End Properties.

(** * Concrete runs, with the reference library *)

(** The document the reference library writes is read back as written. *)
Example reference_round_trip :
  Ref.loads (Ref.dumps (tasks world0)) = Ok (tasks world0)
  /\ load_tasks world0 = (Ok (tasks world0), world0).
Proof. split; vm_compute; reflexivity. Qed.

(** ** The theorems at work *)

Lemma load_tasks_degenerate_witness :
  (load_tasks world_fresh = (Ok [], world_fresh)
   /\ init world_fresh = (Ok tt, set_running false (set_tasks [] world_fresh)))
  /\ (load_tasks world_corrupt = (Ok [], world_corrupt)
      /\ init world_corrupt = (Ok tt, set_running false (set_tasks [] world_corrupt)))
  /\ (exists e,
        load_tasks world_undecodable = (Raise e, world_undecodable)
        /\ init world_undecodable = (Raise e, world_undecodable)).
Proof.
  split; [|split].
  - apply (proj1 (load_tasks_degenerate world_fresh)). left. reflexivity.
  - apply (proj1 (load_tasks_degenerate world_corrupt)). right.
    exists "{ ping: oops", "Expecting value". split; reflexivity.
  - eexists.
    apply (proj2 (load_tasks_degenerate world_undecodable)
             (String (ascii_of_nat 255) "{}")).
    + reflexivity.
    + reflexivity.
    + discriminate.
Defined.

Lemma execute_task_disabled_witness :
  execute_task "sweep" sweep world0 = (Ok false, world0).
Proof.
  apply (execute_task_disabled "sweep" sweep (VBool false) world0); reflexivity.
Defined.

Lemma mutation_writes_through_witness :
  persisted (snd (apply_mutation (Remove "mystery") world0))
  /\ persisted (snd (apply_mutation (Toggle "sweep") world0))
  /\ persisted
       (snd (apply_mutation
               (Add "nightly" (VStr "file_backup") (VStr "02:00")
                  [("source_dir", VStr "/var/tmp/reports");
                   ("backup_dir", VStr "/backups")])
               world0)).
Proof.
  split; [|split];
    match goal with
    | |- persisted (snd (apply_mutation ?m ?w)) =>
        apply (mutation_writes_through m w); vm_compute; reflexivity
    end.
Defined.

Lemma add_task_overwrites_witness :
  exists w' t,
    add_task "ping" (VStr "file_backup") (VStr "every 2h")
      [("source_dir", VStr "/var/tmp/reports"); ("backup_dir", VStr "/backups")]
      world0 = (Ok true, w')
    /\ keys (tasks w') = ["ping"; "sweep"; "mystery"]
    /\ List.length (tasks w') = 3
    /\ (NoDup (keys (tasks world0)) -> NoDup (keys (tasks w')))
    /\ (forall other, other <> "ping" ->
          dict_get other (tasks w') = dict_get other (tasks world0))
    /\ dict_get "ping" (tasks w') = Some t
    /\ dict_get "type" t = Some (VStr "file_backup")
    /\ dict_get "schedule" t = Some (VStr "every 2h")
    /\ dict_get "enabled" t = Some (VBool true)
    /\ dict_get "created" t = Some (VStr "2024-03-05T12:00:00")
    /\ dict_get "last_run" t = Some VNone
    /\ (forall k v,
          dict_get k [("source_dir", VStr "/var/tmp/reports");
                      ("backup_dir", VStr "/backups")] = Some v ->
          dict_get k t = Some v)
    /\ (forall k, In k (keys t) ->
          In k base_fields \/ In k ["source_dir"; "backup_dir"])
    /\ persisted w'.
Proof.
  apply (add_task_overwrites "ping" (VStr "file_backup") (VStr "every 2h")
           [("source_dir", VStr "/var/tmp/reports"); ("backup_dir", VStr "/backups")]
           world0 ping).
  - reflexivity.
  - repeat constructor; simpl; intros H;
      repeat (destruct H as [H|H]; [discriminate H|]); exact H.
  - intros k Hk Hin. simpl in Hk, Hin.
    destruct Hk as [<-|[<-|[<-|[]]]]; destruct Hin as [H|[H|[]]]; discriminate H.
  - reflexivity.
Defined.

Lemma toggle_task_twice_witness :
  (exists w1 w2 t1 t2,
     toggle_task "sweep" world0 = (Ok true, w1)
     /\ toggle_task "sweep" w1 = (Ok true, w2)
     /\ dict_get "sweep" (tasks w1) = Some t1
     /\ enabled_of t1 = Some true
     /\ dict_get "sweep" (tasks w2) = Some t2
     /\ enabled_of t2 = Some false
     /\ (forall b, VBool false = VBool b -> tasks w2 = tasks world0)
     /\ jobs w2 = registry (tasks world0)
     /\ registry (tasks w2) = registry (tasks world0))
  /\ (forall absent w0,
        dict_get absent (tasks w0) = None ->
        toggle_task absent w0 = (Ok false, w0)).
Proof.
  apply (toggle_task_twice "sweep" sweep (VBool false) world0); reflexivity.
Defined.

Lemma execute_task_body_raises_witness :
  exists w' t',
    execute_task "ping" ping world_locked = (Ok false, w')
    /\ dict_get "ping" (tasks w') = Some t'
    /\ dict_get "last_result" t'
       = Some (VStr "Error: [Errno 13] Permission denied: 'web_alerts.log'")
    /\ persisted w'.
Proof.
  apply (execute_task_body_raises "ping" ping (VBool true) permission_denied
           world_locked world_locked); reflexivity.
Defined.

Lemma execute_task_stamps_last_run_witness :
  exists w' t',
    execute_task "ping" ping world0 = (Ok true, w')
    /\ dict_get "ping" (tasks w') = Some t'
    /\ dict_get "last_run" t' = Some (VStr "2024-03-05T12:00:00")
    /\ dict_get "last_result" t' = Some (VStr "Alert logged: disk check")
    /\ persisted w'.
Proof.
  apply (execute_task_stamps_last_run "ping" ping (VBool true)
           "Alert logged: disk check" world0
           (snd (task_body ping world0))); reflexivity.
Defined.

Lemma execute_task_unknown_type_witness :
  fst (execute_task "mystery" mystery world0) = Ok true
  /\ last_run_of "mystery" (snd (execute_task "mystery" mystery world0))
     = Some (VStr "2024-03-05T12:00:00")
  /\ last_result_of "mystery" (snd (execute_task "mystery" mystery world0))
     = Some (VStr "").
Proof.
  destruct (execute_task_unknown_type "mystery" mystery (VBool true) (VStr "email")
              world0 eq_refl eq_refl eq_refl eq_refl eq_refl eq_refl eq_refl eq_refl)
    as [E _].
  rewrite E. repeat split.
Defined.

Lemma reports_names_distinct : NoDup (keys reports).
Proof.
  repeat constructor; simpl; intros H;
    repeat (destruct H as [H|H]; [discriminate H|]); exact H.
Qed.

Lemma reports_open_to_stat (k : string) (e : entry) :
  In (k, e) reports -> stat_error e = None.
Proof.
  simpl. intros H.
  repeat (destruct H as [H|H]; [now inversion H|]). destruct H.
Qed.

Lemma cleanup_days_old_zero_witness :
  fst (execute_file_cleanup (VStr "/var/tmp/reports") (VInt 0) (VStr "*.log") world0)
  = Ok "Deleted 1 files from /var/tmp/reports"
  /\ keys (listdir "/var/tmp/reports"
             (snd (execute_file_cleanup (VStr "/var/tmp/reports") (VInt 0)
                     (VStr "*.log") world0)))
     = ["notes.txt"; "busy.log"; "archive"; "fresh.log"].
Proof.
  destruct (cleanup_days_old_zero (L := RefLib) "/var/tmp/reports" "*.log"
              reports world0 eq_refl reports_names_distinct eq_refl eq_refl
              (fun k e Hin _ => reports_open_to_stat k e Hin) eq_refl)
    as [(w' & E & Hl & _) _].
  rewrite E. cbn [fst snd]. rewrite Hl. split; reflexivity.
Defined.

(** ** Where the specification's wording fails *)

(** C1 as stated fails: the alert log cannot be opened, the body of the
    enabled task [ping] raises, and [execute_task] returns [False], not
    [True]. *)
Lemma failed_body_returns_false :
  dict_get "ping" (tasks world_locked) = Some ping
  /\ enabled_of ping = Some true
  /\ fst (task_body ping world_locked) = Raise permission_denied
  /\ fst (execute_task "ping" ping world_locked) = Ok false
  /\ fst (execute_task "ping" ping world_locked) <> Ok true.
Proof.
  repeat split; try reflexivity. vm_compute. discriminate.
Qed.

(** C2 as stated fails: after that failed attempt the task's [last_run]
    is still [None], not the time of the attempt. *)
Lemma failed_attempt_keeps_last_run :
  enabled_of ping = Some true
  /\ fst (task_body ping world_locked) = Raise permission_denied
  /\ last_run_of "ping" world_locked = Some VNone
  /\ last_run_of "ping" (snd (execute_task "ping" ping world_locked)) = Some VNone
  /\ last_run_of "ping" (snd (execute_task "ping" ping world_locked))
     <> Some (VStr (isoformat (now world_locked))).
Proof.
  repeat split; try reflexivity. vm_compute. discriminate.
Qed.

(** C3 as stated fails twice: the alert body lets the error of opening
    the log out, and the cleanup and backup bodies report a missing
    directory by a text that does not start with [Error: ]. *)
Lemma bodies_break_uniform_contract :
  fst (execute_alert (VStr "disk check") world_locked) = Raise permission_denied
  /\ fst (execute_file_cleanup (VStr "/nowhere") (VInt 7) (VStr "*") world0)
     = Ok "Directory /nowhere does not exist"
  /\ startswith "Directory /nowhere does not exist" "Error: " = false
  /\ fst (execute_file_backup (VStr "/nowhere") (VStr "/backups") world0)
     = Ok "Source directory /nowhere does not exist"
  /\ startswith "Source directory /nowhere does not exist" "Error: " = false.
Proof. repeat split. Qed.

(** C4 as stated fails: the document is present and is no JSON text, its
    first byte being no text at all in the encoding the file is read in;
    [json.load] raises [UnicodeDecodeError], which [load_tasks] does not
    catch, and neither [load_tasks] nor the initialisation of the manager
    returns the empty mapping. *)
Lemma undecodable_document_raises :
  config_doc world_undecodable = Some (String (ascii_of_nat 255) "{}")
  /\ fst (load_tasks world_undecodable)
     = Raise (UnicodeDecodeError
                ("'utf-8' codec can't decode byte 0xff in position 0: "
                 ++ "invalid start byte"))
  /\ fst (load_tasks world_undecodable) <> Ok []
  /\ fst (init world_undecodable)
     = Raise (UnicodeDecodeError
                ("'utf-8' codec can't decode byte 0xff in position 0: "
                 ++ "invalid start byte")).
Proof. repeat split. vm_compute. discriminate. Qed.

(** C9 as stated fails: with [days_old = 0] the regular file [fresh.log],
    which matches the pattern and carries a modification time after the
    current time, is still there after the run, and so is [busy.log],
    whose deletion failed. *)
Lemma cleanup_zero_days_keeps_files :
  fnmatch "*.log" "fresh.log" = true
  /\ dict_get "fresh.log" (listdir "/var/tmp/reports" world0)
     = Some (mkEntry true 1709650000 None None)
  /\ fnmatch "*.log" "busy.log" = true
  /\ fst (execute_file_cleanup (VStr "/var/tmp/reports") (VInt 0) (VStr "*.log")
            world0)
     = Ok "Deleted 1 files from /var/tmp/reports"
  /\ dict_get "fresh.log"
       (listdir "/var/tmp/reports"
          (snd (execute_file_cleanup (VStr "/var/tmp/reports") (VInt 0)
                  (VStr "*.log") world0)))
     = Some (mkEntry true 1709650000 None None)
  /\ dict_has "busy.log"
       (listdir "/var/tmp/reports"
          (snd (execute_file_cleanup (VStr "/var/tmp/reports") (VInt 0)
                  (VStr "*.log") world0)))
     = true.
Proof. repeat split. Qed.

(** ** Further runs *)

(** A cleanup whose [days_old] is [None] fails inside its body; the text
    comes back with the prefix, and [execute_task] stamps [last_run]. *)
Example cleanup_internal_failure_is_stamped :
  let t := dict_set "days_old" VNone (dict_set "enabled" (VBool true) sweep) in
  let w := set_tasks (dict_set "sweep" t (tasks world0)) world0 in
  fst (execute_task "sweep" t w) = Ok true
  /\ last_result_of "sweep" (snd (execute_task "sweep" t w))
     = Some (VStr "Error: unsupported operand type(s) for *: 'NoneType' and 'int'")
  /\ last_run_of "sweep" (snd (execute_task "sweep" t w))
     = Some (VStr "2024-03-05T12:00:00").
Proof. repeat split. Qed.

(** Two backups within one second: the second finds its target taken. *)
Example backup_twice_same_second :
  let w1 := snd (execute_file_backup (VStr "/var/tmp/reports") (VStr "/backups")
                   world0) in
  fst (execute_file_backup (VStr "/var/tmp/reports") (VStr "/backups") world0)
  = Ok "Backup completed: /var/tmp/reports -> /backups/backup_20240305_120000"
  /\ fst (execute_file_backup (VStr "/var/tmp/reports") (VStr "/backups") w1)
     = Ok "Error: [Errno 17] File exists: '/backups/backup_20240305_120000'".
Proof. split; vm_compute; reflexivity. Qed.

(** The recurrence set of [world0]: the disabled task has no job. *)
Example registry_world0 :
  registry (tasks world0)
  = [mkJob "ping" 5 Minutes None; mkJob "mystery" 1 Days None].
Proof. vm_compute. reflexivity. Qed.

(** A task executed under a name the mapping does not hold: the handler
    fails in turn and the [KeyError] reaches the caller. *)
Example execute_task_unknown_name :
  fst (execute_task "ghost" ping world0) = Raise (KeyError "ghost").
Proof. vm_compute. reflexivity. Qed.

(** * The rest of the manager *)

(** ** The scheduler switch *)

(** The route [/toggle_scheduler]. *)
Definition route_toggle_scheduler {L : PyLib} : M unit :=
  r <- gets running ;;
  if r then stop_scheduler else start_scheduler.

(** ** More on dictionaries *)

Lemma dict_get_del_neq {V : Type} (k k' : string) (d : dict V) :
  k <> k' -> dict_get k' (dict_del k d) = dict_get k' d.
Proof.
  intros Hne. induction d as [|[k0 v0] r IH]; simpl; auto.
  destruct (String.eqb_spec k k0) as [->|Hk]; simpl.
  - destruct (String.eqb_spec k' k0); congruence.
  - destruct (String.eqb_spec k' k0); auto.
Qed.

Lemma keys_dict_del_incl {V : Type} (k k' : string) (d : dict V) :
  In k' (keys (dict_del k d)) -> In k' (keys d).
Proof.
  induction d as [|[k0 v0] r IH]; simpl; auto.
  destruct (String.eqb k k0); simpl; tauto.
Qed.

Lemma dict_get_del_eq {V : Type} (k : string) (d : dict V) :
  NoDup (keys d) -> dict_get k (dict_del k d) = None.
Proof.
  induction d as [|[k0 v0] r IH]; simpl; auto.
  intros Hnd. inversion Hnd; subst.
  destruct (String.eqb_spec k k0) as [->|Hk]; simpl.
  - now apply dict_get_not_In.
  - destruct (String.eqb_spec k k0); [congruence|auto].
Qed.

Lemma NoDup_dict_del {V : Type} (k : string) (d : dict V) :
  NoDup (keys d) -> NoDup (keys (dict_del k d)).
Proof.
  induction d as [|[k0 v0] r IH]; simpl; auto.
  intros Hnd. inversion Hnd; subst.
  destruct (String.eqb k k0); simpl; auto.
  constructor; auto. intros Hin. apply H1. eapply keys_dict_del_incl; eauto.
Qed.

Lemma length_dict_del {V : Type} (k : string) (v : V) (d : dict V) :
  dict_get k d = Some v -> S (List.length (dict_del k d)) = List.length d.
Proof.
  induction d as [|[k0 v0] r IH]; simpl; [discriminate|].
  destruct (String.eqb k k0); simpl; auto.
Qed.

Lemma dict_set_absent {V : Type} (k : string) (v : V) (d : dict V) :
  dict_get k d = None -> dict_set k v d = (d ++ [(k, v)])%list.
Proof.
  induction d as [|[k0 v0] r IH]; simpl; auto.
  destruct (String.eqb k k0); [discriminate|]. intros H. now rewrite IH.
Qed.

Lemma dict_del_set_absent {V : Type} (k : string) (v : V) (d : dict V) :
  dict_get k d = None -> dict_del k (dict_set k v d) = d.
Proof.
  induction d as [|[k0 v0] r IH]; simpl.
  - now rewrite String.eqb_refl.
  - destruct (String.eqb k k0) eqn:E; [discriminate|]. simpl. rewrite E.
    intros H. now rewrite IH.
Qed.

Lemma dict_del_incl {V : Type} (k : string) (d : dict V) :
  incl (dict_del k d) d.
Proof.
  induction d as [|[k0 v0] r IH]; simpl; [apply incl_refl|].
  destruct (String.eqb k k0).
  - apply incl_tl, incl_refl.
  - intros x [<-|H]; [now left|right; now apply IH].
Qed.

(** [del d[k]] removes the entry [d[k]] reads, and no other. *)
Lemma dict_del_keeps {V : Type} (k : string) (v : V) (kv : string * V)
    (d : dict V) :
  dict_get k d = Some v -> In kv d -> kv <> (k, v) -> In kv (dict_del k d).
Proof.
  induction d as [|[k0 v0] r IH]; simpl; [tauto|].
  destruct (String.eqb_spec k k0) as [->|Hk].
  - intros Hg [<-|Hin] Hne; [congruence|exact Hin].
  - intros Hg [<-|Hin] Hne; [now left|right; auto].
Qed.

Lemma string_length_append (a b : string) :
  String.length (a ++ b) = String.length a + String.length b.
Proof. induction a as [|c a IH]; simpl; auto. Qed.

Section MoreProperties.
Context {L : PyLib}.

(** The tail of every mutation, with the registry it leaves. *)
Lemma save_restart_registry (w : World) :
  dict_get config_file (faults w) = None ->
  exists r,
    (save_tasks ;; restart_scheduler ;; ret true) w
    = (Ok true,
       set_running r
         (set_jobs (registry (tasks w))
            (set_config_doc (Some (json_dumps (tasks w))) w))).
Proof.
  intros H. rewrite (bind_ok _ _ _ _ _ (save_tasks_ok _ H)).
  destruct (restart_scheduler_registry
              (set_config_doc (Some (json_dumps (tasks w))) w)) as (r & E).
  exists r. now rewrite (bind_ok _ _ _ _ _ E).
Qed.

(** ** Removing *)

(** X1. [remove_task] on a present name returns [True]; afterwards the
    name is absent, every other entry is what it was, the mapping is one
    entry shorter and still without repeated names, it has been written
    to the document, and the registry is that of the new mapping.  On an
    absent name it returns [False] and changes nothing. *)
Theorem remove_task_spec (name : string) (t : task) (w : World) :
  dict_get name (tasks w) = Some t ->
  NoDup (keys (tasks w)) ->
  dict_get config_file (faults w) = None ->
  (exists w',
     remove_task name w = (Ok true, w')
     /\ dict_get name (tasks w') = None
     /\ (forall other, other <> name ->
           dict_get other (tasks w') = dict_get other (tasks w))
     /\ S (List.length (tasks w')) = List.length (tasks w)
     /\ NoDup (keys (tasks w'))
     /\ persisted w'
     /\ jobs w' = registry (tasks w'))
  /\ (forall absent w0,
        dict_get absent (tasks w0) = None ->
        remove_task absent w0 = (Ok false, w0)).
Proof.
  intros Hn Hnd Hf. split.
  - unfold remove_task, bind at 1, gets, dict_has. rewrite Hn.
    unfold bind at 1, modify.
    destruct (save_restart_registry (set_tasks (dict_del name (tasks w)) w) Hf)
      as (r & E).
    rewrite E. eexists. split; [reflexivity|]. simpl.
    split; [now apply dict_get_del_eq|].
    split; [intros other Hne; apply dict_get_del_neq; congruence|].
    split; [eapply length_dict_del; eauto|].
    split; [now apply NoDup_dict_del|]. split; reflexivity.
  - intros absent w0 H. unfold remove_task, bind, gets, dict_has. now rewrite H.
Qed.

(** ** Adding a new name *)

(** X2. [add_task] under a name the mapping does not hold appends one
    record after the existing entries, which stay as they were, returns
    [True] and writes the mapping to the document.  When the extra
    parameters name none of the five base fields, the record holds the
    type and the schedule given, [created] the time of the call,
    [enabled = True], [last_run = None], and every extra parameter under
    its name. *)
Theorem add_task_appends (name : string) (ty st : value) (kw : dict value)
    (w : World) :
  dict_get name (tasks w) = None ->
  dict_get config_file (faults w) = None ->
  NoDup (keys kw) ->
  (forall k, In k base_fields -> ~ In k (keys kw)) ->
  exists w' t,
    add_task name ty st kw w = (Ok true, w')
    /\ tasks w' = (tasks w ++ [(name, t)])%list
    /\ (NoDup (keys (tasks w)) -> NoDup (keys (tasks w')))
    /\ dict_get "type" t = Some ty
    /\ dict_get "schedule" t = Some st
    /\ dict_get "created" t = Some (VStr (isoformat (now w)))
    /\ dict_get "enabled" t = Some (VBool true)
    /\ dict_get "last_run" t = Some VNone
    /\ (forall k v, dict_get k kw = Some v -> dict_get k t = Some v)
    /\ persisted w'.
Proof.
  intros Hn Hf Hnd Hkw. unfold add_task, bind at 1 2, gets, modify.
  set (t := dict_update _ kw).
  destruct (save_restart_registry (set_tasks (dict_set name t (tasks w)) w) Hf)
    as (r & E).
  rewrite E. eexists _, t. split; [reflexivity|]. simpl.
  rewrite (dict_set_absent _ _ _ Hn). split; [reflexivity|].
  split.
  { intros Hs. rewrite keys_app. simpl. apply NoDup_app; auto.
    - repeat constructor. simpl. tauto.
    - intros x Hx [<-|[]]. now apply (dict_get_none_keys _ _ Hn). }
  assert (Hbase : forall k, In k base_fields ->
            dict_get k t
            = dict_get k [("type", ty); ("schedule", st);
                          ("created", VStr (isoformat (now w)));
                          ("enabled", VBool true); ("last_run", VNone)]).
  { intros k Hk. unfold t. apply dict_update_get_other. now apply Hkw. }
  repeat (split; [apply Hbase; simpl; tauto|]).
  split; [|reflexivity].
  intros k v Hg. unfold t. now apply dict_update_get_in.
Qed.

(** X3. Adding a task under a new name and removing it again gives back
    the mapping as it was, in the same order, and the document holds it
    again. *)
Theorem add_then_remove (name : string) (ty st : value) (kw : dict value)
    (w : World) :
  dict_get name (tasks w) = None ->
  dict_get config_file (faults w) = None ->
  exists w1 w2,
    add_task name ty st kw w = (Ok true, w1)
    /\ remove_task name w1 = (Ok true, w2)
    /\ tasks w2 = tasks w
    /\ config_doc w2 = Some (json_dumps (tasks w))
    /\ jobs w2 = registry (tasks w).
Proof.
  intros Hn Hf. unfold add_task, bind at 1 2, gets, modify.
  set (t := dict_update _ kw).
  destruct (save_restart_registry (set_tasks (dict_set name t (tasks w)) w) Hf)
    as (r & E).
  rewrite E. clear E.
  set (w1 := set_running r _).
  assert (Hn1 : dict_get name (tasks w1) = Some t) by apply dict_get_set_eq.
  destruct (save_restart_registry (set_tasks (dict_del name (tasks w1)) w1) Hf)
    as (r' & E').
  exists w1. eexists. split; [reflexivity|].
  unfold remove_task, bind at 1, gets, dict_has. rewrite Hn1.
  unfold bind at 1, modify. rewrite E'. split; [reflexivity|]. simpl.
  rewrite (dict_del_set_absent _ _ _ Hn). repeat split.
Qed.

(** ** Toggling once *)

(** X4. One [toggle_task] of a present task changes the [enabled] field
    of that task to the negation of its truth value and nothing else of
    the mapping: the other fields of the task and all other tasks are
    what they were, in the same order. *)
Theorem toggle_task_frame (name : string) (t : task) (v : value) (w : World) :
  dict_get name (tasks w) = Some t ->
  dict_get "enabled" t = Some v ->
  dict_get config_file (faults w) = None ->
  exists w' t',
    toggle_task name w = (Ok true, w')
    /\ dict_get name (tasks w') = Some t'
    /\ dict_get "enabled" t' = Some (VBool (negb (truthy v)))
    /\ keys t' = keys t
    /\ (forall k, k <> "enabled" -> dict_get k t' = dict_get k t)
    /\ keys (tasks w') = keys (tasks w)
    /\ (forall other, other <> name ->
          dict_get other (tasks w') = dict_get other (tasks w)).
Proof.
  intros Hn He Hf.
  destruct (toggle_task_present name t v w Hn He Hf) as (r & E).
  cbv zeta in E. rewrite E. eexists _, _. split; [reflexivity|]. simpl.
  split; [apply dict_get_set_eq|]. split; [apply dict_get_set_eq|].
  split; [eapply keys_dict_set_present; eauto|].
  split; [intros k Hk; apply dict_get_set_neq; congruence|].
  split; [eapply keys_dict_set_present; eauto|].
  intros other Hne. apply dict_get_set_neq. congruence.
Qed.

(** X5. [toggle_task] on a task that has no [enabled] field raises
    [KeyError] for that field, having changed nothing: not the mapping,
    not the document, not the scheduler. *)
Theorem toggle_task_no_enabled (name : string) (t : task) (w : World) :
  dict_get name (tasks w) = Some t ->
  dict_get "enabled" t = None ->
  toggle_task name w = (Raise (KeyError "enabled"), w).
Proof.
  intros Hn He. unfold toggle_task, bind at 1, gets, dict_has. rewrite Hn.
  rewrite (bind_ok _ _ _ _ _ (getitem_some _ _ _ w Hn)).
  apply bind_raise. unfold getitem. now rewrite He.
Qed.

(** ** More on execution *)

(** Which required field a task of a known type lacks, in the order
    [execute_task] reads them. *)
Inductive missing_key (t : task) : string -> Prop :=
| missing_type :
    dict_get "type" t = None -> missing_key t "type"
| missing_cleanup_source :
    dict_get "type" t = Some (VStr "file_cleanup") ->
    dict_get "source_dir" t = None -> missing_key t "source_dir"
| missing_backup_source :
    dict_get "type" t = Some (VStr "file_backup") ->
    dict_get "source_dir" t = None -> missing_key t "source_dir"
| missing_backup_target :
    dict_get "type" t = Some (VStr "file_backup") ->
    dict_get "source_dir" t <> None ->
    dict_get "backup_dir" t = None -> missing_key t "backup_dir"
| missing_message :
    dict_get "type" t = Some (VStr "alert") ->
    dict_get "message" t = None -> missing_key t "message".

(** The two ways [execute_task] ends for an enabled task stored under
    its name, the document being writable: the record gets [last_run] and
    [last_result], or [last_result] alone; besides that record and the
    document, only what the body did to the files differs. *)
Lemma execute_task_cases (name : string) (t : task) (v : value) (w : World) :
  dict_get name (tasks w) = Some t ->
  dict_get "enabled" t = Some v ->
  truthy v = true ->
  dict_get config_file (faults w) = None ->
  exists (b : bool) (t' : task) (w1 : World),
    let ts := dict_set name t' (tasks w) in
    execute_task name t w
    = (Ok b, set_config_doc (Some (json_dumps ts)) (set_tasks ts w1))
    /\ files_only w w1
    /\ ((exists r, task_body t w = (Ok r, w1) /\ b = true
                   /\ t' = dict_set "last_result" (VStr r)
                             (dict_set "last_run" (VStr (isoformat (now w))) t))
        \/ (exists e, task_body t w = (Raise e, w1) /\ b = false
                      /\ t' = dict_set "last_result"
                                (VStr ("Error: " ++ exn_str e)) t)).
Proof.
  intros Hn He Hv Hf.
  pose proof (files_task_body t w) as Hfiles.
  destruct (task_body t w) as [[r|e] w1] eqn:Hb; simpl in Hfiles.
  - exists true, (dict_set "last_result" (VStr r)
                    (dict_set "last_run" (VStr (isoformat (now w))) t)), w1.
    cbv zeta. split; [exact (execute_task_returned name t v r w w1 Hn He Hv Hf Hb)|].
    split; [exact Hfiles|]. left. eauto.
  - exists false, (dict_set "last_result" (VStr ("Error: " ++ exn_str e)) t), w1.
    cbv zeta. split; [exact (execute_task_raised name t v e w w1 Hn He Hv Hf Hb)|].
    split; [exact Hfiles|]. right. eauto.
Qed.

(** X6. For a task stored under its name that has an [enabled] field, the
    document being writable, [execute_task] never raises, whatever the
    body does: it returns a boolean, and that boolean is [True] exactly
    when the task is enabled and its body returned a text. *)
Theorem execute_task_never_raises (name : string) (t : task) (v : value)
    (w : World) :
  dict_get name (tasks w) = Some t ->
  dict_get "enabled" t = Some v ->
  dict_get config_file (faults w) = None ->
  exists b w',
    execute_task name t w = (Ok b, w')
    /\ (b = true <-> truthy v = true /\ exists r, fst (task_body t w) = Ok r).
Proof.
  intros Hn He Hf. destruct (truthy v) eqn:Hv.
  - destruct (execute_task_cases name t v w Hn He Hv Hf)
      as (b & t' & w1 & E & _ & [(r & Hb & -> & _)|(e & Hb & -> & _)]);
      cbv zeta in E; rewrite E; eexists _, _; (split; [reflexivity|]);
      rewrite Hb; simpl.
    + split; eauto.
    + split; [discriminate|]. intros [_ [r Hr]]. discriminate.
  - exists false, w. split.
    + unfold execute_task.
      rewrite (bind_ok _ _ _ _ _ (getitem_some _ _ _ w He)). now rewrite Hv.
    + split; [discriminate|]. intros [H _]. discriminate.
Qed.

(** X7. Under the same conditions [execute_task] changes, of the mapping,
    at most the [last_run] and [last_result] fields of the task it runs:
    the names and their order, every other task and every other field of
    this task are what they were; the scheduler's registry and running
    flag are not touched, and the document holds the mapping. *)
Theorem execute_task_frame (name : string) (t : task) (v : value) (w : World) :
  dict_get name (tasks w) = Some t ->
  dict_get "enabled" t = Some v ->
  truthy v = true ->
  dict_get config_file (faults w) = None ->
  let w' := snd (execute_task name t w) in
  keys (tasks w') = keys (tasks w)
  /\ (forall other, other <> name ->
        dict_get other (tasks w') = dict_get other (tasks w))
  /\ (exists t', dict_get name (tasks w') = Some t'
                 /\ forall k, k <> "last_run" -> k <> "last_result" ->
                      dict_get k t' = dict_get k t)
  /\ jobs w' = jobs w /\ running w' = running w
  /\ persisted w'.
Proof.
  intros Hn He Hv Hf w'.
  destruct (execute_task_cases name t v w Hn He Hv Hf)
    as (b & t' & w1 & E & (d & a & ->) & Hcase).
  cbv zeta in E. unfold w'. rewrite E. simpl.
  split; [eapply keys_dict_set_present; eauto|].
  split; [intros other Hne; apply dict_get_set_neq; congruence|].
  split; [|repeat split].
  exists t'. split; [apply dict_get_set_eq|].
  intros k H1 H2.
  destruct Hcase as [(r & _ & _ & ->)|(e & _ & _ & ->)].
  - rewrite dict_get_set_neq by congruence. apply dict_get_set_neq. congruence.
  - apply dict_get_set_neq. congruence.
Qed.

(** X8. [execute_task] under a name the mapping does not hold lets a
    [KeyError] for that name out: the assignment in the handler fails
    like the one it handles.  Neither the mapping nor the document is
    changed, though the body has run. *)
Theorem execute_task_absent_name (name : string) (t : task) (v : value)
    (w : World) :
  dict_get name (tasks w) = None ->
  dict_get "enabled" t = Some v ->
  truthy v = true ->
  exists w',
    execute_task name t w = (Raise (KeyError name), w')
    /\ w' = snd (task_body t w)
    /\ tasks w' = tasks w
    /\ config_doc w' = config_doc w.
Proof.
  intros Hn He Hv. unfold execute_task.
  rewrite (bind_ok _ _ _ _ _ (getitem_some _ _ _ w He)). rewrite Hv. simpl.
  destruct (task_body t w) as [[r|e] w1] eqn:Hb;
    destruct (task_body_frame t w w1 _ Hb) as (Ht & _ & _ & Hc).
  - assert (Hset : forall key x, set_field name key x w1 = (Raise (KeyError name), w1)).
    { intros key x. unfold set_field, bind, gets, getitem. now rewrite Ht, Hn. }
    exists w1. split; [|now simpl].
    rewrite (try_raise _ _ w w1 (KeyError name)).
    + now rewrite (bind_raise _ _ _ _ _ (Hset _ _)).
    + rewrite (bind_ok _ _ _ _ _ Hb). unfold bind at 1, gets.
      now rewrite (bind_raise _ _ _ _ _ (Hset _ _)).
  - assert (Hset : forall key x, set_field name key x w1 = (Raise (KeyError name), w1)).
    { intros key x. unfold set_field, bind, gets, getitem. now rewrite Ht, Hn. }
    exists w1. split; [|now simpl].
    rewrite (try_raise _ _ w w1 e) by (now rewrite (bind_raise _ _ _ _ _ Hb)).
    now rewrite (bind_raise _ _ _ _ _ (Hset _ _)).
Qed.

(** The body of a task that lacks a required field raises [KeyError]
    for it before doing anything. *)
Lemma task_body_missing_key (t : task) (key : string) (w : World) :
  missing_key t key -> task_body t w = (Raise (KeyError key), w).
Proof.
  intros H. unfold task_body, bind, getitem, ret, raise.
  destruct H as [Ht|Ht Hs|Ht Hs|Ht Hs Hb|Ht Hm]; rewrite Ht; simpl;
    try rewrite Hs; try rewrite Hm; try reflexivity.
  destruct (dict_get "source_dir" t); [|congruence]. now rewrite Hb.
Qed.

(** X9. For an enabled task stored under its name that lacks a field its
    type requires (or the type itself), [execute_task] returns [False]
    and records [Error: ] followed by the name of the field in quotes in
    [last_result]; the body has touched no file, and [last_run] is not
    set. *)
Theorem execute_task_missing_key (name key : string) (t : task) (v : value)
    (w : World) :
  missing_key t key ->
  dict_get name (tasks w) = Some t ->
  dict_get "enabled" t = Some v ->
  truthy v = true ->
  dict_get config_file (faults w) = None ->
  let ts := dict_set name
              (dict_set "last_result" (VStr ("Error: " ++ quoted key)) t)
              (tasks w) in
  execute_task name t w
  = (Ok false, set_config_doc (Some (json_dumps ts)) (set_tasks ts w))
  /\ last_result_of name (set_tasks ts w) = Some (VStr ("Error: " ++ quoted key))
  /\ last_run_of name (set_tasks ts w) = dict_get "last_run" t.
Proof.
  intros Hm Hn He Hv Hf ts.
  pose proof (execute_task_raised name t v (KeyError key) w w Hn He Hv Hf
                (task_body_missing_key t key w Hm)) as E.
  cbv zeta in E. split; [exact E|].
  unfold last_result_of, last_run_of, ts. cbn [tasks set_tasks].
  rewrite !dict_get_set_eq.
  split; [reflexivity|]. apply dict_get_set_neq. discriminate.
Qed.

(** X10. Executing a task leaves the recurrence set as it is: the jobs a
    rebuild would register for the mapping after the run are those it
    registers for the mapping before it, so a run calls for no rebuild. *)
Theorem execute_task_keeps_registry (name : string) (t : task) (v : value)
    (w : World) :
  dict_get name (tasks w) = Some t ->
  dict_get "enabled" t = Some v ->
  truthy v = true ->
  dict_get config_file (faults w) = None ->
  registry (tasks (snd (execute_task name t w))) = registry (tasks w).
Proof.
  intros Hn He Hv Hf.
  destruct (execute_task_cases name t v w Hn He Hv Hf)
    as (b & t' & w1 & E & (d & a & ->) & Hcase).
  cbv zeta in E. rewrite E. simpl.
  apply registry_same_schedule. apply same_schedule_set with (t := t); auto.
  - unfold enabled_of.
    destruct Hcase as [(r & _ & _ & ->)|(e & _ & _ & ->)];
      now rewrite ?dict_get_set_neq by discriminate.
  - destruct Hcase as [(r & _ & _ & ->)|(e & _ & _ & ->)];
      now rewrite ?dict_get_set_neq by discriminate.
Qed.


(** ** More on cleanup *)

(** X11. On an existing directory, with a pattern of one component that
    glob accepts and an integer [days_old], a cleanup run removes exactly
    the regular files matching the pattern whose modification time is
    strictly before [now - days_old * 86400] and whose deletion succeeds,
    and reports their number; and a run with a larger [days_old] leaves
    every entry this one leaves.  (The entries that match are assumed to
    be open to [stat]; the clock, the age in seconds and the cutoff are
    below 2^53 in size, where the float arithmetic of the cutoff is
    exact.) *)
Theorem cleanup_removes_old_files (path pattern : string) (days : Z)
    (es : dict entry) (w : World) :
  dict_get path (disk w) = Some (Dir es) ->
  NoDup (keys es) ->
  one_component pattern = true ->
  glob_check (VStr pattern) = None ->
  (forall k e, In (k, e) es -> fnmatch pattern k = true -> stat_error e = None) ->
  (Z.abs (days * 86400) < 2 ^ 53)%Z ->
  (Z.abs (time_time w - days * 86400) < 2 ^ 53)%Z ->
  let cutoff_time := (time_time w - days * 86400)%Z in
  exists w',
    execute_file_cleanup (VStr path) (VInt days) (VStr pattern) w
    = (Ok ("Deleted "
           ++ str_of_nat (List.length (filter (doomed pattern cutoff_time) es))
           ++ " files from " ++ path), w')
    /\ listdir path w' = filter (kept pattern cutoff_time) es
    /\ tasks w' = tasks w
    /\ (forall more,
          (days <= more)%Z ->
          (Z.abs (more * 86400) < 2 ^ 53)%Z ->
          (Z.abs (time_time w - more * 86400) < 2 ^ 53)%Z ->
          incl (listdir path w')
               (listdir path
                  (snd (execute_file_cleanup (VStr path) (VInt more)
                          (VStr pattern) w)))).
Proof.
  intros Hdir Hnd Hone Hg Hstat Hd Ht cutoff_time.
  pose proof (cleanup_run path pattern (VInt days) cutoff_time es w
                Hdir Hnd Hone Hg Hstat (cutoff_exact days w Hd Ht)) as E.
  eexists. split; [exact E|].
  rewrite listdir_set_disk. split; [reflexivity|]. split; [reflexivity|].
  intros more Hle Hd' Ht'.
  rewrite (cleanup_run path pattern (VInt more) _ es w
             Hdir Hnd Hone Hg Hstat (cutoff_exact more w Hd' Ht')).
  cbn [snd]. rewrite listdir_set_disk.
  intros kv Hin. apply filter_In in Hin. destruct Hin as [Hin Hk].
  apply filter_In. split; [exact Hin|].
  unfold kept, doomed, cutoff_time in *.
  destruct (fnmatch pattern (fst kv) && is_file (snd kv)); simpl in *; [|reflexivity].
  destruct (unlink_error (snd kv)); [now rewrite andb_false_r|].
  rewrite andb_true_r in *.
  destruct (Z.ltb_spec (st_mtime (snd kv)) (time_time w - days * 86400));
    [discriminate|].
  destruct (Z.ltb_spec (st_mtime (snd kv)) (time_time w - more * 86400));
    [lia|reflexivity].
Qed.

(** What a cleanup run may do to the world: the manager is left alone,
    and a directory loses entries at most, never one that is not a
    regular file. *)
Definition pruned (w w' : World) : Prop :=
  tasks w' = tasks w /\ jobs w' = jobs w /\ running w' = running w
  /\ forall path,
       incl (listdir path w') (listdir path w)
       /\ forall kv, In kv (listdir path w) -> is_file (snd kv) = false ->
            In kv (listdir path w').

Lemma pruned_refl (w : World) : pruned w w.
Proof.
  unfold pruned.
  split; [reflexivity|]. split; [reflexivity|]. split; [reflexivity|].
  intros p. split; [apply incl_refl|auto].
Qed.

Lemma pruned_trans (w1 w2 w3 : World) :
  pruned w1 w2 -> pruned w2 w3 -> pruned w1 w3.
Proof.
  intros (Ht & Hj & Hr & Hl) (Ht' & Hj' & Hr' & Hl').
  unfold pruned.
  split; [congruence|]. split; [congruence|]. split; [congruence|].
  intros p. split.
  - eapply incl_tran; [apply Hl'|apply Hl].
  - intros kv Hin Hnf. apply Hl'; [|exact Hnf]. now apply Hl.
Qed.

(** Removing a regular file from a directory prunes. *)
Lemma pruned_unlink (path name : string) (e : entry) (w : World) :
  dict_get name (listdir path w) = Some e ->
  is_file e = true ->
  pruned w
    (set_disk (dict_set path (Dir (dict_del name (listdir path w))) (disk w)) w).
Proof.
  intros Hg Hf. unfold pruned.
  split; [reflexivity|]. split; [reflexivity|]. split; [reflexivity|].
  intros p. split.
  - unfold listdir at 1. cbn [disk set_disk].
    destruct (String.eqb_spec path p) as [<-|Hne].
    + rewrite dict_get_set_eq. apply dict_del_incl.
    + rewrite dict_get_set_neq by exact Hne. apply incl_refl.
  - intros kv Hin Hnf. unfold listdir at 1. cbn [disk set_disk].
    destruct (String.eqb_spec path p) as [<-|Hne].
    + rewrite dict_get_set_eq. apply (dict_del_keeps name e kv _ Hg Hin).
      intros ->. simpl in Hnf. congruence.
    + rewrite dict_get_set_neq by exact Hne. exact Hin.
Qed.

(** The loop prunes, whether it comes to its end or stops at an entry
    that [stat] cannot examine. *)
Lemma cleanup_loop_pruned (cutoff_time : Z) (matches : list (string * string)) :
  forall (count : nat) (w : World),
    pruned w (snd (cleanup_loop cutoff_time matches count w)).
Proof.
  induction matches as [|[path name] rest IH]; intros count w.
  - apply pruned_refl.
  - rewrite cleanup_loop_cons.
    destruct (dict_get name (listdir path w)) as [e|] eqn:Eg; [|apply IH].
    destruct (stat_error e); [apply pruned_refl|].
    destruct (is_file e && Z.ltb (st_mtime e) cutoff_time) eqn:Ec; [|apply IH].
    destruct (unlink_error e); [apply IH|].
    eapply pruned_trans; [|apply IH].
    apply andb_prop in Ec. destruct Ec as [Hf _].
    now apply pruned_unlink with (e := e).
Qed.

Lemma path_exists_reads (path : string) (w : World) :
  exists r, path_exists path w = (r, w).
Proof.
  unfold path_exists, bind, gets, ret, raise.
  destruct (dict_get path (disk w)) as [[es| |x]|]; eauto.
Qed.

Lemma cutoff_reads (days_old : value) (w : World) :
  exists r, cutoff days_old w = (r, w).
Proof.
  unfold cutoff, bind, gets, ret, raise, lift.
  destruct days_old as [| b | n |s]; eauto;
    match goal with
    | |- context [float_of_int ?x] => destruct (float_of_int x); eauto
    end.
Qed.

Lemma glob_reads (path : string) (pattern : value) (w : World) :
  exists r, glob path pattern w = (r, w).
Proof.
  unfold glob, bind, gets, ret, raise.
  destruct (glob_check pattern); [eauto|].
  destruct pattern as [| | |p]; eauto. destruct (one_component p); eauto.
Qed.

Lemma cleanup_body_pruned (source_dir days_old file_pattern : value) (w : World) :
  pruned w (snd (cleanup_body source_dir days_old file_pattern w)).
Proof.
  unfold cleanup_body.
  destruct source_dir as [| | |path]; try apply pruned_refl.
  rewrite (bind_ok _ _ _ _ _ (eq_refl (Path (VStr path) w))).
  destruct (path_exists_reads path w) as ([[|]|e] & Ex);
    [rewrite (bind_ok _ _ _ _ _ Ex); cbn [negb]
    |rewrite (bind_ok _ _ _ _ _ Ex); apply pruned_refl
    |rewrite (bind_raise _ _ _ _ _ Ex); apply pruned_refl].
  destruct (cutoff_reads days_old w) as ([c|e] & Ec);
    [rewrite (bind_ok _ _ _ _ _ Ec)
    |rewrite (bind_raise _ _ _ _ _ Ec); apply pruned_refl].
  destruct (glob_reads path file_pattern w) as ([matches|e] & Eg);
    [rewrite (bind_ok _ _ _ _ _ Eg)
    |rewrite (bind_raise _ _ _ _ _ Eg); apply pruned_refl].
  pose proof (cleanup_loop_pruned c matches 0 w) as Hp.
  unfold bind. destruct (cleanup_loop c matches 0 w) as [[n|e] w']; exact Hp.
Qed.

(** X12. Whatever its parameters, and wherever its pattern leads, a
    cleanup run returns a text and does nothing to the directories but
    remove regular files from them: every directory holds afterwards
    entries it held before, as they were, and every entry that is not a
    regular file is still there; the tasks and the scheduler are left
    alone. *)
Theorem cleanup_only_prunes (source_dir days_old file_pattern : value)
    (w : World) :
  exists s w',
    execute_file_cleanup source_dir days_old file_pattern w = (Ok s, w')
    /\ tasks w' = tasks w /\ jobs w' = jobs w /\ running w' = running w
    /\ (forall path,
          incl (listdir path w') (listdir path w)
          /\ forall kv, In kv (listdir path w) -> is_file (snd kv) = false ->
               In kv (listdir path w')).
Proof.
  pose proof (cleanup_body_pruned source_dir days_old file_pattern w) as Hp.
  unfold execute_file_cleanup, try_except, ret.
  destruct (cleanup_body source_dir days_old file_pattern w) as [[s|e] w'];
    eexists _, w'; (split; [reflexivity|exact Hp]).
Qed.

(** Integers of 2^1024 and more in size are beyond the floats. *)
Lemma round_float_beyond (z : Z) :
  (float_inf <= Z.abs z)%Z -> (float_inf <= Z.abs (round_float z))%Z.
Proof.
  unfold float_inf, round_float. intros H. cbv zeta.
  set (a := Z.abs z) in *.
  assert (Hpos : (0 < a)%Z) by (pose proof (Z.pow_pos_nonneg 2 1024); lia).
  assert (Hlog : (1024 <= Z.log2 a)%Z).
  { replace 1024%Z with (Z.log2 (2 ^ 1024)) by (apply Z.log2_pow2; lia).
    now apply Z.log2_le_mono. }
  destruct (Z.leb_spec (Z.log2 a - 52) 0) as [Hd|Hd]; [lia|].
  set (ulp := (2 ^ (Z.log2 a - 52))%Z).
  assert (Hulp : (0 < ulp)%Z) by (apply Z.pow_pos_nonneg; lia).
  assert (Hfull : (ulp * 2 ^ 52 = 2 ^ Z.log2 a)%Z).
  { unfold ulp. rewrite <- Z.pow_add_r by lia. f_equal. lia. }
  assert (Hq : (2 ^ 52 <= a / ulp)%Z).
  { apply Z.div_le_lower_bound; [exact Hulp|].
    rewrite Hfull. now apply Z.log2_spec. }
  assert (Hmono : (2 ^ 1024 <= 2 ^ Z.log2 a)%Z)
    by (apply Z.pow_le_mono_r; lia).
  set (q' := if (2 * (a mod ulp) <? ulp)%Z then (a / ulp)%Z
             else if (ulp <? 2 * (a mod ulp))%Z then (a / ulp + 1)%Z
             else if Z.even (a / ulp) then (a / ulp)%Z else (a / ulp + 1)%Z).
  assert (Hq' : (a / ulp <= q')%Z).
  { unfold q'. repeat match goal with |- context [if ?b then _ else _] => destruct b end; lia. }
  fold q'.
  assert (Hsgn : Z.abs (Z.sgn z) = 1%Z).
  { destruct z as [|p|p]; [|reflexivity|reflexivity].
    unfold a in Hpos. simpl in Hpos. lia. }
  rewrite Z.abs_mul, Hsgn, Z.mul_1_l.
  assert (Hlow : (2 ^ Z.log2 a <= q' * ulp)%Z).
  { rewrite <- Hfull, (Z.mul_comm ulp). apply Z.mul_le_mono_nonneg_r; lia. }
  rewrite Z.abs_eq by (apply Z.mul_nonneg_nonneg; lia).
  lia.
Qed.

(** X13. On an existing directory, a cleanup run whose [days_old] is
    [None], or an integer whose age in seconds no float holds, or whose
    pattern glob refuses, returns the text of the error after [Error: ]
    and deletes nothing.  The age is converted before the pattern is
    looked at: with both at fault the text is that of the age. *)
Theorem cleanup_bad_parameter (path : string) (es : dict entry)
    (file_pattern : value) (w : World) :
  dict_get path (disk w) = Some (Dir es) ->
  execute_file_cleanup (VStr path) VNone file_pattern w
  = (Ok "Error: unsupported operand type(s) for *: 'NoneType' and 'int'", w)
  /\ (forall n,
        (float_inf <= Z.abs (n * 86400))%Z ->
        execute_file_cleanup (VStr path) (VInt n) file_pattern w
        = (Ok "Error: int too large to convert to float", w))
  /\ (forall n s e,
        float_of_int (n * 86400) = Ok s ->
        glob_check file_pattern = Some e ->
        execute_file_cleanup (VStr path) (VInt n) file_pattern w
        = (Ok ("Error: " ++ exn_str e), w)).
Proof.
  intros Hdir.
  assert (Hbody : forall (days_old : value) (e : exn),
            (c <- cutoff days_old ;; matches <- glob path file_pattern ;;
             ret (c, matches)) w = (Raise e, w) ->
            execute_file_cleanup (VStr path) days_old file_pattern w
            = (Ok ("Error: " ++ exn_str e), w)).
  { intros days_old e H. unfold execute_file_cleanup.
    rewrite (try_raise _ _ w w e); [reflexivity|].
    unfold cleanup_body.
    rewrite (bind_ok _ _ _ _ _ (eq_refl (Path (VStr path) w))).
    rewrite (bind_ok _ _ _ _ _ (path_exists_dir _ _ _ Hdir)). cbn [negb].
    unfold bind in H |- *.
    destruct (cutoff days_old w) as [[c|e1] w1]; [|now inversion H].
    destruct (glob path file_pattern w1) as [[matches|e2] w2];
      [discriminate H|now inversion H]. }
  split; [|split].
  - apply (Hbody VNone (TypeError _)). reflexivity.
  - intros n Hn. apply (Hbody (VInt n) (OverflowError _)).
    unfold cutoff, lift, float_of_int, bind, gets. cbv zeta.
    replace (n * 24 * 60 * 60)%Z with (n * 86400)%Z by lia.
    pose proof (round_float_beyond _ Hn) as Hr.
    destruct (Z.leb_spec float_inf (Z.abs (round_float (n * 86400)))); [reflexivity|lia].
  - intros n s e Hs Hg. apply Hbody.
    unfold cutoff, lift, bind, gets, ret.
    replace (n * 24 * 60 * 60)%Z with (n * 86400)%Z by lia.
    rewrite Hs. unfold glob. now rewrite Hg.
Qed.

(** ** Backup *)

(** The directory a backup made at the current time goes to. *)
Definition backup_target (backup_dir : string) (w : World) : string :=
  path_join backup_dir ("backup_" ++ strftime_compact (now w)).

(** X14. The order and the texts of a backup run.  Both paths are built
    before anything is looked at, so a backup directory that is no
    string is reported whether or not the source exists.  With a source
    that is there, the backup directory is made, then the source is
    copied into the target, whose name is the backup directory in normal
    form followed by [backup_] and the time; whatever either library
    call raises is returned after [Error: ], with the disk as the call
    left it, and when both return the text is [Backup completed:
    <source> -> <target>], the source being printed as it was given. *)
Theorem backup_outcomes (source_dir backup_dir : value) (w : World) :
  (forall src,
     source_dir = VStr src -> (forall bdir, backup_dir <> VStr bdir) ->
     execute_file_backup source_dir backup_dir w
     = (Ok ("Error: expected str, bytes or os.PathLike object, not "
            ++ type_name backup_dir), w))
  /\ (forall src bdir es,
        source_dir = VStr src -> backup_dir = VStr bdir ->
        dict_get src (disk w) = Some (Dir es) ->
        (forall e d1,
           mkdir_parents bdir (disk w) = (Raise e, d1) ->
           execute_file_backup source_dir backup_dir w
           = (Ok ("Error: " ++ exn_str e), set_disk d1 w))
        /\ (forall d1 e d2,
              mkdir_parents bdir (disk w) = (Ok tt, d1) ->
              shutil_copytree src (backup_target bdir w) d1 = (Raise e, d2) ->
              execute_file_backup source_dir backup_dir w
              = (Ok ("Error: " ++ exn_str e), set_disk d2 w))
        /\ (forall d1 d2,
              mkdir_parents bdir (disk w) = (Ok tt, d1) ->
              shutil_copytree src (backup_target bdir w) d1 = (Ok tt, d2) ->
              execute_file_backup source_dir backup_dir w
              = (Ok ("Backup completed: " ++ src ++ " -> "
                     ++ backup_target bdir w), set_disk d2 w))).
Proof.
  split.
  - intros src -> Hb. unfold execute_file_backup, backup_body.
    rewrite (try_raise _ _ w w
               (TypeError ("expected str, bytes or os.PathLike object, not "
                           ++ type_name backup_dir))); [reflexivity|].
    rewrite (bind_ok _ _ _ _ _ (eq_refl (Path (VStr src) w))).
    apply bind_raise. destruct backup_dir as [| | |bdir]; try reflexivity.
    now destruct (Hb bdir).
  - intros src bdir es -> -> Hdir.
    assert (Hstart : forall k : unit -> M string,
              execute_file_backup (VStr src) (VStr bdir) w
              = try_except
                  (mkdir bdir ;; d <- gets now ;;
                   copytree src (path_join bdir ("backup_" ++ strftime_compact d)) ;;
                   ret ("Backup completed: " ++ src ++ " -> "
                        ++ path_join bdir ("backup_" ++ strftime_compact d)))
                  (fun e => ret ("Error: " ++ exn_str e)) w).
    { intros _. unfold execute_file_backup, backup_body, try_except.
      rewrite (bind_ok _ _ _ _ _ (eq_refl (Path (VStr src) w))).
      rewrite (bind_ok _ _ _ _ _ (eq_refl (Path (VStr bdir) w))).
      now rewrite (bind_ok _ _ _ _ _ (path_exists_dir _ _ _ Hdir)). }
    rewrite (Hstart (fun _ => ret "")). clear Hstart.
    assert (Hmk : forall r d1, mkdir_parents bdir (disk w) = (r, d1) ->
              mkdir bdir w = (r, set_disk d1 w)).
    { intros r d1 E. unfold mkdir, on_disk. now rewrite E. }
    assert (Hcp : forall r d1 d2,
              shutil_copytree src (backup_target bdir w) d1 = (r, d2) ->
              copytree src (backup_target bdir w) (set_disk d1 w)
              = (r, set_disk d2 w)).
    { intros r d1 d2 E. unfold copytree, on_disk. cbn [disk set_disk].
      now rewrite E. }
    split; [|split].
    + intros e d1 Em. rewrite (try_raise _ _ w (set_disk d1 w) e); [reflexivity|].
      now rewrite (bind_raise _ _ _ _ _ (Hmk _ _ Em)).
    + intros d1 e d2 Em Ec.
      rewrite (try_raise _ _ w (set_disk d2 w) e); [reflexivity|].
      rewrite (bind_ok _ _ _ _ _ (Hmk _ _ Em)).
      rewrite (bind_ok _ _ _ _ _ (eq_refl (gets now (set_disk d1 w)))).
      cbn [now set_disk]. fold (backup_target bdir w).
      now rewrite (bind_raise _ _ _ _ _ (Hcp _ _ _ Ec)).
    + intros d1 d2 Em Ec. apply try_ok.
      rewrite (bind_ok _ _ _ _ _ (Hmk _ _ Em)).
      rewrite (bind_ok _ _ _ _ _ (eq_refl (gets now (set_disk d1 w)))).
      cbn [now set_disk]. fold (backup_target bdir w).
      now rewrite (bind_ok _ _ _ _ _ (Hcp _ _ _ Ec)).
Qed.

(** X15. A backup run depends on the clock down to the second and no
    further, and on nothing else of the manager: two runs with the same
    parameters on the same disk whose clocks agree up to the second,
    whatever the microseconds, the tasks and the scheduler, name one and
    the same target, return the same text and leave the same disk. *)
Theorem backup_target_by_the_second (source_dir backup_dir : value)
    (w w' : World) :
  disk w' = disk w ->
  year (now w') = year (now w) ->
  month (now w') = month (now w) ->
  day (now w') = day (now w) ->
  hour (now w') = hour (now w) ->
  minute (now w') = minute (now w) ->
  second (now w') = second (now w) ->
  (forall bdir, backup_target bdir w' = backup_target bdir w)
  /\ fst (execute_file_backup source_dir backup_dir w')
     = fst (execute_file_backup source_dir backup_dir w)
  /\ disk (snd (execute_file_backup source_dir backup_dir w'))
     = disk (snd (execute_file_backup source_dir backup_dir w)).
Proof.
  intros Hdisk Hy Hm Hd Hh Hmi Hs.
  assert (Hst : strftime_compact (now w') = strftime_compact (now w)).
  { unfold strftime_compact, fmt_date, fmt_time.
    now rewrite Hy, Hm, Hd, Hh, Hmi, Hs. }
  split; [intros bdir; unfold backup_target; now rewrite Hst|].
  unfold execute_file_backup, try_except, backup_body, Path,
    path_exists, mkdir, copytree, on_disk, bind, gets, ret, raise.
  destruct source_dir as [| | |src], backup_dir as [| | |bdir];
    cbn [fst snd]; auto.
  rewrite Hdisk.
  destruct (dict_get src (disk w)) as [[es| |e]|];
    cbn [negb fst snd disk set_disk now]; auto;
    rewrite Hdisk, Hst;
    destruct (mkdir_parents bdir (disk w)) as [[[]|e] d1];
    cbn [fst snd disk set_disk]; auto;
    destruct (shutil_copytree src
                (path_join bdir ("backup_" ++ strftime_compact (now w))) d1)
      as [[[]|e] d2];
    cbn [fst snd disk set_disk]; auto.
Qed.

(** ** Alerts *)

(** X16. Executing an enabled alert task stored under its name, the
    document and the alert log being writable, appends exactly one line
    to the log, after what the log held: the time of the call in
    brackets, [ALERT: ] and the message.  It returns [True], records
    [Alert logged: <message>] and the time of the call in the task, and
    leaves the disk alone. *)
Theorem alert_task_logs_one_line (name : string) (t : task) (v message : value)
    (w : World) :
  dict_get name (tasks w) = Some t ->
  dict_get "enabled" t = Some v ->
  truthy v = true ->
  dict_get "type" t = Some (VStr "alert") ->
  dict_get "message" t = Some message ->
  dict_get config_file (faults w) = None ->
  dict_get alerts_file (faults w) = None ->
  exists w',
    execute_task name t w = (Ok true, w')
    /\ alerts_log w'
       = Some (match alerts_log w with Some old => old | None => "" end
               ++ ("[" ++ strftime_log (now w) ++ "] ALERT: " ++ py_str message)
               ++ newline)
    /\ last_result_of name w' = Some (VStr ("Alert logged: " ++ py_str message))
    /\ last_run_of name w' = Some (VStr (isoformat (now w)))
    /\ disk w' = disk w.
Proof.
  intros Hn He Hv Hty Hm Hf Hl.
  assert (Hb : task_body t w
               = (Ok ("Alert logged: " ++ py_str message),
                  set_alerts_log
                    (Some (match alerts_log w with Some old => old | None => "" end
                           ++ ("[" ++ strftime_log (now w) ++ "] ALERT: "
                               ++ py_str message) ++ newline)) w)).
  { unfold task_body.
    rewrite (bind_ok _ _ _ _ _ (getitem_some _ _ _ w Hty)).
    cbn [eq_str]. change (String.eqb "alert" "file_cleanup") with false.
    change (String.eqb "alert" "file_backup") with false.
    change (String.eqb "alert" "alert") with true. cbv iota.
    rewrite (bind_ok _ _ _ _ _ (getitem_some _ _ _ w Hm)).
    unfold execute_alert. rewrite (bind_ok _ _ _ _ _ (eq_refl (gets now w))).
    cbv zeta. rewrite (bind_ok _ _ _ _ _ (open_write_ok _ _ Hl)).
    reflexivity. }
  rewrite (execute_task_returned name t v _ w _ Hn He Hv Hf Hb).
  eexists. split; [reflexivity|].
  unfold last_result_of, last_run_of.
  cbn [alerts_log set_config_doc set_tasks set_alerts_log tasks disk].
  rewrite !dict_get_set_eq.
  split; [reflexivity|].
  split; [reflexivity|]. split; [|reflexivity].
  rewrite dict_get_set_neq by discriminate. apply dict_get_set_eq.
Qed.
(** ** The recurrence set *)

(** A schedule string [schedule_tasks] does something with. *)
Definition recognised (st : string) : bool :=
  startswith st "every" || contains ":" st.

(** What [register] adds to the registry: nothing or one job, under the
    name given, for a schedule that is a recognised string. *)
Lemma register_adds (name : string) (st : value) (w : World) :
  exists added,
    jobs (snd (register name st w)) = (jobs w ++ added)%list
    /\ List.length added <= 1
    /\ forall j, In j added ->
         job_name j = name
         /\ exists s, st = VStr s /\ recognised s = true
                      /\ (job_at j <> None ->
                          startswith s "every" = false /\ j = mkJob name 1 Days (Some s)).
Proof.
  assert (Hnone : exists added : list job,
            jobs w = (jobs w ++ added)%list /\ List.length added <= 1
            /\ forall j, In j added ->
                 job_name j = name
                 /\ exists s, st = VStr s /\ recognised s = true
                      /\ (job_at j <> None ->
                          startswith s "every" = false
                          /\ j = mkJob name 1 Days (Some s))).
  { exists []. rewrite app_nil_r. simpl. repeat split; auto; tauto. }
  unfold register, every, add_job, bind, lift, modify, ret, raise, recognised.
  destruct st as [| | |s]; simpl; try exact Hnone.
  destruct (startswith s "every") eqn:Ee.
  - repeat match goal with
           | |- context [if ?b then _ else _] => destruct b
           | |- context [match ?x with _ => _ end] => destruct x
           end; simpl; try exact Hnone;
      (eexists [_]; split; [reflexivity|]; split; [simpl; lia|];
       intros j [<-|[]]; split; [reflexivity|];
       exists s; rewrite Ee; split; [reflexivity|]; split; [reflexivity|];
       intros H; simpl in H; congruence).
  - destruct (contains ":" s) eqn:Ec; [|exact Hnone].
    destruct (at_check s); simpl; [exact Hnone|].
    eexists [_]. split; [reflexivity|]. split; [simpl; lia|].
    intros j [<-|[]]. split; [reflexivity|].
    exists s. rewrite Ee, Ec. repeat split; auto.
Qed.

(** What a rebuild adds: jobs of enabled tasks of the mapping with a
    recognised schedule, at most one for each entry, in their order. *)
Lemma schedule_each_adds (items : list (string * task)) :
  forall w, exists added,
    jobs (snd (schedule_each items w)) = (jobs w ++ added)%list
    /\ List.length added <= List.length items
    /\ (forall j, In j added -> In (job_name j) (keys items))
    /\ (NoDup (keys items) -> NoDup (map job_name added))
    /\ forall j, In j added ->
         exists t s,
           In (job_name j, t) items
           /\ enabled_of t = Some true
           /\ dict_get "schedule" t = Some (VStr s)
           /\ recognised s = true
           /\ (job_at j <> None ->
               startswith s "every" = false /\ j = mkJob (job_name j) 1 Days (Some s)).
Proof.
  induction items as [|[n t] rest IH]; intros w.
  - exists []. simpl. rewrite app_nil_r.
    repeat split; auto; try tauto; try constructor.
  - assert (Hskip : forall w1 a1,
              jobs w1 = (jobs w ++ a1)%list ->
              List.length a1 <= 1 ->
              (forall j, In j a1 ->
                 job_name j = n
                 /\ exists t0 s, In (job_name j, t0) ((n, t) :: rest)
                      /\ enabled_of t0 = Some true
                      /\ dict_get "schedule" t0 = Some (VStr s)
                      /\ recognised s = true
                      /\ (job_at j <> None ->
                          startswith s "every" = false
                          /\ j = mkJob (job_name j) 1 Days (Some s))) ->
              forall w2,
                (w2 = w1 \/ w2 = snd (schedule_each rest w1)) ->
              exists added,
                jobs w2 = (jobs w ++ added)%list
                /\ List.length added <= List.length ((n, t) :: rest)
                /\ (forall j, In j added -> In (job_name j) (keys ((n, t) :: rest)))
                /\ (NoDup (keys ((n, t) :: rest)) -> NoDup (map job_name added))
                /\ forall j, In j added ->
                     exists t0 s,
                       In (job_name j, t0) ((n, t) :: rest)
                       /\ enabled_of t0 = Some true
                       /\ dict_get "schedule" t0 = Some (VStr s)
                       /\ recognised s = true
                       /\ (job_at j <> None ->
                           startswith s "every" = false
                           /\ j = mkJob (job_name j) 1 Days (Some s))).
    { intros w1 a1 Hj Hl Ha w2 [-> | ->].
      - exists a1. split; [exact Hj|]. split; [simpl; lia|].
        split; [intros j Hin; left; symmetry; now apply Ha|].
        split; [|intros j Hin; now apply Ha].
        intros _. destruct a1 as [|j [|j' a1]]; simpl in *;
          [constructor|repeat constructor; simpl; tauto|lia].
      - destruct (IH w1) as (a2 & Hj2 & Hl2 & Hk2 & Hnd2 & Hp2).
        exists (a1 ++ a2)%list. rewrite Hj2, Hj, app_assoc.
        split; [reflexivity|]. split; [rewrite length_app; simpl; lia|].
        split.
        { intros j Hin. apply in_app_or in Hin. destruct Hin as [Hin|Hin].
          - left. symmetry. now apply Ha.
          - right. now apply Hk2. }
        split.
        { intros Hnd. simpl in Hnd. inversion Hnd; subst.
          rewrite map_app. apply NoDup_app; auto.
          - destruct a1 as [|j [|j' a1]]; simpl in *;
              [constructor|repeat constructor; simpl; tauto|lia].
          - intros x Hx Hx'. apply in_map_iff in Hx. destruct Hx as (j & <- & Hin).
            apply in_map_iff in Hx'. destruct Hx' as (j' & E & Hin').
            apply H1. rewrite <- (proj1 (Ha j Hin)), <- E. now apply Hk2. }
        intros j Hin. apply in_app_or in Hin. destruct Hin as [Hin|Hin].
        + now apply Ha.
        + destruct (Hp2 j Hin) as (t0 & s & Hi & Hrest).
          exists t0, s. split; [now right|exact Hrest]. }
    rewrite schedule_each_cons.
    destruct (dict_get "enabled" t) as [en|] eqn:Een.
    2:{ apply (Hskip w []); auto; try (now rewrite app_nil_r); simpl; try lia; tauto. }
    destruct (truthy en) eqn:Etr.
    2:{ apply (Hskip w []); auto; try (now rewrite app_nil_r); simpl; try lia; tauto. }
    destruct (dict_get "schedule" t) as [st|] eqn:Est.
    2:{ apply (Hskip w []); auto; try (now rewrite app_nil_r); simpl; try lia; tauto. }
    destruct (register_adds n st w) as (a1 & Hj & Hl & Ha).
    assert (Ha' : forall j, In j a1 ->
              job_name j = n
              /\ exists t0 s, In (job_name j, t0) ((n, t) :: rest)
                   /\ enabled_of t0 = Some true
                   /\ dict_get "schedule" t0 = Some (VStr s)
                   /\ recognised s = true
                   /\ (job_at j <> None ->
                       startswith s "every" = false
                       /\ j = mkJob (job_name j) 1 Days (Some s))).
    { intros j Hin. destruct (Ha j Hin) as (Hname & s & -> & Hr & Hat).
      split; [exact Hname|]. exists t, s. rewrite Hname.
      split; [now left|]. split; [unfold enabled_of; rewrite Een; simpl; now rewrite Etr|].
      split; [exact Est|]. split; [exact Hr|exact Hat]. }
    destruct (register n st w) as [[[]|e] w1]; simpl in Hj.
    + apply (Hskip w1 a1 Hj Hl Ha'). now right.
    + apply (Hskip w1 a1 Hj Hl Ha'). now left.
Qed.

(** X17. Every job of the recurrence set belongs to a task of the mapping
    that is enabled and whose schedule is a string that starts with
    [every] or contains a colon: a disabled task, and a task with any
    other schedule, has no job.  A job with a time of day comes from a
    schedule that does not start with [every], and runs daily at that
    very string. *)
Theorem registry_sound (ts : store) (j : job) :
  In j (registry ts) ->
  exists t s,
    In (job_name j, t) ts
    /\ enabled_of t = Some true
    /\ dict_get "schedule" t = Some (VStr s)
    /\ recognised s = true
    /\ (job_at j <> None ->
        startswith s "every" = false /\ j = mkJob (job_name j) 1 Days (Some s)).
Proof.
  unfold registry. intros Hin.
  match type of Hin with
  | In _ (jobs (snd (schedule_each _ ?w0))) =>
      destruct (schedule_each_adds ts w0) as (added & Hj & _ & _ & _ & Hp)
  end.
  rewrite Hj in Hin. simpl in Hin. now apply Hp.
Qed.

(** X18. The recurrence set holds at most one job for each task: it is
    no longer than the mapping, and when the names of the mapping are
    distinct, so are the names of its jobs. *)
Theorem registry_one_job_per_task (ts : store) :
  NoDup (keys ts) ->
  NoDup (map job_name (registry ts))
  /\ List.length (registry ts) <= List.length ts.
Proof.
  unfold registry. intros Hnd.
  match goal with
  | |- context [schedule_each _ ?w0] =>
      destruct (schedule_each_adds ts w0) as (added & Hj & Hl & _ & Hn & _)
  end.
  rewrite Hj. simpl. auto.
Qed.
(** ** A rebuild that fails *)

(** Nothing but the job registry changes. *)
Definition jobs_only (w w' : World) : Prop := exists js, w' = set_jobs js w.

Lemma jobs_only_refl (w : World) : jobs_only w w.
Proof. exists (jobs w). now destruct w. Qed.

Lemma jobs_only_trans (w1 w2 w3 : World) :
  jobs_only w1 w2 -> jobs_only w2 w3 -> jobs_only w1 w3.
Proof. intros (j & ->) (j' & ->). now exists j'. Qed.

Lemma jobs_only_set_jobs (f : World -> list job) :
  confined jobs_only (modify (fun w => set_jobs (f w) w)).
Proof. intros w. now exists (f w). Qed.
#[local] Hint Resolve jobs_only_refl jobs_only_trans jobs_only_set_jobs : footprint.

Lemma jobs_only_register (name : string) (st : value) :
  confined jobs_only (register name st).
Proof. unfold register, every, add_job. footprint. Qed.
#[local] Hint Resolve jobs_only_register : footprint.

Lemma jobs_only_schedule_each (items : list (string * task)) :
  confined jobs_only (schedule_each items).
Proof. induction items as [|[name t] rest IH]; simpl; footprint. Qed.

(** A rebuild over a mapping that holds an enabled task whose schedule
    [register] refuses raises, at that task or before it. *)
Lemma schedule_each_raises (name : string) (t : task) (st : value)
    (items : list (string * task)) :
  In (name, t) items ->
  enabled_of t = Some true ->
  dict_get "schedule" t = Some st ->
  (forall n w0, exists e, register n st w0 = (Raise e, w0)) ->
  forall w, exists e w', schedule_each items w = (Raise e, w').
Proof.
  intros Hin He Hs Hbad.
  induction items as [|[n t0] rest IH]; intros w; [destruct Hin|].
  rewrite schedule_each_cons. unfold enabled_of in He.
  destruct Hin as [Hhd|Hin].
  - inversion Hhd; subst n t0. rewrite Hs.
    destruct (dict_get "enabled" t) as [en|]; [|discriminate].
    simpl in He. inversion He as [Htr]. rewrite Htr.
    destruct (Hbad name w) as (e & ->). eauto.
  - destruct (dict_get "enabled" t0) as [en|]; [|eauto].
    destruct (truthy en); [|now apply IH].
    destruct (dict_get "schedule" t0) as [st0|]; [|eauto].
    destruct (register n st0 w) as [[[]|e] w1]; [now apply IH|eauto].
Qed.

(** X19. When the mapping holds an enabled task whose schedule the
    rebuild refuses (a value that is no string, a count [int] rejects, a
    time of day the schedule module rejects), [restart_scheduler] still
    returns to its caller without an error, but the scheduler is left
    stopped: the running flag is false, and nothing but the registry has
    changed. *)
Theorem bad_schedule_stops_scheduler (name : string) (t : task) (st : value)
    (w : World) :
  In (name, t) (tasks w) ->
  enabled_of t = Some true ->
  dict_get "schedule" t = Some st ->
  (forall n w0, exists e, register n st w0 = (Raise e, w0)) ->
  exists js,
    restart_scheduler w = (Ok tt, set_running false (set_jobs js w)).
Proof.
  intros Hin He Hs Hbad.
  unfold restart_scheduler, stop_scheduler, time_sleep, start_scheduler,
    bind at 1 2 3, modify, ret, gets, spawn. cbn [running set_running negb].
  unfold run_scheduler, schedule_tasks, bind at 1 2 3, modify, gets.
  cbn [tasks set_running set_jobs].
  destruct (schedule_each_raises name t st (tasks w) Hin He Hs Hbad
              (set_jobs [] (set_running false w))) as (e & w' & E).
  pose proof (jobs_only_schedule_each (tasks w) (set_jobs [] (set_running false w)))
    as (js & Hjs).
  rewrite E in Hjs |- *. simpl in Hjs. subst w'. simpl.
  exists js. reflexivity.
Qed.

(** ** The schedule grammar *)

Lemma list_ascii_of_string_append (a b : string) :
  list_ascii_of_string (a ++ b)
  = (list_ascii_of_string a ++ list_ascii_of_string b)%list.
Proof. induction a as [|c a IH]; simpl; [reflexivity|now rewrite IH]. Qed.

(** A run of characters without white space is one word. *)
Lemma split_chars_word (l cur : list ascii) :
  Forall (fun c => is_space c = false) l ->
  (cur ++ l)%list <> [] ->
  split_chars l cur = [string_of_list_ascii (rev cur ++ l)].
Proof.
  revert cur. induction l as [|c l IH]; intros cur Hl Hne.
  - rewrite app_nil_r in *. simpl. destruct cur; [congruence|reflexivity].
  - inversion Hl; subst. simpl. rewrite H1.
    rewrite IH; auto.
    + simpl. now rewrite <- app_assoc.
    + intros H. apply app_eq_nil in H. destruct H. discriminate.
Qed.

Lemma drop_while_no_prefix (c : ascii) (r : list ascii) :
  String.prefix (String c "") (string_of_list_ascii r) = false ->
  drop_while c r = r.
Proof.
  destruct r as [|a r]; simpl; [reflexivity|].
  destruct (ascii_dec c a) as [->|Hne].
  - now destruct (string_of_list_ascii r).
  - intros _. destruct (Ascii.eqb_spec a c); [congruence|reflexivity].
Qed.

(** [(s + c).rstrip(c)] is [s] when [s] does not end in [c]. *)
Lemma rstrip_suffix (c : ascii) (s : string) :
  endswith s (String c "") = false ->
  rstrip c (s ++ String c "") = s.
Proof.
  unfold endswith, rstrip, rev_string. intros H.
  rewrite list_ascii_of_string_append, rev_app_distr. simpl.
  rewrite Ascii.eqb_refl.
  rewrite (drop_while_no_prefix c _ H), rev_involutive.
  apply string_of_list_ascii_of_string.
Qed.

Lemma endswith_suffix (c d : ascii) (s : string) :
  endswith (s ++ String c "") (String d "") = Ascii.eqb d c.
Proof.
  unfold endswith, rev_string.
  rewrite list_ascii_of_string_append, rev_app_distr. simpl.
  destruct (ascii_dec d c) as [->|Hne].
  - rewrite Ascii.eqb_refl. now destruct (string_of_list_ascii _).
  - destruct (Ascii.eqb_spec d c); [congruence|reflexivity].
Qed.

Lemma split_every (word : string) :
  Forall (fun c => is_space c = false) (list_ascii_of_string word) ->
  word <> "" ->
  split ("every " ++ word) = ["every"; word].
Proof.
  intros Hw Hne. unfold split. simpl.
  rewrite split_chars_word; auto.
  - simpl. now rewrite string_of_list_ascii_of_string.
  - simpl. destruct word; [congruence|discriminate].
Qed.

(** X20. The schedule [every <N>m] asks the library for a job every [N]
    minutes and [every <N>h] for one every [N] hours, [N] being what
    [int] reads from the characters between: a count without white space
    that does not itself end in [m] or [h].  When the library takes the
    interval the job is registered; when it does not, the rebuild ends
    there as the library call does, with nothing registered. *)
Theorem every_interval_schedules (name num : string) (n : Z) (w : World) :
  Forall (fun c => is_space c = false) (list_ascii_of_string num) ->
  endswith num "m" = false ->
  endswith num "h" = false ->
  py_int num = Ok n ->
  (every_check n Minutes = None ->
   register name (VStr ("every " ++ num ++ "m")) w
   = (Ok tt, set_jobs (jobs w ++ [mkJob name n Minutes None]) w))
  /\ (every_check n Hours = None ->
      register name (VStr ("every " ++ num ++ "h")) w
      = (Ok tt, set_jobs (jobs w ++ [mkJob name n Hours None]) w))
  /\ (forall e, every_check n Minutes = Some e ->
        register name (VStr ("every " ++ num ++ "m")) w = (Raise e, w))
  /\ (forall e, every_check n Hours = Some e ->
        register name (VStr ("every " ++ num ++ "h")) w = (Raise e, w)).
Proof.
  intros Hsp Hm Hh Hint.
  assert (Hword : forall c, is_space c = false ->
            split ("every " ++ num ++ String c "") = ["every"; num ++ String c ""]).
  { intros c Hc. apply split_every.
    - rewrite list_ascii_of_string_append. apply Forall_app. split; auto.
      simpl. auto.
    - destruct num; discriminate. }
  assert (Hmin : register name (VStr ("every " ++ num ++ "m")) w
                 = every n Minutes name w).
  { unfold register. change (startswith ("every " ++ num ++ "m") "every") with true.
    cbv iota zeta. rewrite (Hword "m"%char eq_refl). cbn [List.length Nat.leb nth].
    rewrite (endswith_suffix "m" "m" num). cbn [Ascii.eqb Bool.eqb].
    rewrite (rstrip_suffix "m" num Hm), Hint. reflexivity. }
  assert (Hhour : register name (VStr ("every " ++ num ++ "h")) w
                  = every n Hours name w).
  { unfold register. change (startswith ("every " ++ num ++ "h") "every") with true.
    cbv iota zeta. rewrite (Hword "h"%char eq_refl). cbn [List.length Nat.leb nth].
    rewrite (endswith_suffix "h" "m" num). cbn [Ascii.eqb Bool.eqb].
    rewrite (endswith_suffix "h" "h" num). cbn [Ascii.eqb Bool.eqb].
    rewrite (rstrip_suffix "h" num Hh), Hint. reflexivity. }
  rewrite Hmin, Hhour. unfold every.
  repeat split; intros; match goal with H : every_check _ _ = _ |- _ => now rewrite H end.
Qed.

(** ** Saving and loading *)

(** X21. What [save_tasks] writes, [load_tasks] reads back: when the
    document is writable and [json.load] returns for the dump of the
    mapping the mapping itself, saving and then loading yields the
    mapping in memory, and a manager initialised over the saved document
    holds the same tasks, its scheduler not running. *)
Theorem save_then_load (w : World) :
  dict_get config_file (faults w) = None ->
  json_loads (json_dumps (tasks w)) = Ok (tasks w) ->
  exists w1,
    save_tasks w = (Ok tt, w1)
    /\ load_tasks w1 = (Ok (tasks w), w1)
    /\ forall w2,
         config_doc w2 = config_doc w1 ->
         exists w3, init w2 = (Ok tt, w3)
                    /\ tasks w3 = tasks w /\ running w3 = false.
Proof.
  intros Hf Hrt. rewrite (save_tasks_ok _ Hf). eexists. split; [reflexivity|].
  assert (Hload : forall w2,
            config_doc w2 = Some (json_dumps (tasks w)) ->
            load_tasks w2 = (Ok (tasks w), w2)).
  { intros w2 Hc. unfold load_tasks, bind, gets. rewrite Hc.
    unfold try_except, lift. now rewrite Hrt. }
  split; [now apply Hload|].
  intros w2 Hc. unfold init. rewrite (bind_ok _ _ _ _ _ (Hload w2 Hc)).
  eexists. split; [reflexivity|]. split; reflexivity.
Qed.

(** ** Routes *)

Lemma form_kwargs_reads (task_type : string) (form : dict string) (w : World) :
  exists r, form_kwargs task_type form w = (r, w).
Proof.
  unfold form_kwargs, bind, getitem, ret, raise, lift.
  repeat match goal with
         | |- context [if ?b then _ else _] => destruct b
         | |- context [match dict_get ?a ?b with _ => _ end] => destruct (dict_get a b)
         | |- context [match py_int ?x with _ => _ end] => destruct (py_int x)
         end; eauto.
Qed.

(** What [add_task] does when the document is writable. *)
Lemma add_task_result (name : string) (ty st : value) (kw : dict value)
    (w : World) :
  dict_get config_file (faults w) = None ->
  let t := dict_update
             [("type", ty); ("schedule", st);
              ("created", VStr (isoformat (now w)));
              ("enabled", VBool true); ("last_run", VNone)] kw in
  let ts := dict_set name t (tasks w) in
  exists r,
    add_task name ty st kw w
    = (Ok true,
       set_running r
         (set_jobs (registry ts)
            (set_config_doc (Some (json_dumps ts)) (set_tasks ts w)))).
Proof.
  intros Hf t ts. unfold add_task, bind at 1 2, gets, modify.
  fold t. fold ts.
  destruct (save_restart_registry (set_tasks ts w) Hf) as (r & E).
  exists r. exact E.
Qed.

(** X22. The route [/add_task] checks the form before it changes
    anything: when it raises, for a field that is missing or a
    [days_old] that [int] rejects, the world is what it was (the
    document being writable); and when the form is complete it stores the
    task under the submitted name with the submitted type and schedule. *)
Theorem route_add_task_checks_first (form : dict string) (w : World) :
  dict_get config_file (faults w) = None ->
  (forall e w', route_add_task form w = (Raise e, w') -> w' = w)
  /\ (forall name ty st kw,
        dict_get "name" form = Some name ->
        dict_get "type" form = Some ty ->
        dict_get "schedule" form = Some st ->
        form_kwargs ty form w = (Ok kw, w) ->
        exists w' t,
          route_add_task form w = (Ok tt, w')
          /\ dict_get name (tasks w') = Some t
          /\ dict_get "type" t = Some (VStr ty)
          /\ dict_get "schedule" t = Some (VStr st)
          /\ dict_get "enabled" t = Some (VBool true)
          /\ dict_get "last_run" t = Some VNone).
Proof.
  intros Hf. split.
  - intros e w'. unfold route_add_task, bind at 1, getitem.
    destruct (dict_get "name" form) as [name|]; [|unfold raise; now inversion 1].
    unfold ret at 1, bind at 1.
    destruct (dict_get "type" form) as [ty|]; [|unfold raise; now inversion 1].
    unfold ret at 1, bind at 1.
    destruct (dict_get "schedule" form) as [st|]; [|unfold raise; now inversion 1].
    unfold ret at 1, bind at 1.
    destruct (form_kwargs_reads ty form w) as ([kw|e0] & ->); [|now inversion 1].
    destruct (add_task_returns name (VStr ty) (VStr st) kw w Hf) as (w1 & E).
    rewrite (bind_ok _ _ _ _ _ E). unfold ret. discriminate.
  - intros name ty st kw Hn Hty Hst Hkw.
    unfold route_add_task.
    rewrite (bind_ok _ _ _ _ _ (getitem_some _ _ _ w Hn)).
    rewrite (bind_ok _ _ _ _ _ (getitem_some _ _ _ w Hty)).
    rewrite (bind_ok _ _ _ _ _ (getitem_some _ _ _ w Hst)).
    rewrite (bind_ok _ _ _ _ _ Hkw).
    pose proof (form_kwargs_keys ty form kw w w Hkw) as Hkeys.
    assert (Hother : forall k, In k base_fields -> ~ In k (keys kw)).
    { intros k Hk Hin. apply Hkeys in Hin. simpl in Hk, Hin.
      destruct Hk as [<-|[<-|[<-|[<-|[<-|[]]]]]];
        repeat (destruct Hin as [Hin|Hin]; [discriminate Hin|]); exact Hin. }
    destruct (add_task_result name (VStr ty) (VStr st) kw w Hf) as (r & E).
    cbv zeta in E. rewrite (bind_ok _ _ _ _ _ E). unfold ret. eexists _, _.
    split; [reflexivity|]. cbn [tasks set_running set_jobs set_config_doc set_tasks].
    split; [apply dict_get_set_eq|].
    repeat split; rewrite dict_update_get_other;
      try reflexivity; apply Hother; simpl; tauto.
Qed.

(** X23. The route [/toggle_scheduler] stops a running scheduler by
    clearing the flag alone, the registered jobs staying as they are; on
    a stopped one it rebuilds the recurrence set from the mapping, and
    the flag is raised exactly when the rebuild did not fail.  Either way
    it returns without an error and leaves tasks and document alone. *)
Theorem route_toggle_scheduler_spec (w : World) :
  (running w = true -> route_toggle_scheduler w = (Ok tt, set_running false w))
  /\ (running w = false ->
      exists r,
        route_toggle_scheduler w
        = (Ok tt, set_running r (set_jobs (registry (tasks w)) w))
        /\ (r = true <-> fst (schedule_tasks w) = Ok tt)).
Proof.
  unfold route_toggle_scheduler, bind, gets. split; intros Hr; rewrite Hr.
  - reflexivity.
  - unfold start_scheduler, bind, gets. rewrite Hr. cbn [negb]. unfold spawn.
    pose proof (run_scheduler_jobs w) as Hj.
    pose proof (jobs_only_schedule_each (tasks w) (set_jobs [] w)) as (js & Hjs).
    unfold run_scheduler, schedule_tasks, bind, modify, gets in *.
    cbn [tasks set_jobs] in *.
    destruct (schedule_each (tasks w) (set_jobs [] w)) as [[[]|e] w1];
      simpl in Hjs, Hj |- *; subst w1; simpl in Hj; rewrite Hj.
    + exists true. split; [reflexivity|]. split; auto.
    + exists false. rewrite <- Hr at 1. split.
      * now destruct w.
      * split; discriminate.
Qed.

End MoreProperties.

(** ** The further properties at work *)

(** A task record without an [enabled] field, as a document edited by
    hand may hold, an alert without its message, and a task whose
    interval is no number. *)
Definition bare : task := [("type", VStr "alert"); ("schedule", VStr "every 5m")].

Definition mute : task :=
  [("type", VStr "alert"); ("schedule", VStr "every 5m"); ("enabled", VBool true)].

Definition typo : task :=
  [("type", VStr "alert"); ("schedule", VStr "every xm"); ("enabled", VBool true);
   ("message", VStr "never sent")].

Definition world_odd : World :=
  mkWorld [("mute", mute); ("typo", typo); ("ping", ping); ("bare", bare)]
          false [] 1709640000 noon None None [] [].

Definition nightly_params : dict value :=
  [("source_dir", VStr "/var/tmp/reports"); ("backup_dir", VStr "/backups")].

Lemma world0_names_distinct : NoDup (keys (tasks world0)).
Proof.
  repeat constructor; simpl; intros H;
    repeat (destruct H as [H|H]; [discriminate H|]); exact H.
Qed.

Lemma remove_task_spec_witness :
  exists w',
    remove_task "mystery" world0 = (Ok true, w')
    /\ dict_get "mystery" (tasks w') = None
    /\ S (List.length (tasks w')) = 3
    /\ persisted w'.
Proof.
  destruct (remove_task_spec "mystery" mystery world0 eq_refl
              world0_names_distinct eq_refl)
    as [(w' & E & Hn & _ & Hl & _ & Hp & _) _].
  exists w'. auto.
Defined.

Lemma add_task_appends_witness :
  exists w' t,
    add_task "nightly" (VStr "file_backup") (VStr "02:00") nightly_params world0
    = (Ok true, w')
    /\ tasks w' = (tasks world0 ++ [("nightly", t)])%list
    /\ dict_get "type" t = Some (VStr "file_backup")
    /\ dict_get "enabled" t = Some (VBool true)
    /\ dict_get "backup_dir" t = Some (VStr "/backups").
Proof.
  destruct (add_task_appends "nightly" (VStr "file_backup") (VStr "02:00")
              nightly_params world0 eq_refl eq_refl)
    as (w' & t & E & Ht & _ & Hty & _ & _ & Hen & _ & Hkw & _).
  - repeat constructor; simpl; intros H;
      repeat (destruct H as [H|H]; [discriminate H|]); exact H.
  - intros k Hk Hin. simpl in Hk, Hin.
    destruct Hk as [<-|[<-|[<-|[<-|[<-|[]]]]]];
      repeat (destruct Hin as [Hin|Hin]; [discriminate Hin|]); exact Hin.
  - exists w', t. repeat split; auto.
Defined.

Lemma add_then_remove_witness :
  exists w1 w2,
    add_task "nightly" (VStr "file_backup") (VStr "02:00") nightly_params world0
    = (Ok true, w1)
    /\ remove_task "nightly" w1 = (Ok true, w2)
    /\ tasks w2 = tasks world0
    /\ config_doc w2 = Some (json_dumps (tasks world0))
    /\ jobs w2 = registry (tasks world0).
Proof.
  apply (add_then_remove "nightly" (VStr "file_backup") (VStr "02:00")
           nightly_params world0); reflexivity.
Defined.

Lemma toggle_task_frame_witness :
  exists w' t',
    toggle_task "sweep" world0 = (Ok true, w')
    /\ dict_get "sweep" (tasks w') = Some t'
    /\ dict_get "enabled" t' = Some (VBool true)
    /\ keys t' = keys sweep
    /\ (forall k, k <> "enabled" -> dict_get k t' = dict_get k sweep)
    /\ keys (tasks w') = keys (tasks world0)
    /\ (forall other, other <> "sweep" ->
          dict_get other (tasks w') = dict_get other (tasks world0)).
Proof.
  apply (toggle_task_frame "sweep" sweep (VBool false) world0); reflexivity.
Defined.

Lemma toggle_task_no_enabled_witness :
  toggle_task "bare" world_odd = (Raise (KeyError "enabled"), world_odd).
Proof.
  apply (toggle_task_no_enabled "bare" bare world_odd); reflexivity.
Defined.

Lemma execute_task_never_raises_witness :
  exists b w',
    execute_task "ping" ping world_locked = (Ok b, w')
    /\ (b = true <->
        truthy (VBool true) = true
        /\ exists r, fst (task_body ping world_locked) = Ok r).
Proof.
  apply (execute_task_never_raises "ping" ping (VBool true) world_locked);
    reflexivity.
Defined.

Lemma execute_task_frame_witness :
  keys (tasks (snd (execute_task "ping" ping world0))) = keys (tasks world0)
  /\ jobs (snd (execute_task "ping" ping world0)) = jobs world0
  /\ running (snd (execute_task "ping" ping world0)) = running world0.
Proof.
  destruct (execute_task_frame "ping" ping (VBool true) world0
              eq_refl eq_refl eq_refl eq_refl) as (Hk & _ & _ & Hj & Hr & _).
  auto.
Defined.

Lemma execute_task_absent_name_witness :
  exists w',
    execute_task "ghost" ping world0 = (Raise (KeyError "ghost"), w')
    /\ w' = snd (task_body ping world0)
    /\ tasks w' = tasks world0
    /\ config_doc w' = config_doc world0.
Proof.
  apply (execute_task_absent_name "ghost" ping (VBool true) world0); reflexivity.
Defined.

Lemma execute_task_missing_key_witness :
  fst (execute_task "mute" mute world_odd) = Ok false
  /\ last_result_of "mute" (snd (execute_task "mute" mute world_odd))
     = Some (VStr "Error: 'message'").
Proof.
  destruct (execute_task_missing_key "mute" "message" mute (VBool true) world_odd
              (missing_message mute eq_refl eq_refl)
              eq_refl eq_refl eq_refl eq_refl) as (E & _).
  rewrite E. split; reflexivity.
Defined.

Lemma execute_task_keeps_registry_witness :
  registry (tasks (snd (execute_task "ping" ping world0)))
  = registry (tasks world0).
Proof.
  apply (execute_task_keeps_registry "ping" ping (VBool true) world0);
    reflexivity.
Defined.

Lemma cleanup_removes_old_files_witness :
  fst (execute_file_cleanup (VStr "/var/tmp/reports") (VInt 7) (VStr "*.log") world0)
  = Ok "Deleted 1 files from /var/tmp/reports"
  /\ keys (listdir "/var/tmp/reports"
             (snd (execute_file_cleanup (VStr "/var/tmp/reports") (VInt 7)
                     (VStr "*.log") world0)))
     = ["notes.txt"; "busy.log"; "archive"; "fresh.log"].
Proof.
  destruct (cleanup_removes_old_files (L := RefLib) "/var/tmp/reports" "*.log" 7
              reports world0 eq_refl reports_names_distinct eq_refl eq_refl
              (fun k e Hin _ => reports_open_to_stat k e Hin) eq_refl eq_refl)
    as (w' & E & Hl & _).
  rewrite E. cbn [fst snd]. rewrite Hl. split; reflexivity.
Defined.

Lemma cleanup_bad_parameter_witness :
  execute_file_cleanup (VStr "/var/tmp/reports") VNone (VStr "*.log") world0
  = (Ok "Error: unsupported operand type(s) for *: 'NoneType' and 'int'", world0)
  /\ execute_file_cleanup (VStr "/var/tmp/reports") (VInt (10 ^ 400)) (VStr "")
       world0
     = (Ok "Error: int too large to convert to float", world0)
  /\ execute_file_cleanup (VStr "/var/tmp/reports") (VInt 7) (VStr "") world0
     = (Ok "Error: Unacceptable pattern: ''", world0).
Proof.
  split; [|split].
  - apply (cleanup_bad_parameter (L := RefLib) "/var/tmp/reports" reports
             (VStr "*.log") world0 eq_refl).
  - apply (proj1 (proj2 (cleanup_bad_parameter (L := RefLib) "/var/tmp/reports"
                           reports (VStr "") world0 eq_refl))).
    vm_compute. discriminate.
  - apply (proj2 (proj2 (cleanup_bad_parameter (L := RefLib) "/var/tmp/reports"
                           reports (VStr "") world0 eq_refl))
             7%Z 604800%Z (ValueError "Unacceptable pattern: ''")); reflexivity.
Defined.

Lemma backup_outcomes_witness :
  execute_file_backup (VStr "/nowhere") (VInt 5) world0
  = (Ok "Error: expected str, bytes or os.PathLike object, not int", world0)
  /\ fst (execute_file_backup (VStr "/var/tmp/reports") (VStr "/backups/") world0)
     = Ok "Backup completed: /var/tmp/reports -> /backups/backup_20240305_120000".
Proof.
  split.
  - apply (proj1 (backup_outcomes (L := RefLib) (VStr "/nowhere") (VInt 5) world0)
             "/nowhere" eq_refl).
    discriminate.
  - rewrite (proj2 (proj2 (proj2 (backup_outcomes (L := RefLib)
                                    (VStr "/var/tmp/reports") (VStr "/backups/")
                                    world0)
                             "/var/tmp/reports" "/backups/" reports
                             eq_refl eq_refl eq_refl))
               (snd (Ref.mkdir "/backups/" (disk world0)))
               (snd (Ref.copytree "/var/tmp/reports"
                       (backup_target "/backups/" world0)
                       (snd (Ref.mkdir "/backups/" (disk world0)))))
               eq_refl eq_refl).
    reflexivity.
Defined.

(** [world0] a moment later, within the same second. *)
Definition world0_later : World :=
  mkWorld (tasks world0) false [] 1709640000
          (mkDatetime 2024 3 5 12 0 0 250) (config_doc world0) None []
          (disk world0).

Lemma backup_target_by_the_second_witness :
  backup_target "/backups" world0_later = backup_target "/backups" world0
  /\ fst (execute_file_backup (VStr "/var/tmp/reports") (VStr "/backups")
            world0_later)
     = fst (execute_file_backup (VStr "/var/tmp/reports") (VStr "/backups")
              world0).
Proof.
  destruct (backup_target_by_the_second (L := RefLib) (VStr "/var/tmp/reports")
              (VStr "/backups") world0 world0_later
              eq_refl eq_refl eq_refl eq_refl eq_refl eq_refl eq_refl)
    as (Ht & Hr & _).
  split; [apply Ht|exact Hr].
Defined.

Lemma alert_task_logs_one_line_witness :
  exists w',
    execute_task "ping" ping world0 = (Ok true, w')
    /\ alerts_log w'
       = Some ("" ++ ("[" ++ "2024-03-05 12:00:00" ++ "] ALERT: " ++ "disk check")
               ++ newline)
    /\ last_result_of "ping" w' = Some (VStr "Alert logged: disk check")
    /\ last_run_of "ping" w' = Some (VStr "2024-03-05T12:00:00")
    /\ disk w' = disk world0.
Proof.
  apply (alert_task_logs_one_line "ping" ping (VBool true) (VStr "disk check")
           world0); reflexivity.
Defined.

Lemma registry_sound_witness :
  exists t s,
    In ("ping", t) (tasks world0)
    /\ enabled_of t = Some true
    /\ dict_get "schedule" t = Some (VStr s)
    /\ recognised s = true.
Proof.
  destruct (registry_sound (L := RefLib) (tasks world0) (mkJob "ping" 5 Minutes None))
    as (t & s & Hin & He & Hs & Hr & _).
  - vm_compute. left. reflexivity.
  - exists t, s. auto.
Defined.

Lemma registry_one_job_per_task_witness :
  NoDup (map job_name (registry (tasks world0)))
  /\ List.length (registry (tasks world0)) <= List.length (tasks world0).
Proof.
  apply (registry_one_job_per_task (tasks world0)). exact world0_names_distinct.
Defined.

Lemma bad_schedule_stops_scheduler_witness :
  exists js,
    restart_scheduler world_odd
    = (Ok tt, set_running false (set_jobs js world_odd)).
Proof.
  apply (bad_schedule_stops_scheduler (L := RefLib) "typo" typo (VStr "every xm")
           world_odd).
  - simpl. tauto.
  - reflexivity.
  - reflexivity.
  - intros n w0. eexists. reflexivity.
Defined.

Lemma every_interval_schedules_witness :
  register "ping" (VStr ("every " ++ "15" ++ "m")) world0
  = (Ok tt, set_jobs (jobs world0 ++ [mkJob "ping" 15 Minutes None]) world0)
  /\ register "ping" (VStr ("every " ++ "15" ++ "h")) world0
     = (Ok tt, set_jobs (jobs world0 ++ [mkJob "ping" 15 Hours None]) world0).
Proof.
  destruct (every_interval_schedules (L := RefLib) "ping" "15" 15 world0)
    as (Hm & Hh & _); try reflexivity.
  - repeat constructor.
  - split; [apply Hm|apply Hh]; reflexivity.
Defined.

Lemma save_then_load_witness :
  exists w1,
    save_tasks world0 = (Ok tt, w1)
    /\ load_tasks w1 = (Ok (tasks world0), w1)
    /\ forall w2,
         config_doc w2 = config_doc w1 ->
         exists w3, init w2 = (Ok tt, w3)
                    /\ tasks w3 = tasks world0 /\ running w3 = false.
Proof.
  apply (save_then_load (L := RefLib) world0); [reflexivity|].
  vm_compute. reflexivity.
Defined.

Definition alert_form : dict string :=
  [("name", "greet"); ("type", "alert"); ("schedule", "09:00");
   ("message", "good morning")].

Lemma route_add_task_checks_first_witness :
  (forall e w',
     route_add_task [("name", "greet"); ("type", "alert")] world0 = (Raise e, w') ->
     w' = world0)
  /\ exists w' t,
       route_add_task alert_form world0 = (Ok tt, w')
       /\ dict_get "greet" (tasks w') = Some t
       /\ dict_get "type" t = Some (VStr "alert")
       /\ dict_get "schedule" t = Some (VStr "09:00")
       /\ dict_get "enabled" t = Some (VBool true)
       /\ dict_get "last_run" t = Some VNone.
Proof.
  split.
  - apply (route_add_task_checks_first (L := RefLib)
             [("name", "greet"); ("type", "alert")] world0 eq_refl).
  - apply (proj2 (route_add_task_checks_first (L := RefLib) alert_form world0
                    eq_refl)
             "greet" "alert" "09:00" [("message", VStr "good morning")]);
      reflexivity.
Defined.

(** The rebuild of [world_odd] fails at [typo]: the tasks before it are
    registered, [ping] after it is not, and the flag stays down. *)
Example rebuild_stops_at_bad_schedule :
  fst (schedule_tasks world_odd)
  = Raise (ValueError "invalid literal for int() with base 10: 'x'")
  /\ jobs (snd (restart_scheduler world_odd)) = [mkJob "mute" 5 Minutes None]
  /\ running (snd (restart_scheduler world_odd)) = false.
Proof. repeat split; vm_compute; reflexivity. Qed.
